(** * Query composition and filtering engine of the venue directory

    Shallow embedding of the database services of the directory:
    - [Turso]  : src/lib/database.ts        (ORM conditions + id sub-queries)
    - [Simple] : src/lib/database-simple.ts (ORM conditions + in-memory filters)
    - [Real]   : the raw-SQL service         (joins built as SQL text)

    Tables are lists of rows (db/config.ts) whose columns hold no NULL; SQL
    numbers that hold ratings are rationals; ids, counts, limits and offsets
    are integers; JavaScript optional fields are [option]s and the
    truthiness tests of the source are written out. [ORDER BY] and
    [Array.prototype.sort] are stable sorts. Store failures (a rejected
    promise) are outside the model: every operation is a total function of
    the tables. *)

From Stdlib Require Import List ZArith QArith Bool String Ascii Lia.
From Stdlib Require Import Permutation Sorted Btauto.
Import ListNotations.
Local Open Scope Z_scope.

(* ================================================================== *)
(** ** Entity store (db/config.ts) *)

Module Business.
Record t := mk {
  id : Z;
  cid : string;
  name : string;
  slug : string;
  rating : Q;
  reviews_count : Z;
  full_address : string;
  city : string;
  state : string;
  zip_code : string;
  phone : string;
  website : string;
  image_url : string;
  lat : Q;
  lng : Q;
  maps_url : string;
  business_type : string;
  description : string;
  is_active : bool;
  featured : bool;
  verified : bool;
  meta_title : string;
  meta_description : string;
  created_at : Z;
  updated_at : Z
}.

(** Equality of two rows, column by column (numbers by value). *)
Definition eqb (a b : t) : bool :=
  (id a =? id b) && String.eqb (cid a) (cid b)
  && String.eqb (name a) (name b) && String.eqb (slug a) (slug b)
  && Qeq_bool (rating a) (rating b) && (reviews_count a =? reviews_count b)
  && String.eqb (full_address a) (full_address b)
  && String.eqb (city a) (city b) && String.eqb (state a) (state b)
  && String.eqb (zip_code a) (zip_code b) && String.eqb (phone a) (phone b)
  && String.eqb (website a) (website b)
  && String.eqb (image_url a) (image_url b)
  && Qeq_bool (lat a) (lat b) && Qeq_bool (lng a) (lng b)
  && String.eqb (maps_url a) (maps_url b)
  && String.eqb (business_type a) (business_type b)
  && String.eqb (description a) (description b)
  && Bool.eqb (is_active a) (is_active b)
  && Bool.eqb (featured a) (featured b)
  && Bool.eqb (verified a) (verified b)
  && String.eqb (meta_title a) (meta_title b)
  && String.eqb (meta_description a) (meta_description b)
  && (created_at a =? created_at b) && (updated_at a =? updated_at b).
End Business.

Module Category.
Record t := mk { id : Z; name : string; slug : string; is_active : bool }.

Definition eqb (a b : t) : bool :=
  (id a =? id b) && String.eqb (name a) (name b)
  && String.eqb (slug a) (slug b) && Bool.eqb (is_active a) (is_active b).
End Category.

Module Amenity.
Record t := mk {
  id : Z; name : string; slug : string; category : string; is_active : bool
}.

Definition eqb (a b : t) : bool :=
  (id a =? id b) && String.eqb (name a) (name b)
  && String.eqb (slug a) (slug b) && String.eqb (category a) (category b)
  && Bool.eqb (is_active a) (is_active b).
End Amenity.

Module Region.
Record t := mk {
  id : Z; name : string; slug : string; state : string; country : string
}.

Definition eqb (a b : t) : bool :=
  (id a =? id b) && String.eqb (name a) (name b)
  && String.eqb (slug a) (slug b) && String.eqb (state a) (state b)
  && String.eqb (country a) (country b).
End Region.

Module BusinessCategory.
Record t := mk { business_id : Z; category_id : Z }.
End BusinessCategory.

Module BusinessAmenity.
Record t := mk { business_id : Z; amenity_id : Z }.
End BusinessAmenity.

Module BusinessRegion.
Record t := mk { business_id : Z; region_id : Z }.
End BusinessRegion.

(** The seven tables of [defineDb]. *)
Module Db.
Record t := mk {
  businesses : list Business.t;
  categories : list Category.t;
  amenities : list Amenity.t;
  regions : list Region.t;
  business_categories : list BusinessCategory.t;
  business_amenities : list BusinessAmenity.t;
  business_regions : list BusinessRegion.t
}.
End Db.

(* ================================================================== *)
(** ** Filter specification and results (lib/types) *)

Module BusinessFilters.
Record t := mk {
  categories : option (list Z);
  amenities : option (list Z);
  regions : option (list Z);
  city : option string;
  state : option string;
  rating_min : option Q;
  featured_only : option bool;
  verified_only : option bool
}.

(** [{}] : every field absent. *)
Definition empty : t := mk None None None None None None None None.

(** [filters?.x] on an optional argument reads [undefined] for every field
    when [filters] itself is [undefined]. *)
Definition optional (filters : option t) : t :=
  match filters with Some f => f | None => empty end.
End BusinessFilters.

Module Pagination.
Record t := mk {
  page : Z;
  limit : Z;
  offset : Z;
  total : option Z;
  totalPages : option Z
}.
End Pagination.

Record BusinessResult := mkBusinessResult {
  br_business : Business.t;
  br_categories : list Category.t
}.

Record BusinessDetail := mkBusinessDetail {
  bd_business : Business.t;
  bd_categories : list Category.t;
  bd_amenities : list Amenity.t;
  bd_regions : list Region.t
}.

(* ================================================================== *)
(** ** JavaScript truthiness of the optional filter fields *)

(** [if (filters.city)] : [undefined] and the empty string are falsy. *)
Definition truthy_string (o : option string) : bool :=
  match o with
  | Some s => negb (String.eqb s EmptyString)
  | None => false
  end.

(** [if (filters.rating_min)] : [undefined] and [0] are falsy. *)
Definition truthy_number (o : option Q) : bool :=
  match o with
  | Some q => negb (Qeq_bool q 0)
  | None => false
  end.

(** [if (filters.featured_only)]. *)
Definition truthy_bool (o : option bool) : bool :=
  match o with
  | Some b => b
  | None => false
  end.

(** [filters.categories && filters.categories.length > 0] : an array, even an
    empty one, is truthy, so only the length test rejects [[]]. *)
Definition facet_supplied (o : option (list Z)) : bool :=
  match o with
  | Some l => (0 <? List.length l)%nat
  | None => false
  end.

(** The array read after the guard above ([filters.categories!]). *)
Definition facet_values (o : option (list Z)) : list Z :=
  match o with
  | Some l => l
  | None => []
  end.

(** [Array.prototype.includes] on numbers. *)
Definition includes (l : list Z) (x : Z) : bool := existsb (Z.eqb x) l.

(* ================================================================== *)
(** ** SQL operators used by the services *)

(** SQLite [LIKE]: [%] matches any run of characters, [_] one character,
    and letters A-Z match without regard to case. *)
Definition lower (c : ascii) : ascii :=
  let n := nat_of_ascii c in
  if ((65 <=? n) && (n <=? 90))%nat then ascii_of_nat (n + 32) else c.

Fixpoint like_chars (p s : list ascii) {struct p} : bool :=
  match p with
  | [] => match s with [] => true | _ :: _ => false end
  | c :: p' =>
      if Ascii.eqb c "%"%char then
        (fix any (s : list ascii) : bool :=
           like_chars p' s
           || match s with [] => false | _ :: s' => any s' end) s
      else
        match s with
        | [] => false
        | d :: s' =>
            (Ascii.eqb c "_"%char || Ascii.eqb (lower c) (lower d))
            && like_chars p' s'
        end
  end.

Definition like (value pattern : string) : bool :=
  like_chars (list_ascii_of_string pattern) (list_ascii_of_string value).

(** The template literal [`%${x}%`]. *)
Definition contains_pattern (x : string) : string :=
  ("%" ++ x ++ "%")%string.

(** [and(...conditions)] and [or(...conditions)] over one row. *)
Definition sql_and {R : Type} (conditions : list (R -> bool)) : R -> bool :=
  fun r => forallb (fun c => c r) conditions.

Definition sql_or {R : Type} (conditions : list (R -> bool)) : R -> bool :=
  fun r => existsb (fun c => c r) conditions.

(** [gte(column, v)] on a numeric column. *)
Definition gte {R : Type} (column : R -> Q) (v : Q) : R -> bool :=
  fun r => Qle_bool v (column r).

(** [ORDER BY] as a stable insertion sort on a "comes first" test. *)
Section OrderBy.
Context {R : Type} (before : R -> R -> bool).

Fixpoint insert_row (x : R) (l : list R) : list R :=
  match l with
  | [] => [x]
  | y :: l' => if before x y then x :: l else y :: insert_row x l'
  end.

Fixpoint orderBy (l : list R) : list R :=
  match l with
  | [] => []
  | x :: l' => insert_row x (orderBy l')
  end.
End OrderBy.

(** [desc(featured), desc(rating)] : featured rows first, then higher
    ratings first. *)
Definition featured_rating_desc (a b : Business.t) : bool :=
  if Bool.eqb (Business.featured a) (Business.featured b)
  then Qle_bool (Business.rating b) (Business.rating a)
  else Business.featured a.

(** [LIMIT n OFFSET m] in SQLite: a negative limit is no limit, a negative
    offset is zero. *)
Definition sql_limit_offset {R : Type} (limit offset : Z) (l : list R)
  : list R :=
  let rest := skipn (Z.to_nat offset) l in
  if limit <? 0 then rest else firstn (Z.to_nat limit) rest.

(** [Array.prototype.slice(start, end)] with its relative negative indices. *)
Definition js_slice {R : Type} (start stop : Z) (l : list R) : list R :=
  let len := Z.of_nat (List.length l) in
  let rel := fun k => if k <? 0 then Z.max (len + k) 0 else Z.min k len in
  let from := rel start in
  let upto := rel stop in
  firstn (Z.to_nat (upto - from)) (skipn (Z.to_nat from) l).

(** [a LEFT JOIN b ON on] : every left row survives, padded with NULL when
    no right row matches. *)
Definition left_join {A B : Type} (on : A -> B -> bool)
    (l : list A) (r : list B) : list (A * option B) :=
  flat_map (fun a =>
    match List.filter (on a) r with
    | [] => [(a, None)]
    | ms => map (fun b => (a, Some b)) ms
    end) l.

(** [a INNER JOIN b ON on]. *)
Definition inner_join {A B : Type} (on : A -> B -> bool)
    (l : list A) (r : list B) : list (A * B) :=
  flat_map (fun a => map (fun b => (a, b)) (List.filter (on a) r)) l.

(** [GROUP BY key] : the distinct keys in order of first appearance. *)
Fixpoint group_keys {K : Type} (eqb : K -> K -> bool) (l : list K) : list K :=
  match l with
  | [] => []
  | k :: l' => k :: List.filter (fun k' => negb (eqb k k')) (group_keys eqb l')
  end.

(** Early [return] inside a function body. *)
Inductive Flow (R A : Type) : Type :=
| Return (r : R)
| Next (a : A).
Arguments Return {R A} r.
Arguments Next {R A} a.

Notation "x <- e ;; k" :=
  (match e with Return r => Return r | Next x => k end)
  (at level 61, e at next level, right associativity, only parsing).

Definition run {R : Type} (f : Flow R R) : R :=
  match f with Return r => r | Next r => r end.

(** [eq(column, v)] on boolean, numeric and text columns, [like(column, p)]. *)
Definition eq_bool {R : Type} (column : R -> bool) (v : bool) : R -> bool :=
  fun r => Bool.eqb (column r) v.

Definition eq_num {R : Type} (column : R -> Z) (v : Z) : R -> bool :=
  fun r => column r =? v.

Definition eq_text {R : Type} (column : R -> string) (v : string) : R -> bool :=
  fun r => String.eqb (column r) v.

Definition like_col {R : Type} (column : R -> string) (pattern : string)
  : R -> bool :=
  fun r => like (column r) pattern.

(** [LIMIT n] alone. *)
Definition sql_limit {R : Type} (limit : Z) (l : list R) : list R :=
  sql_limit_offset limit 0 l.

(** The value read from a field once its truthiness test has passed. *)
Definition string_value (o : option string) : string :=
  match o with Some s => s | None => EmptyString end.

Definition number_value (o : option Q) : Q :=
  match o with Some q => q | None => 0%Q end.

(** A JavaScript [Map]: entries in insertion order, [set] on a key that is
    present replaces its value in place. *)
Section JsMap.
Context {K V : Type} (eqb : K -> K -> bool).

Fixpoint map_get (m : list (K * V)) (k : K) : option V :=
  match m with
  | [] => None
  | (k', v) :: m' => if eqb k' k then Some v else map_get m' k
  end.

Fixpoint map_set (m : list (K * V)) (k : K) (v : V) : list (K * V) :=
  match m with
  | [] => [(k, v)]
  | (k', v') :: m' =>
      if eqb k' k then (k', v) :: m' else (k', v') :: map_set m' k v
  end.

Definition map_has (m : list (K * V)) (k : K) : bool :=
  match map_get m k with Some _ => true | None => false end.
End JsMap.

(** The categories attached to each returned listing:
    [categories INNER JOIN business_categories ON id = category_id
     WHERE business_id = ? AND categories.is_active]. *)
Definition categories_of (db : Db.t) (business_id : Z) : list Category.t :=
  map fst
    (List.filter
       (fun r => (BusinessCategory.business_id (snd r) =? business_id)
                 && Bool.eqb (Category.is_active (fst r)) true)
       (inner_join
          (fun c bc => Category.id c =? BusinessCategory.category_id bc)
          (Db.categories db) (Db.business_categories db))).

Definition amenities_of (db : Db.t) (business_id : Z) : list Amenity.t :=
  map fst
    (List.filter
       (fun r => (BusinessAmenity.business_id (snd r) =? business_id)
                 && Bool.eqb (Amenity.is_active (fst r)) true)
       (inner_join
          (fun a ba => Amenity.id a =? BusinessAmenity.amenity_id ba)
          (Db.amenities db) (Db.business_amenities db))).

Definition regions_of (db : Db.t) (business_id : Z) : list Region.t :=
  map fst
    (List.filter
       (fun r => BusinessRegion.business_id (snd r) =? business_id)
       (inner_join
          (fun rg br => Region.id rg =? BusinessRegion.region_id br)
          (Db.regions db) (Db.business_regions db))).

Definition attach_categories (db : Db.t) (businessList : list Business.t)
  : list BusinessResult :=
  map (fun business =>
         mkBusinessResult business (categories_of db (Business.id business)))
      businessList.

(* ================================================================== *)
(** ** TursoDatabase (src/lib/database.ts) *)

Module Turso.

(** The block "For complex filtering with categories, amenities, and regions"
    that getBusinesses, searchBusinesses, getBusinessCount and getSearchCount
    each carry verbatim; [empty] is what the function returns early
    ([[]] or [0]). *)
Definition resolve_business_ids {R : Type} (empty : R) (db : Db.t)
    (filters : BusinessFilters.t) : Flow R (option (list Z)) :=
  let businessIds : option (list Z) := None in
  (* Filter by categories if specified *)
  businessIds <-
    (if facet_supplied (BusinessFilters.categories filters) then
       let categoryBusinesses :=
         List.filter
           (sql_or (map (fun id => eq_num BusinessCategory.category_id id)
                        (facet_values (BusinessFilters.categories filters))))
           (Db.business_categories db) in
       let businessIds := map BusinessCategory.business_id categoryBusinesses in
       if (List.length businessIds =? 0)%nat then Return empty
       else Next (Some businessIds)
     else Next businessIds) ;;
  (* Filter by amenities if specified *)
  businessIds <-
    (if facet_supplied (BusinessFilters.amenities filters) then
       let amenityBusinesses :=
         List.filter
           (sql_or (map (fun id => eq_num BusinessAmenity.amenity_id id)
                        (facet_values (BusinessFilters.amenities filters))))
           (Db.business_amenities db) in
       let amenityBusinessIds :=
         map BusinessAmenity.business_id amenityBusinesses in
       let businessIds :=
         match businessIds with
         | Some ids =>
             List.filter (fun id => includes amenityBusinessIds id) ids
         | None => amenityBusinessIds
         end in
       if (List.length businessIds =? 0)%nat then Return empty
       else Next (Some businessIds)
     else Next businessIds) ;;
  (* Filter by regions if specified *)
  businessIds <-
    (if facet_supplied (BusinessFilters.regions filters) then
       let regionBusinesses :=
         List.filter
           (sql_or (map (fun id => eq_num BusinessRegion.region_id id)
                        (facet_values (BusinessFilters.regions filters))))
           (Db.business_regions db) in
       let regionBusinessIds :=
         map BusinessRegion.business_id regionBusinesses in
       let businessIds :=
         match businessIds with
         | Some ids =>
             List.filter (fun id => includes regionBusinessIds id) ids
         | None => regionBusinessIds
         end in
       if (List.length businessIds =? 0)%nat then Return empty
       else Next (Some businessIds)
     else Next businessIds) ;;
  Next businessIds.

(** [let condition = businessConditions[0]; for (i = 1; ...) condition =
    or(condition, businessConditions[i])]; nothing when the array is empty. *)
Definition or_chain (businessConditions : list (Business.t -> bool))
  : option (Business.t -> bool) :=
  match businessConditions with
  | [] => None
  | condition :: rest =>
      Some (fold_left (fun condition nextCondition =>
                         sql_or [condition; nextCondition]) rest condition)
  end.

Definition push_chain
    (conditions businessConditions : list (Business.t -> bool))
  : list (Business.t -> bool) :=
  match or_chain businessConditions with
  | Some condition => conditions ++ [condition]
  | None => conditions
  end.

(** The search OR-group over name, description, full address, city and
    business type. *)
Definition search_group (query : string) : Business.t -> bool :=
  let searchTerm := contains_pattern query in
  sql_or [ like_col Business.name searchTerm;
           like_col Business.description searchTerm;
           like_col Business.full_address searchTerm;
           like_col Business.city searchTerm;
           like_col Business.business_type searchTerm ].

Definition getBusinesses (db : Db.t) (filters : BusinessFilters.t)
    (pagination : Pagination.t) : list BusinessResult :=
  run (
    (* Build base conditions *)
    let conditions : list (Business.t -> bool) :=
      [eq_bool Business.is_active true] in
    let conditions :=
      if truthy_string (BusinessFilters.city filters)
      then conditions ++
           [like_col Business.city
              (contains_pattern (string_value (BusinessFilters.city filters)))]
      else conditions in
    let conditions :=
      if truthy_string (BusinessFilters.state filters)
      then conditions ++
           [like_col Business.state
              (contains_pattern (string_value (BusinessFilters.state filters)))]
      else conditions in
    let conditions :=
      if truthy_number (BusinessFilters.rating_min filters)
      then conditions ++
           [gte Business.rating
              (number_value (BusinessFilters.rating_min filters))]
      else conditions in
    let conditions :=
      if truthy_bool (BusinessFilters.featured_only filters)
      then conditions ++ [eq_bool Business.featured true] else conditions in
    let conditions :=
      if truthy_bool (BusinessFilters.verified_only filters)
      then conditions ++ [eq_bool Business.verified true] else conditions in
    businessIds <- resolve_business_ids [] db filters ;;
    (* Add business ID filter if we have specific IDs to filter by *)
    conditions <-
      (match businessIds with
       | Some ids =>
           if (0 <? List.length ids)%nat then
             if (List.length ids =? 1)%nat then
               Next (conditions ++ [eq_num Business.id (hd 0 ids)])
             else
               let businessConditions :=
                 map (fun id => eq_num Business.id id) ids in
               if (List.length businessConditions =? 1)%nat then
                 Next (conditions ++ firstn 1 businessConditions)
               else if (1 <? List.length businessConditions)%nat then
                 Next (push_chain conditions businessConditions)
               else Next conditions
           else Return []
       | None => Next conditions
       end) ;;
    let businessList :=
      sql_limit_offset (Pagination.limit pagination)
        (Pagination.offset pagination)
        (orderBy featured_rating_desc
           (List.filter (sql_and conditions) (Db.businesses db))) in
    Next (attach_categories db businessList)).

Definition searchBusinesses (db : Db.t) (query : string)
    (filters : BusinessFilters.t) (pagination : Pagination.t)
  : list BusinessResult :=
  run (
    (* Build base search conditions *)
    let searchConditions : list (Business.t -> bool) :=
      [eq_bool Business.is_active true; search_group query] in
    let searchConditions :=
      if truthy_string (BusinessFilters.city filters)
      then searchConditions ++
           [like_col Business.city
              (contains_pattern (string_value (BusinessFilters.city filters)))]
      else searchConditions in
    let searchConditions :=
      if truthy_string (BusinessFilters.state filters)
      then searchConditions ++
           [like_col Business.state
              (contains_pattern (string_value (BusinessFilters.state filters)))]
      else searchConditions in
    let searchConditions :=
      if truthy_bool (BusinessFilters.featured_only filters)
      then searchConditions ++ [eq_bool Business.featured true]
      else searchConditions in
    let searchConditions :=
      if truthy_bool (BusinessFilters.verified_only filters)
      then searchConditions ++ [eq_bool Business.verified true]
      else searchConditions in
    businessIds <- resolve_business_ids [] db filters ;;
    searchConditions <-
      (match businessIds with
       | Some ids =>
           if (0 <? List.length ids)%nat then
             if (List.length ids =? 1)%nat then
               Next (searchConditions ++ [eq_num Business.id (hd 0 ids)])
             else
               Next (push_chain searchConditions
                       (map (fun id => eq_num Business.id id) ids))
           else Return []
       | None => Next searchConditions
       end) ;;
    let businessList :=
      sql_limit_offset (Pagination.limit pagination)
        (Pagination.offset pagination)
        (orderBy featured_rating_desc
           (List.filter (sql_and searchConditions) (Db.businesses db))) in
    Next (attach_categories db businessList)).

(** The tail shared by the two counters: the id condition, then
    [SELECT count() ... WHERE and(...conditions)]. *)
Definition count_where (db : Db.t) (conditions : list (Business.t -> bool))
    (businessIds : option (list Z)) : Flow Z Z :=
  conditions <-
    (match businessIds with
     | Some ids =>
         if (List.length ids =? 0)%nat then Return 0
         else if (List.length ids =? 1)%nat then
           Next (conditions ++ [eq_num Business.id (hd 0 ids)])
         else if (1 <? List.length ids)%nat then
           Next (push_chain conditions
                   (map (fun id => eq_num Business.id id) ids))
         else Next conditions
     | None => Next conditions
     end) ;;
  Next (Z.of_nat
          (List.length (List.filter (sql_and conditions) (Db.businesses db)))).

Definition getBusinessCount (db : Db.t) (filters : option BusinessFilters.t)
  : Z :=
  let filters := BusinessFilters.optional filters in
  run (
    let conditions : list (Business.t -> bool) :=
      [eq_bool Business.is_active true] in
    (* Apply simple filters *)
    let conditions :=
      if truthy_string (BusinessFilters.city filters)
      then conditions ++
           [like_col Business.city
              (contains_pattern (string_value (BusinessFilters.city filters)))]
      else conditions in
    let conditions :=
      if truthy_string (BusinessFilters.state filters)
      then conditions ++
           [like_col Business.state
              (contains_pattern (string_value (BusinessFilters.state filters)))]
      else conditions in
    let conditions :=
      if truthy_bool (BusinessFilters.featured_only filters)
      then conditions ++ [eq_bool Business.featured true] else conditions in
    let conditions :=
      if truthy_bool (BusinessFilters.verified_only filters)
      then conditions ++ [eq_bool Business.verified true] else conditions in
    businessIds <- resolve_business_ids 0 db filters ;;
    count_where db conditions businessIds).

Definition getSearchCount (db : Db.t) (query : string)
    (filters : option BusinessFilters.t) : Z :=
  let filters := BusinessFilters.optional filters in
  run (
    let conditions : list (Business.t -> bool) :=
      [eq_bool Business.is_active true; search_group query] in
    (* Apply simple filters *)
    let conditions :=
      if truthy_string (BusinessFilters.city filters)
      then conditions ++
           [like_col Business.city
              (contains_pattern (string_value (BusinessFilters.city filters)))]
      else conditions in
    let conditions :=
      if truthy_string (BusinessFilters.state filters)
      then conditions ++
           [like_col Business.state
              (contains_pattern (string_value (BusinessFilters.state filters)))]
      else conditions in
    let conditions :=
      if truthy_bool (BusinessFilters.featured_only filters)
      then conditions ++ [eq_bool Business.featured true] else conditions in
    let conditions :=
      if truthy_bool (BusinessFilters.verified_only filters)
      then conditions ++ [eq_bool Business.verified true] else conditions in
    businessIds <- resolve_business_ids 0 db filters ;;
    count_where db conditions businessIds).

Definition getBusinessBySlug (db : Db.t) (slug : string)
  : option BusinessDetail :=
  let businessResult :=
    sql_limit 1
      (List.filter
         (sql_and [eq_text Business.slug slug; eq_bool Business.is_active true])
         (Db.businesses db)) in
  match businessResult with
  | [] => None
  | business :: _ =>
      Some (mkBusinessDetail business
              (categories_of db (Business.id business))
              (amenities_of db (Business.id business))
              (regions_of db (Business.id business)))
  end.

Record CategoryWithCount := mkCategoryWithCount {
  cwc_category : Category.t;
  cwc_business_count : Z
}.

(** [count(column)] counts the rows of a group whose column is not NULL. *)
Definition count_non_null {R A : Type} (column : R -> option A) (rows : list R)
  : Z :=
  Z.of_nat (List.length
              (List.filter
                 (fun r =>
                    match column r with Some _ => true | None => false end)
                 rows)).

(** The joined rows of getCategoriesWithCounts before grouping:
    [categories LEFT JOIN business_categories ON id = category_id
                LEFT JOIN businesses ON business_id = businesses.id
                                     AND businesses.is_active
     WHERE categories.is_active]. *)
Definition category_join (db : Db.t)
  : list ((Category.t * option BusinessCategory.t) * option Business.t) :=
  List.filter
    (fun r => Bool.eqb (Category.is_active (fst (fst r))) true)
    (left_join
       (fun cbc b =>
          match snd cbc with
          | Some bc =>
              (BusinessCategory.business_id bc =? Business.id b)
              && Bool.eqb (Business.is_active b) true
          | None => false
          end)
       (left_join
          (fun c bc => Category.id c =? BusinessCategory.category_id bc)
          (Db.categories db) (Db.business_categories db))
       (Db.businesses db)).

Definition getCategoriesWithCounts (db : Db.t) : list CategoryWithCount :=
  let rows := category_join db in
  let groups := group_keys Category.eqb (map (fun r => fst (fst r)) rows) in
  let categoriesWithCounts :=
    map (fun c =>
           mkCategoryWithCount c
             (* business_count: count(business_categories.business_id) *)
             (count_non_null
                (fun r => option_map BusinessCategory.business_id (snd (fst r)))
                (List.filter (fun r => Category.eqb c (fst (fst r))) rows)))
        groups in
  orderBy (fun x y => String.leb (Category.name (cwc_category x))
                                 (Category.name (cwc_category y)))
          categoriesWithCounts.

Record StateCounts := mkStateCounts {
  sc_state : string;
  sc_business_count : Z;
  sc_region_count : Z
}.

(** [SELECT state, count(id) ... GROUP BY state ORDER BY state] over the
    state column of a table. *)
Definition count_by_state (states : list string) : list (string * Z) :=
  orderBy (fun x y => String.leb (fst x) (fst y))
    (map (fun s =>
            (s, Z.of_nat (List.length (List.filter (String.eqb s) states))))
         (group_keys String.eqb states)).

Section StatesWithCounts.
(** [String.prototype.localeCompare] of the host, negative when the receiver
    sorts first. *)
Variable localeCompare : string -> string -> Z.

Definition getStatesWithCounts (db : Db.t) : list StateCounts :=
  (* Get business counts by state *)
  let businessCounts :=
    count_by_state
      (map Business.state
         (List.filter (eq_bool Business.is_active true) (Db.businesses db))) in
  (* Get region counts by state *)
  let regionCounts := count_by_state (map Region.state (Db.regions db)) in
  (* Combine the data *)
  let stateMap : list (string * (Z * Z)) := [] in
  let stateMap :=
    fold_left (fun stateMap item =>
                 map_set String.eqb stateMap (fst item) (snd item, 0))
              businessCounts stateMap in
  let stateMap :=
    fold_left (fun stateMap item =>
                 match map_get String.eqb stateMap (fst item) with
                 | Some existing =>
                     map_set String.eqb stateMap (fst item)
                       (fst existing, snd item)
                 | None =>
                     map_set String.eqb stateMap (fst item) (0, snd item)
                 end)
              regionCounts stateMap in
  orderBy (fun a b => localeCompare (sc_state a) (sc_state b) <=? 0)
    (map (fun entry =>
            mkStateCounts (fst entry) (fst (snd entry)) (snd (snd entry)))
         stateMap).
End StatesWithCounts.

(** [ORDER BY first ASC, second ASC] on two text columns. *)
Definition asc_then_asc {R : Type} (first second : R -> string) (x y : R)
  : bool :=
  if String.eqb (first x) (first y)
  then String.leb (second x) (second y)
  else String.leb (first x) (first y).

(** Get all active categories. *)
Definition getCategories (db : Db.t) : list Category.t :=
  orderBy (fun x y => String.leb (Category.name x) (Category.name y))
    (List.filter (eq_bool Category.is_active true) (Db.categories db)).

(** Get all active amenities. *)
Definition getAmenities (db : Db.t) : list Amenity.t :=
  orderBy (asc_then_asc Amenity.category Amenity.name)
    (List.filter (eq_bool Amenity.is_active true) (Db.amenities db)).

(** Get all regions (the table has no [is_active] column). *)
Definition getRegions (db : Db.t) : list Region.t :=
  orderBy (asc_then_asc Region.state Region.name) (Db.regions db).

(** [result[0] || null] after [LIMIT 1]: a row object is always truthy. *)
Definition first_or_null {R : Type} (result : list R) : option R :=
  match result with
  | [] => None
  | row :: _ => Some row
  end.

Definition getCategoryBySlug (db : Db.t) (slug : string)
  : option Category.t :=
  first_or_null
    (sql_limit 1
       (List.filter
          (sql_and [eq_text Category.slug slug;
                    eq_bool Category.is_active true])
          (Db.categories db))).

Definition getAmenityBySlug (db : Db.t) (slug : string) : option Amenity.t :=
  first_or_null
    (sql_limit 1
       (List.filter
          (sql_and [eq_text Amenity.slug slug; eq_bool Amenity.is_active true])
          (Db.amenities db))).

Definition getRegionBySlug (db : Db.t) (slug : string) : option Region.t :=
  first_or_null
    (sql_limit 1 (List.filter (eq_text Region.slug slug) (Db.regions db))).

Record AmenityWithCount := mkAmenityWithCount {
  awc_amenity : Amenity.t;
  awc_business_count : Z
}.

Record RegionWithCount := mkRegionWithCount {
  rwc_region : Region.t;
  rwc_business_count : Z
}.

(** [amenities LEFT JOIN business_amenities ON id = amenity_id
               LEFT JOIN businesses ON business_id = businesses.id
                                    AND businesses.is_active
     WHERE amenities.is_active]. *)
Definition amenity_join (db : Db.t)
  : list ((Amenity.t * option BusinessAmenity.t) * option Business.t) :=
  List.filter
    (fun r => Bool.eqb (Amenity.is_active (fst (fst r))) true)
    (left_join
       (fun aba b =>
          match snd aba with
          | Some ba =>
              (BusinessAmenity.business_id ba =? Business.id b)
              && Bool.eqb (Business.is_active b) true
          | None => false
          end)
       (left_join
          (fun a ba => Amenity.id a =? BusinessAmenity.amenity_id ba)
          (Db.amenities db) (Db.business_amenities db))
       (Db.businesses db)).

Definition getAmenitiesWithCounts (db : Db.t) : list AmenityWithCount :=
  let rows := amenity_join db in
  let groups := group_keys Amenity.eqb (map (fun r => fst (fst r)) rows) in
  let amenitiesWithCounts :=
    map (fun a =>
           mkAmenityWithCount a
             (count_non_null
                (fun r => option_map BusinessAmenity.business_id (snd (fst r)))
                (List.filter (fun r => Amenity.eqb a (fst (fst r))) rows)))
        groups in
  orderBy (fun x y => asc_then_asc Amenity.category Amenity.name
                        (awc_amenity x) (awc_amenity y))
          amenitiesWithCounts.

(** [regions LEFT JOIN business_regions ON id = region_id
             LEFT JOIN businesses ON business_id = businesses.id
                                  AND businesses.is_active]. *)
Definition region_join (db : Db.t)
  : list ((Region.t * option BusinessRegion.t) * option Business.t) :=
  left_join
    (fun rbr b =>
       match snd rbr with
       | Some br =>
           (BusinessRegion.business_id br =? Business.id b)
           && Bool.eqb (Business.is_active b) true
       | None => false
       end)
    (left_join
       (fun r br => Region.id r =? BusinessRegion.region_id br)
       (Db.regions db) (Db.business_regions db))
    (Db.businesses db).

Definition count_regions
    (rows : list ((Region.t * option BusinessRegion.t) * option Business.t))
  : list RegionWithCount :=
  map (fun g =>
         mkRegionWithCount g
           (count_non_null
              (fun r => option_map BusinessRegion.business_id (snd (fst r)))
              (List.filter (fun r => Region.eqb g (fst (fst r))) rows)))
      (group_keys Region.eqb (map (fun r => fst (fst r)) rows)).

Definition getRegionsWithCounts (db : Db.t) : list RegionWithCount :=
  orderBy (fun x y => asc_then_asc Region.state Region.name
                        (rwc_region x) (rwc_region y))
          (count_regions (region_join db)).

(** Get regions for a specific state with business counts. *)
Definition getRegionsByState (db : Db.t) (state : string)
  : list RegionWithCount :=
  orderBy (fun x y => String.leb (Region.name (rwc_region x))
                                 (Region.name (rwc_region y)))
          (count_regions
             (List.filter (fun r => eq_text Region.state state (fst (fst r)))
                (region_join db))).

End Turso.

(* ================================================================== *)
(** ** SimpleDatabase (src/lib/database-simple.ts) *)

Module Simple.

(** The loop shared by the three private helpers: group the selected junction
    rows into a [Map<number, number[]>] from listing id to facet ids. *)
Definition collect (rows : list (Z * Z)) : list (Z * list Z) :=
  fold_left
    (fun m row =>
       let m := if negb (map_has Z.eqb m (fst row))
                then map_set Z.eqb m (fst row) [] else m in
       match map_get Z.eqb m (fst row) with
       | Some ids => map_set Z.eqb m (fst row) (ids ++ [snd row])
       | None => m
       end)
    rows [].

Definition getBusinessesWithCategories (db : Db.t) (businessIds : list Z)
  : list (Z * list Z) :=
  if (List.length businessIds =? 0)%nat then []
  else
    let businessCategories :=
      List.filter
        (sql_or (map (fun id => eq_num BusinessCategory.business_id id)
                     businessIds))
        (Db.business_categories db) in
    collect (map (fun bc => (BusinessCategory.business_id bc,
                             BusinessCategory.category_id bc))
                 businessCategories).

Definition getBusinessesWithAmenities (db : Db.t) (businessIds : list Z)
  : list (Z * list Z) :=
  if (List.length businessIds =? 0)%nat then []
  else
    let businessAmenities :=
      List.filter
        (sql_or (map (fun id => eq_num BusinessAmenity.business_id id)
                     businessIds))
        (Db.business_amenities db) in
    collect (map (fun ba => (BusinessAmenity.business_id ba,
                             BusinessAmenity.amenity_id ba))
                 businessAmenities).

Definition getBusinessesWithRegions (db : Db.t) (businessIds : list Z)
  : list (Z * list Z) :=
  if (List.length businessIds =? 0)%nat then []
  else
    let businessRegions :=
      List.filter
        (sql_or (map (fun id => eq_num BusinessRegion.business_id id)
                     businessIds))
        (Db.business_regions db) in
    collect (map (fun br => (BusinessRegion.business_id br,
                             BusinessRegion.region_id br))
                 businessRegions).

(** [businesses.filter(b =>
      facet.some(id => (m.get(b.id) || []).includes(id)))]. *)
Definition filter_by_facet (m : list (Z * list Z)) (facet : list Z)
    (businesses : list Business.t) : list Business.t :=
  List.filter
    (fun business =>
       let memberships :=
         match map_get Z.eqb m (Business.id business) with
         | Some ids => ids
         | None => []
         end in
       existsb (fun facetId => includes memberships facetId) facet)
    businesses.

(** "Apply complex filters using JavaScript filtering", as written in
    getBusinesses and in getBusinessCount. *)
Definition apply_complex_filters (db : Db.t) (filters : BusinessFilters.t)
    (businesses : list Business.t) : list Business.t :=
  let businesses :=
    if facet_supplied (BusinessFilters.categories filters) then
      let businessesWithCategories :=
        getBusinessesWithCategories db (map Business.id businesses) in
      filter_by_facet businessesWithCategories
        (facet_values (BusinessFilters.categories filters)) businesses
    else businesses in
  let businesses :=
    if facet_supplied (BusinessFilters.amenities filters) then
      let businessesWithAmenities :=
        getBusinessesWithAmenities db (map Business.id businesses) in
      filter_by_facet businessesWithAmenities
        (facet_values (BusinessFilters.amenities filters)) businesses
    else businesses in
  let businesses :=
    if facet_supplied (BusinessFilters.regions filters) then
      let businessesWithRegions :=
        getBusinessesWithRegions db (map Business.id businesses) in
      filter_by_facet businessesWithRegions
        (facet_values (BusinessFilters.regions filters)) businesses
    else businesses in
  businesses.

Definition getBusinesses (db : Db.t) (filters : BusinessFilters.t)
    (pagination : Pagination.t) : list BusinessResult :=
  (* Build base conditions *)
  let conditions : list (Business.t -> bool) :=
    [eq_bool Business.is_active true] in
  let conditions :=
    if truthy_string (BusinessFilters.city filters)
    then conditions ++
         [like_col Business.city
            (contains_pattern (string_value (BusinessFilters.city filters)))]
    else conditions in
  let conditions :=
    if truthy_string (BusinessFilters.state filters)
    then conditions ++
         [like_col Business.state
            (contains_pattern (string_value (BusinessFilters.state filters)))]
    else conditions in
  let conditions :=
    if truthy_number (BusinessFilters.rating_min filters)
    then conditions ++
         [gte Business.rating
            (number_value (BusinessFilters.rating_min filters))]
    else conditions in
  let conditions :=
    if truthy_bool (BusinessFilters.featured_only filters)
    then conditions ++ [eq_bool Business.featured true] else conditions in
  let conditions :=
    if truthy_bool (BusinessFilters.verified_only filters)
    then conditions ++ [eq_bool Business.verified true] else conditions in
  (* Get all businesses that match basic filters *)
  let businesses :=
    orderBy featured_rating_desc
      (List.filter (sql_and conditions) (Db.businesses db)) in
  let businesses := apply_complex_filters db filters businesses in
  (* Apply pagination *)
  let startIndex := Pagination.offset pagination in
  let endIndex := startIndex + Pagination.limit pagination in
  let paginatedBusinesses := js_slice startIndex endIndex businesses in
  attach_categories db paginatedBusinesses.

Definition getBusinessCount (db : Db.t) (filters : option BusinessFilters.t)
  : Z :=
  let filters := BusinessFilters.optional filters in
  let conditions : list (Business.t -> bool) :=
    [eq_bool Business.is_active true] in
  (* Apply simple filters *)
  let conditions :=
    if truthy_string (BusinessFilters.city filters)
    then conditions ++
         [like_col Business.city
            (contains_pattern (string_value (BusinessFilters.city filters)))]
    else conditions in
  let conditions :=
    if truthy_string (BusinessFilters.state filters)
    then conditions ++
         [like_col Business.state
            (contains_pattern (string_value (BusinessFilters.state filters)))]
    else conditions in
  let conditions :=
    if truthy_bool (BusinessFilters.featured_only filters)
    then conditions ++ [eq_bool Business.featured true] else conditions in
  let conditions :=
    if truthy_bool (BusinessFilters.verified_only filters)
    then conditions ++ [eq_bool Business.verified true] else conditions in
  let businesses := List.filter (sql_and conditions) (Db.businesses db) in
  let businesses := apply_complex_filters db filters businesses in
  Z.of_nat (List.length businesses).

(** Search businesses across multiple fields. *)
Definition searchBusinesses (db : Db.t) (query : string)
    (filters : BusinessFilters.t) (pagination : Pagination.t)
  : list BusinessResult :=
  (* Build base search conditions *)
  let searchConditions : list (Business.t -> bool) :=
    [eq_bool Business.is_active true; Turso.search_group query] in
  let searchConditions :=
    if truthy_string (BusinessFilters.city filters)
    then searchConditions ++
         [like_col Business.city
            (contains_pattern (string_value (BusinessFilters.city filters)))]
    else searchConditions in
  let searchConditions :=
    if truthy_string (BusinessFilters.state filters)
    then searchConditions ++
         [like_col Business.state
            (contains_pattern (string_value (BusinessFilters.state filters)))]
    else searchConditions in
  let searchConditions :=
    if truthy_bool (BusinessFilters.featured_only filters)
    then searchConditions ++ [eq_bool Business.featured true]
    else searchConditions in
  let searchConditions :=
    if truthy_bool (BusinessFilters.verified_only filters)
    then searchConditions ++ [eq_bool Business.verified true]
    else searchConditions in
  (* Get all businesses that match search and basic filters *)
  let businesses :=
    orderBy featured_rating_desc
      (List.filter (sql_and searchConditions) (Db.businesses db)) in
  let businesses := apply_complex_filters db filters businesses in
  (* Apply pagination *)
  let startIndex := Pagination.offset pagination in
  let endIndex := startIndex + Pagination.limit pagination in
  let paginatedBusinesses := js_slice startIndex endIndex businesses in
  attach_categories db paginatedBusinesses.

Definition getSearchCount (db : Db.t) (query : string)
    (filters : option BusinessFilters.t) : Z :=
  let filters := BusinessFilters.optional filters in
  let conditions : list (Business.t -> bool) :=
    [eq_bool Business.is_active true; Turso.search_group query] in
  (* Apply simple filters *)
  let conditions :=
    if truthy_string (BusinessFilters.city filters)
    then conditions ++
         [like_col Business.city
            (contains_pattern (string_value (BusinessFilters.city filters)))]
    else conditions in
  let conditions :=
    if truthy_string (BusinessFilters.state filters)
    then conditions ++
         [like_col Business.state
            (contains_pattern (string_value (BusinessFilters.state filters)))]
    else conditions in
  let conditions :=
    if truthy_bool (BusinessFilters.featured_only filters)
    then conditions ++ [eq_bool Business.featured true] else conditions in
  let conditions :=
    if truthy_bool (BusinessFilters.verified_only filters)
    then conditions ++ [eq_bool Business.verified true] else conditions in
  let businesses := List.filter (sql_and conditions) (Db.businesses db) in
  let businesses := apply_complex_filters db filters businesses in
  Z.of_nat (List.length businesses).

End Simple.

(* ================================================================== *)
(** ** RealDatabase (raw SQL through the libSQL client) *)

Module Real.

(** One row of [businesses b] joined with whichever junction tables the
    filter pulled in; a table that was not joined contributes [None]. *)
Record Row := mkRow {
  b : Business.t;
  bc : option BusinessCategory.t;
  ba : option BusinessAmenity.t;
  br : option BusinessRegion.t
}.

(** [FROM businesses b] followed by the [INNER JOIN]s appended to the query
    text, each [ON b.id = x.business_id]. *)
Definition from_clause (db : Db.t) (filters : BusinessFilters.t) : list Row :=
  flat_map (fun b =>
    flat_map (fun bc =>
      flat_map (fun ba =>
        map (fun br => mkRow b bc ba br)
          (if facet_supplied (BusinessFilters.regions filters)
           then map Some
                  (List.filter
                     (fun br => Business.id b =? BusinessRegion.business_id br)
                     (Db.business_regions db))
           else [None]))
        (if facet_supplied (BusinessFilters.amenities filters)
         then map Some
                (List.filter
                   (fun ba => Business.id b =? BusinessAmenity.business_id ba)
                   (Db.business_amenities db))
         else [None]))
      (if facet_supplied (BusinessFilters.categories filters)
       then map Some
              (List.filter
                 (fun bc => Business.id b =? BusinessCategory.business_id bc)
                 (Db.business_categories db))
       else [None]))
    (Db.businesses db).

(** The conditions pushed together with the joins: [x.facet_id IN (...)].
    Each is pushed only when its table is joined. *)
Definition facet_conditions (filters : BusinessFilters.t)
    (whereConditions : list (Row -> bool)) : list (Row -> bool) :=
  let whereConditions :=
    if facet_supplied (BusinessFilters.categories filters)
    then whereConditions ++
         [fun r => match bc r with
                   | Some x =>
                       includes
                         (facet_values (BusinessFilters.categories filters))
                         (BusinessCategory.category_id x)
                   | None => false
                   end]
    else whereConditions in
  let whereConditions :=
    if facet_supplied (BusinessFilters.amenities filters)
    then whereConditions ++
         [fun r => match ba r with
                   | Some x =>
                       includes
                         (facet_values (BusinessFilters.amenities filters))
                         (BusinessAmenity.amenity_id x)
                   | None => false
                   end]
    else whereConditions in
  let whereConditions :=
    if facet_supplied (BusinessFilters.regions filters)
    then whereConditions ++
         [fun r => match br r with
                   | Some x =>
                       includes
                         (facet_values (BusinessFilters.regions filters))
                         (BusinessRegion.region_id x)
                   | None => false
                   end]
    else whereConditions in
  whereConditions.

Definition getBusinesses (db : Db.t) (filters : BusinessFilters.t)
    (pagination : Pagination.t) : list BusinessResult :=
  let whereConditions : list (Row -> bool) :=
    [fun r => Bool.eqb (Business.is_active (b r)) true] in
  (* Apply simple filters *)
  let whereConditions :=
    if truthy_string (BusinessFilters.city filters)
    then whereConditions ++
         [fun r => like (Business.city (b r))
                     (contains_pattern
                        (string_value (BusinessFilters.city filters)))]
    else whereConditions in
  let whereConditions :=
    if truthy_string (BusinessFilters.state filters)
    then whereConditions ++
         [fun r => like (Business.state (b r))
                     (contains_pattern
                        (string_value (BusinessFilters.state filters)))]
    else whereConditions in
  let whereConditions :=
    if truthy_number (BusinessFilters.rating_min filters)
    then whereConditions ++
         [fun r => Qle_bool (number_value (BusinessFilters.rating_min filters))
                            (Business.rating (b r))]
    else whereConditions in
  let whereConditions :=
    if truthy_bool (BusinessFilters.featured_only filters)
    then whereConditions ++ [fun r => Bool.eqb (Business.featured (b r)) true]
    else whereConditions in
  let whereConditions :=
    if truthy_bool (BusinessFilters.verified_only filters)
    then whereConditions ++ [fun r => Bool.eqb (Business.verified (b r)) true]
    else whereConditions in
  (* Add joins for complex filters *)
  let whereConditions := facet_conditions filters whereConditions in
  (* SELECT DISTINCT b.* ... WHERE ... ORDER BY ... LIMIT ... OFFSET ... *)
  let rows :=
    sql_limit_offset (Pagination.limit pagination)
      (Pagination.offset pagination)
      (orderBy featured_rating_desc
         (group_keys Business.eqb
            (map b (List.filter (sql_and whereConditions)
                      (from_clause db filters))))) in
  attach_categories db rows.

Definition getBusinessCount (db : Db.t) (filters : option BusinessFilters.t)
  : Z :=
  let filters := BusinessFilters.optional filters in
  let whereConditions : list (Row -> bool) :=
    [fun r => Bool.eqb (Business.is_active (b r)) true] in
  (* Apply simple filters *)
  let whereConditions :=
    if truthy_string (BusinessFilters.city filters)
    then whereConditions ++
         [fun r => like (Business.city (b r))
                     (contains_pattern
                        (string_value (BusinessFilters.city filters)))]
    else whereConditions in
  let whereConditions :=
    if truthy_string (BusinessFilters.state filters)
    then whereConditions ++
         [fun r => like (Business.state (b r))
                     (contains_pattern
                        (string_value (BusinessFilters.state filters)))]
    else whereConditions in
  let whereConditions :=
    if truthy_bool (BusinessFilters.featured_only filters)
    then whereConditions ++ [fun r => Bool.eqb (Business.featured (b r)) true]
    else whereConditions in
  let whereConditions :=
    if truthy_bool (BusinessFilters.verified_only filters)
    then whereConditions ++ [fun r => Bool.eqb (Business.verified (b r)) true]
    else whereConditions in
  let whereConditions := facet_conditions filters whereConditions in
  (* SELECT COUNT(DISTINCT b.id) as count *)
  Z.of_nat
    (List.length
       (group_keys Z.eqb
          (map (fun r => Business.id (b r))
             (List.filter (sql_and whereConditions)
                (from_clause db filters))))).

(** The search group of the raw query text:
    [(b.name LIKE ?1 OR b.description LIKE ?1 OR b.full_address LIKE ?1
      OR b.city LIKE ?1 OR b.business_type LIKE ?1)]. *)
Definition search_condition (searchTerm : string) : Row -> bool :=
  fun r => like (Business.name (b r)) searchTerm
           || like (Business.description (b r)) searchTerm
           || like (Business.full_address (b r)) searchTerm
           || like (Business.city (b r)) searchTerm
           || like (Business.business_type (b r)) searchTerm.

Definition searchBusinesses (db : Db.t) (query : string)
    (filters : BusinessFilters.t) (pagination : Pagination.t)
  : list BusinessResult :=
  let searchTerm := contains_pattern query in
  let whereConditions : list (Row -> bool) :=
    [fun r => Bool.eqb (Business.is_active (b r)) true;
     search_condition searchTerm] in
  (* Apply additional filters *)
  let whereConditions :=
    if truthy_string (BusinessFilters.city filters)
    then whereConditions ++
         [fun r => like (Business.city (b r))
                     (contains_pattern
                        (string_value (BusinessFilters.city filters)))]
    else whereConditions in
  let whereConditions :=
    if truthy_string (BusinessFilters.state filters)
    then whereConditions ++
         [fun r => like (Business.state (b r))
                     (contains_pattern
                        (string_value (BusinessFilters.state filters)))]
    else whereConditions in
  let whereConditions :=
    if truthy_bool (BusinessFilters.featured_only filters)
    then whereConditions ++ [fun r => Bool.eqb (Business.featured (b r)) true]
    else whereConditions in
  let whereConditions :=
    if truthy_bool (BusinessFilters.verified_only filters)
    then whereConditions ++ [fun r => Bool.eqb (Business.verified (b r)) true]
    else whereConditions in
  (* Add joins for complex filters *)
  let whereConditions := facet_conditions filters whereConditions in
  let rows :=
    sql_limit_offset (Pagination.limit pagination)
      (Pagination.offset pagination)
      (orderBy featured_rating_desc
         (group_keys Business.eqb
            (map b (List.filter (sql_and whereConditions)
                      (from_clause db filters))))) in
  attach_categories db rows.

Definition getSearchCount (db : Db.t) (query : string)
    (filters : option BusinessFilters.t) : Z :=
  let filters := BusinessFilters.optional filters in
  let searchTerm := contains_pattern query in
  let whereConditions : list (Row -> bool) :=
    [fun r => Bool.eqb (Business.is_active (b r)) true;
     search_condition searchTerm] in
  (* Apply additional filters *)
  let whereConditions :=
    if truthy_string (BusinessFilters.city filters)
    then whereConditions ++
         [fun r => like (Business.city (b r))
                     (contains_pattern
                        (string_value (BusinessFilters.city filters)))]
    else whereConditions in
  let whereConditions :=
    if truthy_string (BusinessFilters.state filters)
    then whereConditions ++
         [fun r => like (Business.state (b r))
                     (contains_pattern
                        (string_value (BusinessFilters.state filters)))]
    else whereConditions in
  let whereConditions :=
    if truthy_bool (BusinessFilters.featured_only filters)
    then whereConditions ++ [fun r => Bool.eqb (Business.featured (b r)) true]
    else whereConditions in
  let whereConditions :=
    if truthy_bool (BusinessFilters.verified_only filters)
    then whereConditions ++ [fun r => Bool.eqb (Business.verified (b r)) true]
    else whereConditions in
  let whereConditions := facet_conditions filters whereConditions in
  (* SELECT COUNT(DISTINCT b.id) as count *)
  Z.of_nat
    (List.length
       (group_keys Z.eqb
          (map (fun r => Business.id (b r))
             (List.filter (sql_and whereConditions)
                (from_clause db filters))))).

End Real.

(* ================================================================== *)
(** ** Vocabulary of the statements *)

(** Steps 1-2 of the lister as one test on a listing: active, then each
    scalar field of the filter that is set. *)
Definition scalar_matches (filters : BusinessFilters.t) (b : Business.t)
  : bool :=
  Bool.eqb (Business.is_active b) true
  && (if truthy_string (BusinessFilters.city filters)
      then like (Business.city b)
             (contains_pattern (string_value (BusinessFilters.city filters)))
      else true)
  && (if truthy_string (BusinessFilters.state filters)
      then like (Business.state b)
             (contains_pattern (string_value (BusinessFilters.state filters)))
      else true)
  && (if truthy_number (BusinessFilters.rating_min filters)
      then Qle_bool (number_value (BusinessFilters.rating_min filters))
             (Business.rating b)
      else true)
  && (if truthy_bool (BusinessFilters.featured_only filters)
      then Bool.eqb (Business.featured b) true else true)
  && (if truthy_bool (BusinessFilters.verified_only filters)
      then Bool.eqb (Business.verified b) true else true).

(** The same test without the rating floor: what the counters and the
    search operations build. *)
Definition scalar_matches_no_rating (filters : BusinessFilters.t)
    (b : Business.t) : bool :=
  Bool.eqb (Business.is_active b) true
  && (if truthy_string (BusinessFilters.city filters)
      then like (Business.city b)
             (contains_pattern (string_value (BusinessFilters.city filters)))
      else true)
  && (if truthy_string (BusinessFilters.state filters)
      then like (Business.state b)
             (contains_pattern (string_value (BusinessFilters.state filters)))
      else true)
  && (if truthy_bool (BusinessFilters.featured_only filters)
      then Bool.eqb (Business.featured b) true else true)
  && (if truthy_bool (BusinessFilters.verified_only filters)
      then Bool.eqb (Business.verified b) true else true).

(** A listing id holds one of the facet values in a junction table. *)
Definition in_categories (db : Db.t) (facet : list Z) (id : Z) : bool :=
  existsb (fun bc => (BusinessCategory.business_id bc =? id)
                     && includes facet (BusinessCategory.category_id bc))
          (Db.business_categories db).

Definition in_amenities (db : Db.t) (facet : list Z) (id : Z) : bool :=
  existsb (fun ba => (BusinessAmenity.business_id ba =? id)
                     && includes facet (BusinessAmenity.amenity_id ba))
          (Db.business_amenities db).

Definition in_regions (db : Db.t) (facet : list Z) (id : Z) : bool :=
  existsb (fun br => (BusinessRegion.business_id br =? id)
                     && includes facet (BusinessRegion.region_id br))
          (Db.business_regions db).

(** Union within a facet, intersection across the supplied facets. *)
Definition facets_match (db : Db.t) (filters : BusinessFilters.t) (id : Z)
  : bool :=
  (if facet_supplied (BusinessFilters.categories filters)
   then in_categories db (facet_values (BusinessFilters.categories filters)) id
   else true)
  && (if facet_supplied (BusinessFilters.amenities filters)
      then in_amenities db (facet_values (BusinessFilters.amenities filters)) id
      else true)
  && (if facet_supplied (BusinessFilters.regions filters)
      then in_regions db (facet_values (BusinessFilters.regions filters)) id
      else true).

(** The listings a result list carries. *)
Definition listings (results : list BusinessResult) : list Business.t :=
  map br_business results.

(** The same database with another listings table. *)
Definition with_businesses (db : Db.t) (l : list Business.t) : Db.t :=
  Db.mk l (Db.categories db) (Db.amenities db) (Db.regions db)
    (Db.business_categories db) (Db.business_amenities db)
    (Db.business_regions db).

(** Membership rows, as the junction tables hold them. *)
Definition holds_category (db : Db.t) (id category_id : Z) : Prop :=
  In (BusinessCategory.mk id category_id) (Db.business_categories db).

Definition holds_amenity (db : Db.t) (id amenity_id : Z) : Prop :=
  In (BusinessAmenity.mk id amenity_id) (Db.business_amenities db).

Definition holds_region (db : Db.t) (id region_id : Z) : Prop :=
  In (BusinessRegion.mk id region_id) (Db.business_regions db).

(** A facet admits a listing when it is not supplied, or when the listing
    holds at least one of the supplied values. *)
Definition facet_admits (facet : option (list Z)) (holds : Z -> Prop)
  : Prop :=
  facet_supplied facet = true ->
  exists x, In x (facet_values facet) /\ holds x.

(** The multi-valued facets and the filter with one of them replaced. *)
Inductive Facet : Type := CategoryFacet | AmenityFacet | RegionFacet.

Definition set_facet (k : Facet) (o : option (list Z))
    (f : BusinessFilters.t) : BusinessFilters.t :=
  match k with
  | CategoryFacet =>
      BusinessFilters.mk o (BusinessFilters.amenities f)
        (BusinessFilters.regions f) (BusinessFilters.city f)
        (BusinessFilters.state f) (BusinessFilters.rating_min f)
        (BusinessFilters.featured_only f) (BusinessFilters.verified_only f)
  | AmenityFacet =>
      BusinessFilters.mk (BusinessFilters.categories f) o
        (BusinessFilters.regions f) (BusinessFilters.city f)
        (BusinessFilters.state f) (BusinessFilters.rating_min f)
        (BusinessFilters.featured_only f) (BusinessFilters.verified_only f)
  | RegionFacet =>
      BusinessFilters.mk (BusinessFilters.categories f)
        (BusinessFilters.amenities f) o (BusinessFilters.city f)
        (BusinessFilters.state f) (BusinessFilters.rating_min f)
        (BusinessFilters.featured_only f) (BusinessFilters.verified_only f)
  end.

(** The filter with its rating floor replaced. *)
Definition set_rating_min (o : option Q) (f : BusinessFilters.t)
  : BusinessFilters.t :=
  BusinessFilters.mk (BusinessFilters.categories f)
    (BusinessFilters.amenities f) (BusinessFilters.regions f)
    (BusinessFilters.city f) (BusinessFilters.state f) o
    (BusinessFilters.featured_only f) (BusinessFilters.verified_only f).

(** The listings table restricted to active rows. *)
Definition active_only (db : Db.t) : Db.t :=
  with_businesses db
    (List.filter (fun b => Business.is_active b) (Db.businesses db)).

(** [R[i]] comes before-or-level with [R[j]] in the documented order. *)
Definition ordered_pair (x y : Business.t) : Prop :=
  (Business.featured x = true /\ Business.featured y = false)
  \/ (Business.featured x = Business.featured y
      /\ (Business.rating y <= Business.rating x)%Q).

(** The page a lister returns once its conditions are known. *)
Definition page_of (pagination : Pagination.t) (p : Business.t -> bool)
    (db : Db.t) : list Business.t :=
  sql_limit_offset (Pagination.limit pagination) (Pagination.offset pagination)
    (orderBy featured_rating_desc (List.filter p (Db.businesses db))).

(** What is known of [businessIds] between two facet blocks: [None] is "no
    restriction so far", [Some ids] is a non-empty list that holds exactly
    the ids accepted so far. *)
Definition ids_invariant (cur : option (list Z)) (accepted : Z -> bool)
  : Prop :=
  match cur with
  | Some ids => ids <> [] /\ forall id, includes ids id = accepted id
  | None => forall id, accepted id = true
  end.

(** The same for a block that may have returned early: an early return
    hands back [empty] and no id at all is accepted. *)
Definition flow_invariant {R : Type} (empty : R)
    (flow : Flow R (option (list Z))) (accepted : Z -> bool) : Prop :=
  match flow with
  | Return r => r = empty /\ forall id, accepted id = false
  | Next cur => ids_invariant cur accepted
  end.

(** The data model's key constraint on [slug], as far as the lookup needs
    it: two active listings with the same slug are the same listing. *)
Definition slug_is_key (db : Db.t) : Prop :=
  forall x y, In x (Db.businesses db) -> In y (Db.businesses db) ->
    Business.is_active x = true -> Business.is_active y = true ->
    Business.slug x = Business.slug y -> Business.id x = Business.id y.

(** The number of rows of a table with a given state. *)
Definition rows_in_state (states : list string) (s : string) : Z :=
  Z.of_nat (List.length (List.filter (String.eqb s) states)).

(** The business count a map holds for a state, zero when it has none. *)
Definition held_business_count (m : list (string * (Z * Z))) (s : string)
  : Z :=
  match map_get String.eqb m s with
  | Some existing => fst existing
  | None => 0
  end.

(** The ids a [Map<number, number[]>] holds for a key, [[]] when absent:
    [m.get(k) || []]. *)
Definition get_or_empty (m : list (Z * list Z)) (k : Z) : list Z :=
  match map_get Z.eqb m k with
  | Some ids => ids
  | None => []
  end.

(** The count the catalog is documented to show for a category: the
    distinct listings with [is_active = true] that hold a membership row
    for it. *)
Definition distinct_active_holders (db : Db.t) (category_id : Z) : Z :=
  Z.of_nat
    (List.length
       (group_keys Z.eqb
          (map BusinessCategory.business_id
             (List.filter
                (fun bc =>
                   (BusinessCategory.category_id bc =? category_id)
                   && existsb
                        (fun b =>
                           (Business.id b =? BusinessCategory.business_id bc)
                           && Business.is_active b)
                        (Db.businesses db))
                (Db.business_categories db))))).

(** A membership row of the facet's own junction table. *)
Definition holds (k : Facet) (db : Db.t) (id facet_id : Z) : Prop :=
  match k with
  | CategoryFacet => holds_category db id facet_id
  | AmenityFacet => holds_amenity db id facet_id
  | RegionFacet => holds_region db id facet_id
  end.

(** A membership row between a listing and an amenity or a region, by
    their ids. *)
Definition is_member_category (db : Db.t) (b : Business.t) (c : Category.t)
  : Prop :=
  holds_category db (Business.id b) (Category.id c).

Definition is_member_amenity (db : Db.t) (b : Business.t) (a : Amenity.t)
  : Prop :=
  holds_amenity db (Business.id b) (Amenity.id a).

Definition is_member_region (db : Db.t) (b : Business.t) (r : Region.t)
  : Prop :=
  holds_region db (Business.id b) (Region.id r).

(** A text holds another as a run of consecutive characters. *)
Definition contains (value part : string) : Prop :=
  exists before after : string,
    value = String.append before (String.append part after).

(** A text with its letters A-Z turned to a-z. *)
Definition lowercase (s : string) : string :=
  string_of_list_ascii (map lower (list_ascii_of_string s)).

(** A query made of [%] signs only (the empty query is one). *)
Definition only_percent_signs (query : string) : Prop :=
  Forall (fun c => c = "%"%char) (list_ascii_of_string query).

(** The five text columns the search group reads. *)
Definition searched_columns (b : Business.t) : list string :=
  [Business.name b; Business.description b; Business.full_address b;
   Business.city b; Business.business_type b].

(** [m] repeats every element of [l] one or more times, in place: what
    a LEFT JOIN does to its left rows. *)
Inductive stutter {A : Type} : list A -> list A -> Prop :=
| stutter_nil : stutter [] []
| stutter_cons (a : A) (n : nat) (l m : list A) :
    stutter l m -> stutter (a :: l) (repeat a (S n) ++ m).

(** The membership rows that name a category. *)
Definition membership_rows (db : Db.t) (c : Category.t)
  : list BusinessCategory.t :=
  List.filter (fun bc => Category.id c =? BusinessCategory.category_id bc)
    (Db.business_categories db).

(** The states of the active listings and of the regions, row by row. *)
Definition listing_states (db : Db.t) : list string :=
  map Business.state
    (List.filter (fun b => Business.is_active b) (Db.businesses db)).

Definition region_states (db : Db.t) : list string :=
  map Region.state (Db.regions db).

(** The sum of a column of counts. *)
Definition total (counts : list Z) : Z := fold_right Z.add 0 counts.





(** The membership rows that name an amenity, and those that name a
    region. *)
Definition amenity_rows (db : Db.t) (a : Amenity.t)
  : list BusinessAmenity.t :=
  List.filter (fun ba => Amenity.id a =? BusinessAmenity.amenity_id ba)
    (Db.business_amenities db).

Definition region_rows (db : Db.t) (r : Region.t)
  : list BusinessRegion.t :=
  List.filter (fun br => Region.id r =? BusinessRegion.region_id br)
    (Db.business_regions db).

(* ================================================================== *)
(** ** Sample data *)

(** A listing with the columns the queries read; the others are blank. *)
Definition listing (id : Z) (name slug : string) (rating : Q)
    (city state : string) (is_active featured : bool) : Business.t :=
  Business.mk id EmptyString name slug rating 0 EmptyString city state
    EmptyString EmptyString EmptyString EmptyString 0%Q 0%Q EmptyString
    EmptyString EmptyString is_active featured false EmptyString EmptyString
    0 0.

Definition page (limit offset : Z) : Pagination.t :=
  Pagination.mk 1 limit offset None None.

(** Three active listings: L1 (category 1, amenity 10), L2 (category 1,
    amenity 11), L3 (category 3, amenity 10). *)
Definition L1 : Business.t :=
  listing 1 "Crown" "crown" (4 # 1) "Perth" "WA" true false.

Definition L2 : Business.t :=
  listing 2 "Star" "star" (9 # 2) "Sydney" "NSW" true true.

Definition L3 : Business.t :=
  listing 3 "Sky" "sky" (3 # 1) "Adelaide" "SA" true false.

Definition facet_db : Db.t :=
  Db.mk [L1; L2; L3]
    [Category.mk 1 "Casino" "casino" true; Category.mk 2 "Pub" "pub" true;
     Category.mk 3 "Club" "club" true]
    [Amenity.mk 10 "Parking" "parking" "access" true;
     Amenity.mk 11 "Bar" "bar" "food" true]
    [Region.mk 1 "Perth Metro" "perth-metro" "WA" "Australia";
     Region.mk 2 "Darwin" "darwin" "NT" "Australia"]
    [BusinessCategory.mk 1 1; BusinessCategory.mk 2 1;
     BusinessCategory.mk 3 3]
    [BusinessAmenity.mk 1 10; BusinessAmenity.mk 2 11;
     BusinessAmenity.mk 3 10]
    [].

(** [{categories: [1, 2], amenities: [10]}]. *)
Definition facet_filter : BusinessFilters.t :=
  BusinessFilters.mk (Some [1; 2]) (Some [10]) None None None None None None.

(** [{rating_min: 4}]. *)
Definition rating_filter : BusinessFilters.t :=
  set_rating_min (Some (4 # 1)) BusinessFilters.empty.

(** One active listing rated 3. *)
Definition low_rated_db : Db.t :=
  Db.mk [L3] [] [] [] [] [] [].

(** One active category; listing 7 is inactive and holds it once, listing 8
    is active and holds it through two identical membership rows. *)
Definition catalog_db : Db.t :=
  Db.mk
    [listing 7 "Closed" "closed" (4 # 1) "Perth" "WA" false false;
     listing 8 "Open" "open" (4 # 1) "Perth" "WA" true false]
    [Category.mk 1 "Casino" "casino" true; Category.mk 2 "Pub" "pub" true]
    [] []
    [BusinessCategory.mk 7 1; BusinessCategory.mk 8 2;
     BusinessCategory.mk 8 2]
    [] [].

(** A comparison of strings by character codes, standing for
    [localeCompare] in the examples. *)
Definition code_order (a b : string) : Z :=
  match String.compare a b with
  | Lt => -1
  | Eq => 0
  | Gt => 1
  end.

(* ================================================================== *)
(** ** Lists, ordering and pagination *)

Section ListFacts.
Context {R : Type}.

Lemma filter_none (p : R -> bool) (l : list R) :
  (forall x, In x l -> p x = false) -> List.filter p l = [].
Proof.
  induction l as [|a l IH]; simpl; intros H; [reflexivity|].
  rewrite (H a (or_introl eq_refl)). apply IH. intros x Hx. apply H. now right.
Qed.

Lemma filter_filter_implied (p q : R -> bool) (l : list R) :
  (forall x, p x = true -> q x = true) ->
  List.filter p (List.filter q l) = List.filter p l.
Proof.
  intros H. induction l as [|a l IH]; simpl; [reflexivity|].
  destruct (q a) eqn:Eq; simpl.
  - rewrite IH. reflexivity.
  - destruct (p a) eqn:Ep; [|exact IH].
    apply H in Ep. congruence.
Qed.

Lemma filter_length_mono (p q : R -> bool) (l : list R) :
  (forall x, p x = true -> q x = true) ->
  (List.length (List.filter p l) <= List.length (List.filter q l))%nat.
Proof.
  intros H. induction l as [|a l IH]; simpl; [lia|].
  destruct (p a) eqn:Ep.
  - rewrite (H a Ep). simpl. lia.
  - destruct (q a); simpl; lia.
Qed.

Lemma insert_row_perm (before : R -> R -> bool) (x : R) (l : list R) :
  Permutation (insert_row before x l) (x :: l).
Proof.
  induction l as [|y l IH]; simpl; [apply Permutation_refl|].
  destruct (before x y); [apply Permutation_refl|].
  eapply Permutation_trans; [apply perm_skip, IH | apply perm_swap].
Qed.

Lemma orderBy_perm (before : R -> R -> bool) (l : list R) :
  Permutation (orderBy before l) l.
Proof.
  induction l as [|x l IH]; simpl; [constructor|].
  eapply Permutation_trans; [apply insert_row_perm | now apply perm_skip].
Qed.

Lemma orderBy_In (before : R -> R -> bool) (l : list R) (x : R) :
  In x (orderBy before l) <-> In x l.
Proof.
  split; apply Permutation_in;
    [apply orderBy_perm | apply Permutation_sym, orderBy_perm].
Qed.

Lemma orderBy_length (before : R -> R -> bool) (l : list R) :
  List.length (orderBy before l) = List.length l.
Proof. apply Permutation_length, orderBy_perm. Qed.

Section Sortedness.
Variable before : R -> R -> bool.
Hypothesis before_total : forall x y, before x y = true \/ before y x = true.
Hypothesis before_trans :
  forall x y z, before x y = true -> before y z = true -> before x z = true.

Let follows (x y : R) : Prop := before x y = true.

Lemma insert_row_sorted (x : R) (l : list R) :
  StronglySorted follows l -> StronglySorted follows (insert_row before x l).
Proof.
  induction 1 as [|y l Hs IH Hy]; simpl.
  - repeat constructor.
  - destruct (before x y) eqn:E.
    + constructor; [now constructor|].
      constructor; [exact E|].
      rewrite Forall_forall in *. intros z Hz.
      eapply before_trans; [exact E | now apply Hy].
    + constructor; [exact IH|].
      rewrite Forall_forall in *. intros z Hz.
      apply (Permutation_in _ (insert_row_perm before x l)) in Hz.
      destruct Hz as [<-|Hz]; [|now apply Hy].
      destruct (before_total x y) as [C|C]; [congruence|exact C].
Qed.

Lemma orderBy_sorted (l : list R) : StronglySorted follows (orderBy before l).
Proof.
  induction l as [|x l IH]; simpl; [constructor|].
  now apply insert_row_sorted.
Qed.
End Sortedness.

Lemma StronglySorted_skipn (rel : R -> R -> Prop) (n : nat) (l : list R) :
  StronglySorted rel l -> StronglySorted rel (skipn n l).
Proof.
  revert l. induction n as [|n IH]; intros l H; simpl; [exact H|].
  destruct l as [|a l]; [constructor|].
  apply IH. now inversion H.
Qed.

Lemma StronglySorted_firstn (rel : R -> R -> Prop) (n : nat) (l : list R) :
  StronglySorted rel l -> StronglySorted rel (firstn n l).
Proof.
  revert l. induction n as [|n IH]; intros l H; simpl; [constructor|].
  destruct l as [|a l]; [constructor|].
  inversion H as [|? ? Hs Hf]; subst. constructor; [now apply IH|].
  rewrite Forall_forall in *. intros z Hz. apply Hf.
  rewrite <- (firstn_skipn n l). apply in_or_app. now left.
Qed.

Lemma StronglySorted_filter (rel : R -> R -> Prop) (p : R -> bool)
    (l : list R) :
  StronglySorted rel l -> StronglySorted rel (List.filter p l).
Proof.
  induction 1 as [|a l Hs IH Hf]; simpl; [constructor|].
  destruct (p a); [|exact IH].
  constructor; [exact IH|].
  rewrite Forall_forall in *. intros z Hz. apply Hf.
  now apply filter_In in Hz.
Qed.

Lemma StronglySorted_nth (rel : R -> R -> Prop) (l : list R) :
  StronglySorted rel l ->
  forall i j x y, (i < j)%nat ->
    nth_error l i = Some x -> nth_error l j = Some y -> rel x y.
Proof.
  induction 1 as [|a l Hs IH Hf]; intros i j x y Hij Hi Hj.
  - destruct i; discriminate.
  - destruct j as [|j]; [lia|]. simpl in Hj.
    destruct i as [|i]; simpl in Hi.
    + injection Hi as <-. rewrite Forall_forall in Hf.
      apply Hf. eapply nth_error_In; eassumption.
    + eapply IH; [|eassumption|eassumption]. lia.
Qed.

Lemma sql_limit_offset_sorted (rel : R -> R -> Prop) (limit offset : Z)
    (l : list R) :
  StronglySorted rel l -> StronglySorted rel (sql_limit_offset limit offset l).
Proof.
  intros H. unfold sql_limit_offset.
  destruct (limit <? 0);
    [|apply StronglySorted_firstn]; now apply StronglySorted_skipn.
Qed.

Lemma js_slice_sorted (rel : R -> R -> Prop) (start stop : Z) (l : list R) :
  StronglySorted rel l -> StronglySorted rel (js_slice start stop l).
Proof.
  intros H. unfold js_slice.
  now apply StronglySorted_firstn, StronglySorted_skipn.
Qed.

Lemma sql_limit_offset_In (limit offset : Z) (l : list R) (x : R) :
  In x (sql_limit_offset limit offset l) -> In x l.
Proof.
  unfold sql_limit_offset. intros H.
  assert (In x (skipn (Z.to_nat offset) l)) as H'.
  { destruct (limit <? 0); [exact H|].
    rewrite <- (firstn_skipn (Z.to_nat limit)). apply in_or_app. now left. }
  rewrite <- (firstn_skipn (Z.to_nat offset) l). apply in_or_app. now right.
Qed.

Lemma sql_limit_offset_length (limit offset : Z) (l : list R) :
  (List.length (sql_limit_offset limit offset l) <= List.length l)%nat.
Proof.
  unfold sql_limit_offset.
  destruct (limit <? 0); rewrite ?length_firstn, ?length_skipn; lia.
Qed.

Lemma sql_limit_offset_all (limit : Z) (l : list R) :
  Z.of_nat (List.length l) <= limit -> sql_limit_offset limit 0 l = l.
Proof.
  intros H. unfold sql_limit_offset. simpl.
  destruct (limit <? 0) eqn:E; [lia|].
  apply firstn_all2. lia.
Qed.

Lemma js_slice_all (limit : Z) (l : list R) :
  Z.of_nat (List.length l) <= limit -> js_slice 0 (0 + limit) l = l.
Proof.
  intros H. unfold js_slice. simpl.
  destruct (limit <? 0) eqn:E; [lia|].
  rewrite Z.min_r by lia. rewrite Z.min_l by lia.
  rewrite Z.sub_0_r, Nat2Z.id. apply firstn_all.
Qed.
End ListFacts.

(** *** The order [desc(featured), desc(rating)] *)

Lemma featured_rating_desc_total (x y : Business.t) :
  featured_rating_desc x y = true \/ featured_rating_desc y x = true.
Proof.
  unfold featured_rating_desc.
  destruct (Business.featured x), (Business.featured y); simpl; auto.
  - destruct (Qlt_le_dec (Business.rating x) (Business.rating y)) as [H|H].
    + right. apply Qle_bool_iff. now apply Qlt_le_weak.
    + left. now apply Qle_bool_iff.
  - destruct (Qlt_le_dec (Business.rating x) (Business.rating y)) as [H|H].
    + right. apply Qle_bool_iff. now apply Qlt_le_weak.
    + left. now apply Qle_bool_iff.
Qed.

Lemma featured_rating_desc_trans (x y z : Business.t) :
  featured_rating_desc x y = true -> featured_rating_desc y z = true ->
  featured_rating_desc x z = true.
Proof.
  unfold featured_rating_desc.
  destruct (Business.featured x), (Business.featured y),
    (Business.featured z); simpl; try congruence;
    rewrite !Qle_bool_iff; intros H1 H2; eapply Qle_trans; eassumption.
Qed.

Lemma featured_rating_desc_ordered (x y : Business.t) :
  featured_rating_desc x y = true -> ordered_pair x y.
Proof.
  unfold featured_rating_desc, ordered_pair.
  destruct (Business.featured x), (Business.featured y); simpl;
    rewrite ?Qle_bool_iff; intros H; auto; discriminate.
Qed.

Lemma orderBy_featured_rating_sorted (l : list Business.t) :
  StronglySorted (fun x y => featured_rating_desc x y = true)
    (orderBy featured_rating_desc l).
Proof.
  apply orderBy_sorted.
  - apply featured_rating_desc_total.
  - apply featured_rating_desc_trans.
Qed.

(** *** Conditions and id lists *)

Lemma sql_and_app {R : Type} (l1 l2 : list (R -> bool)) (r : R) :
  sql_and (l1 ++ l2) r = sql_and l1 r && sql_and l2 r.
Proof. unfold sql_and. apply forallb_app. Qed.

Lemma sql_and_push {R : Type} (t : bool) (l : list (R -> bool))
    (c : R -> bool) (r : R) :
  sql_and (if t then l ++ [c] else l) r
  = sql_and l r && (if t then c r else true).
Proof.
  destruct t.
  - rewrite sql_and_app. unfold sql_and at 2. simpl.
    now rewrite andb_true_r.
  - now rewrite andb_true_r.
Qed.

Lemma includes_In (l : list Z) (x : Z) : includes l x = true <-> In x l.
Proof.
  unfold includes. rewrite existsb_exists. split.
  - intros [y [Hy E]]. apply Z.eqb_eq in E. now subst.
  - intros H. exists x. split; [exact H | apply Z.eqb_refl].
Qed.

Lemma sql_or_eq_num {R : Type} (column : R -> Z) (facet : list Z) (r : R) :
  sql_or (map (fun id => eq_num column id) facet) r
  = includes facet (column r).
Proof.
  unfold sql_or, includes, eq_num.
  induction facet as [|a l IH]; simpl; [reflexivity|].
  now rewrite IH.
Qed.

Lemma includes_filter (p : Z -> bool) (l : list Z) (x : Z) :
  includes (List.filter p l) x = includes l x && p x.
Proof.
  unfold includes. induction l as [|a l IH]; simpl; [reflexivity|].
  destruct (p a) eqn:Ep; simpl; rewrite IH.
  - destruct (x =? a) eqn:E; simpl; [|reflexivity].
    apply Z.eqb_eq in E. subst. now rewrite Ep.
  - destruct (x =? a) eqn:E; simpl; [|reflexivity].
    apply Z.eqb_eq in E. subst. rewrite Ep. now rewrite andb_false_r.
Qed.

Lemma includes_selected {R : Type} (key column : R -> Z) (facet : list Z)
    (rows : list R) (id : Z) :
  includes (map key (List.filter (fun r => includes facet (column r)) rows)) id
  = existsb (fun r => (key r =? id) && includes facet (column r)) rows.
Proof.
  unfold includes at 1.
  induction rows as [|r rows IH]; simpl; [reflexivity|].
  destruct (includes facet (column r)) eqn:E; simpl; rewrite IH.
  - now rewrite andb_true_r, (Z.eqb_sym id).
  - now rewrite andb_false_r.
Qed.

Lemma length_zero_nil {R : Type} (l : list R) :
  (List.length l =? 0)%nat = true -> l = [].
Proof. destruct l; [reflexivity | discriminate]. Qed.

Lemma or_chain_fold (rest : list (Business.t -> bool)) (c : Business.t -> bool)
    (b : Business.t) :
  fold_left (fun condition nextCondition => sql_or [condition; nextCondition])
    rest c b
  = c b || existsb (fun c' => c' b) rest.
Proof.
  revert c. induction rest as [|d rest IH]; intros c; simpl.
  - now rewrite orb_false_r.
  - rewrite IH. unfold sql_or. simpl.
    now rewrite orb_false_r, orb_assoc.
Qed.

Lemma push_chain_ids (conditions : list (Business.t -> bool)) (ids : list Z)
    (b : Business.t) :
  ids <> [] ->
  sql_and (Turso.push_chain conditions
             (map (fun id => eq_num Business.id id) ids)) b
  = sql_and conditions b && includes ids (Business.id b).
Proof.
  intros Hne. destruct ids as [|i ids]; [congruence|].
  unfold Turso.push_chain, Turso.or_chain. cbn [map].
  rewrite sql_and_app. f_equal.
  unfold sql_and at 1. cbn [forallb]. rewrite andb_true_r.
  rewrite or_chain_fold.
  unfold includes, eq_num. cbn [existsb]. f_equal.
  induction ids as [|a l IH]; simpl; [reflexivity|].
  now rewrite IH.
Qed.

Lemma push_single_id (conditions : list (Business.t -> bool)) (ids : list Z)
    (b : Business.t) :
  (List.length ids =? 1)%nat = true ->
  sql_and (conditions ++ [eq_num Business.id (hd 0 ids)]) b
  = sql_and conditions b && includes ids (Business.id b).
Proof.
  intros H. destruct ids as [|i [|j ids]]; try discriminate.
  rewrite sql_and_app. unfold sql_and at 2, includes, eq_num. simpl.
  now rewrite andb_true_r, orb_false_r.
Qed.

(** *** The id set resolved from the three facets *)

Lemma selected_ids {R : Type} (key column : R -> Z) (facet : list Z)
    (rows : list R) (id : Z) :
  includes
    (map key
       (List.filter (sql_or (map (fun x => eq_num column x) facet)) rows)) id
  = existsb (fun r => (key r =? id) && includes facet (column r)) rows.
Proof.
  rewrite (filter_ext _ _ (sql_or_eq_num column facet)).
  apply includes_selected.
Qed.

Lemma facet_block {R : Type} (empty : R) (supplied : bool)
    (selected : list Z) (cur : option (list Z)) (accepted member : Z -> bool) :
  (forall id, includes selected id = member id) ->
  ids_invariant cur accepted ->
  flow_invariant empty
    (if supplied then
       let businessIds :=
         match cur with
         | Some ids => List.filter (fun id => includes selected id) ids
         | None => selected
         end in
       if (List.length businessIds =? 0)%nat then Return empty
       else Next (Some businessIds)
     else Next cur)
    (fun id => accepted id && (if supplied then member id else true)).
Proof.
  intros Hsel Hcur. destruct supplied; simpl.
  2:{ destruct cur as [ids|]; simpl in *.
      - destruct Hcur as [Hne Hin]. split; [exact Hne|].
        intros id. now rewrite andb_true_r.
      - intros id. now rewrite Hcur. }
  assert (forall id,
    includes match cur with
             | Some ids => List.filter (fun id => includes selected id) ids
             | None => selected
             end id = accepted id && member id) as Hnew.
  { intros id. destruct cur as [ids|]; simpl in Hcur.
    - destruct Hcur as [_ Hin]. now rewrite includes_filter, Hin, Hsel.
    - now rewrite Hcur, Hsel. }
  destruct (List.length _ =? 0)%nat eqn:E; simpl.
  - split; [reflexivity|]. intros id. rewrite <- Hnew.
    apply length_zero_nil in E. now rewrite E.
  - split; [|exact Hnew]. intros C. rewrite C in E. discriminate.
Qed.

Lemma ids_invariant_ext (cur : option (list Z)) (f g : Z -> bool) :
  (forall id, f id = g id) -> ids_invariant cur f -> ids_invariant cur g.
Proof.
  intros E. destruct cur as [ids|]; simpl.
  - intros [Hne H]. split; [exact Hne|]. intros id. now rewrite <- E.
  - intros H id. now rewrite <- E.
Qed.

Lemma resolve_business_ids_spec {R : Type} (empty : R) (db : Db.t)
    (filters : BusinessFilters.t) :
  flow_invariant empty (Turso.resolve_business_ids empty db filters)
    (facets_match db filters).
Proof.
  unfold Turso.resolve_business_ids.
  pose proof (facet_block empty
    (facet_supplied (BusinessFilters.categories filters)) _ None
    (fun _ => true) _
    (selected_ids BusinessCategory.business_id BusinessCategory.category_id
       (facet_values (BusinessFilters.categories filters))
       (Db.business_categories db))
    (fun _ => eq_refl)) as H1.
  cbv zeta in *.
  destruct (if facet_supplied (BusinessFilters.categories filters)
            then _ else _) as [r1|cur1].
  { destruct H1 as [-> H1]. split; [reflexivity|].
    intros id. unfold facets_match, in_categories.
    specialize (H1 id). simpl in H1. now rewrite H1. }
  pose proof (facet_block empty
    (facet_supplied (BusinessFilters.amenities filters)) _ cur1 _ _
    (selected_ids BusinessAmenity.business_id BusinessAmenity.amenity_id
       (facet_values (BusinessFilters.amenities filters))
       (Db.business_amenities db))
    H1) as H2.
  cbv zeta in *.
  destruct (if facet_supplied (BusinessFilters.amenities filters)
            then _ else _) as [r2|cur2].
  { destruct H2 as [-> H2]. split; [reflexivity|].
    intros id. unfold facets_match, in_categories, in_amenities.
    specialize (H2 id). simpl in H2. now rewrite H2. }
  pose proof (facet_block empty
    (facet_supplied (BusinessFilters.regions filters)) _ cur2 _ _
    (selected_ids BusinessRegion.business_id BusinessRegion.region_id
       (facet_values (BusinessFilters.regions filters))
       (Db.business_regions db))
    H2) as H3.
  cbv zeta in *.
  destruct (if facet_supplied (BusinessFilters.regions filters)
            then _ else _) as [r3|cur3].
  { destruct H3 as [-> H3]. split; [reflexivity|].
    intros id. unfold facets_match, in_categories, in_amenities, in_regions.
    specialize (H3 id). simpl in H3. now rewrite H3. }
  simpl. eapply ids_invariant_ext; [|exact H3].
  intros id. reflexivity.
Qed.

(** *** Normal forms of the Turso operations *)

Lemma sql_limit_offset_nil {R : Type} (limit offset : Z) :
  sql_limit_offset limit offset (@nil R) = [].
Proof.
  unfold sql_limit_offset. rewrite skipn_nil.
  destruct (limit <? 0); [reflexivity | apply firstn_nil].
Qed.

Lemma listings_attach (db : Db.t) (l : list Business.t) :
  listings (attach_categories db l) = l.
Proof.
  unfold listings, attach_categories. rewrite map_map. simpl. apply map_id.
Qed.

Lemma page_of_none (pagination : Pagination.t) (p : Business.t -> bool)
    (db : Db.t) :
  (forall b, p b = false) -> page_of pagination p db = [].
Proof.
  intros H. unfold page_of. rewrite filter_none by (intros; apply H).
  apply sql_limit_offset_nil.
Qed.

Lemma id_block_getBusinesses (conditions : list (Business.t -> bool))
    (ids : list Z) :
  ids <> [] ->
  exists conditions',
    (if (0 <? List.length ids)%nat then
       if (List.length ids =? 1)%nat then
         Next (conditions ++ [eq_num Business.id (hd 0 ids)])
       else
         let businessConditions := map (fun id => eq_num Business.id id) ids in
         if (List.length businessConditions =? 1)%nat then
           Next (conditions ++ firstn 1 businessConditions)
         else if (1 <? List.length businessConditions)%nat then
           Next (Turso.push_chain conditions businessConditions)
         else Next conditions
     else @Return (list BusinessResult) _ [])
    = Next conditions'
    /\ forall b, sql_and conditions' b
                 = sql_and conditions b && includes ids (Business.id b).
Proof.
  intros Hne. destruct ids as [|i [|j ids]]; [congruence| |].
  - eexists. split; [reflexivity|]. intros b. now apply push_single_id.
  - eexists. split; [reflexivity|]. intros b. now apply push_chain_ids.
Qed.

Lemma id_block_searchBusinesses (conditions : list (Business.t -> bool))
    (ids : list Z) :
  ids <> [] ->
  exists conditions',
    (if (0 <? List.length ids)%nat then
       if (List.length ids =? 1)%nat then
         Next (conditions ++ [eq_num Business.id (hd 0 ids)])
       else
         Next (Turso.push_chain conditions
                 (map (fun id => eq_num Business.id id) ids))
     else @Return (list BusinessResult) _ [])
    = Next conditions'
    /\ forall b, sql_and conditions' b
                 = sql_and conditions b && includes ids (Business.id b).
Proof.
  intros Hne. destruct ids as [|i [|j ids]]; [congruence| |].
  - eexists. split; [reflexivity|]. intros b. now apply push_single_id.
  - eexists. split; [reflexivity|]. intros b. now apply push_chain_ids.
Qed.

Lemma sql_and_single {R : Type} (c : R -> bool) (r : R) :
  sql_and [c] r = c r.
Proof. unfold sql_and. simpl. apply andb_true_r. Qed.

Lemma sql_and_two {R : Type} (c d : R -> bool) (r : R) :
  sql_and [c; d] r = c r && d r.
Proof. unfold sql_and. simpl. now rewrite andb_true_r. Qed.

Lemma Turso_getBusinesses_listings (db : Db.t) (filters : BusinessFilters.t)
    (pagination : Pagination.t) :
  listings (Turso.getBusinesses db filters pagination)
  = page_of pagination
      (fun b => scalar_matches filters b
                && facets_match db filters (Business.id b)) db.
Proof.
  unfold Turso.getBusinesses. cbv zeta.
  match goal with
  | |- context [Next (?c ++ [eq_num Business.id _])] => set (conditions := c)
  end.
  assert (forall b, sql_and conditions b = scalar_matches filters b) as Hc.
  { intros b. subst conditions. rewrite !sql_and_push, sql_and_single.
    reflexivity. }
  pose proof (resolve_business_ids_spec (@nil BusinessResult) db filters) as H.
  destruct (Turso.resolve_business_ids [] db filters) as [r|[ids|]];
    simpl in H.
  - destruct H as [-> H]. simpl. symmetry. apply page_of_none.
    intros b. rewrite H. apply andb_false_r.
  - destruct H as [Hne H].
    destruct (id_block_getBusinesses conditions ids Hne) as [c' [E Hc']].
    cbv zeta in E. rewrite E. simpl. rewrite listings_attach.
    unfold page_of. do 2 f_equal. apply filter_ext.
    intros b. now rewrite Hc', Hc, H.
  - simpl. rewrite listings_attach. unfold page_of. do 2 f_equal.
    apply filter_ext. intros b. now rewrite Hc, H, andb_true_r.
Qed.

Lemma Turso_searchBusinesses_listings (db : Db.t) (query : string)
    (filters : BusinessFilters.t) (pagination : Pagination.t) :
  listings (Turso.searchBusinesses db query filters pagination)
  = page_of pagination
      (fun b => Turso.search_group query b
                && scalar_matches_no_rating filters b
                && facets_match db filters (Business.id b)) db.
Proof.
  unfold Turso.searchBusinesses. cbv zeta.
  match goal with
  | |- context [Next (?c ++ [eq_num Business.id _])] => set (conditions := c)
  end.
  assert (forall b, sql_and conditions b
                    = Turso.search_group query b
                      && scalar_matches_no_rating filters b) as Hc.
  { intros b. subst conditions. rewrite !sql_and_push, sql_and_two.
    unfold scalar_matches_no_rating, eq_bool, like_col.
    destruct (Bool.eqb (Business.is_active b) true),
      (Turso.search_group query b); reflexivity. }
  pose proof (resolve_business_ids_spec (@nil BusinessResult) db filters) as H.
  destruct (Turso.resolve_business_ids [] db filters) as [r|[ids|]];
    simpl in H.
  - destruct H as [-> H]. simpl. symmetry. apply page_of_none.
    intros b. rewrite H. apply andb_false_r.
  - destruct H as [Hne H].
    destruct (id_block_searchBusinesses conditions ids Hne) as [c' [E Hc']].
    rewrite E. simpl. rewrite listings_attach.
    unfold page_of. do 2 f_equal. apply filter_ext.
    intros b. now rewrite Hc', Hc, H.
  - simpl. rewrite listings_attach. unfold page_of. do 2 f_equal.
    apply filter_ext. intros b. now rewrite Hc, H, andb_true_r.
Qed.

Lemma count_where_spec (db : Db.t) (conditions : list (Business.t -> bool))
    (cur : option (list Z)) (accepted : Z -> bool) :
  ids_invariant cur accepted ->
  run (Turso.count_where db conditions cur)
  = Z.of_nat
      (List.length
         (List.filter
            (fun b => sql_and conditions b && accepted (Business.id b))
            (Db.businesses db))).
Proof.
  unfold Turso.count_where. intros H.
  destruct cur as [ids|]; simpl in H.
  - destruct H as [Hne H].
    destruct ids as [|i [|j ids]]; [congruence| |]; simpl run;
      do 2 f_equal; apply filter_ext; intros b; rewrite <- H.
    + now apply (push_single_id conditions [i] b).
    + now apply (push_chain_ids conditions (i :: j :: ids) b).
  - simpl. do 2 f_equal. apply filter_ext. intros b.
    now rewrite H, andb_true_r.
Qed.

Lemma Turso_getBusinessCount_spec (db : Db.t)
    (filters : option BusinessFilters.t) :
  Turso.getBusinessCount db filters
  = Z.of_nat
      (List.length
         (List.filter
            (fun b =>
               scalar_matches_no_rating (BusinessFilters.optional filters) b
               && facets_match db (BusinessFilters.optional filters)
                    (Business.id b))
            (Db.businesses db))).
Proof.
  unfold Turso.getBusinessCount. cbv zeta.
  set (f := BusinessFilters.optional filters).
  match goal with
  | |- context [Turso.count_where db ?c] => set (conditions := c)
  end.
  assert (forall b, sql_and conditions b = scalar_matches_no_rating f b) as Hc.
  { intros b. subst conditions. rewrite !sql_and_push, sql_and_single.
    reflexivity. }
  pose proof (resolve_business_ids_spec 0 db f) as H.
  destruct (Turso.resolve_business_ids 0 db f) as [r|cur]; simpl in H.
  - destruct H as [-> H]. simpl. rewrite filter_none; [reflexivity|].
    intros b _. rewrite H. apply andb_false_r.
  - rewrite (count_where_spec db conditions cur _ H).
    do 2 f_equal. apply filter_ext. intros b. now rewrite Hc.
Qed.

Lemma Turso_getSearchCount_spec (db : Db.t) (query : string)
    (filters : option BusinessFilters.t) :
  Turso.getSearchCount db query filters
  = Z.of_nat
      (List.length
         (List.filter
            (fun b =>
               Turso.search_group query b
               && scalar_matches_no_rating (BusinessFilters.optional filters) b
               && facets_match db (BusinessFilters.optional filters)
                    (Business.id b))
            (Db.businesses db))).
Proof.
  unfold Turso.getSearchCount. cbv zeta.
  set (f := BusinessFilters.optional filters).
  match goal with
  | |- context [Turso.count_where db ?c] => set (conditions := c)
  end.
  assert (forall b, sql_and conditions b
                    = Turso.search_group query b
                      && scalar_matches_no_rating f b) as Hc.
  { intros b. subst conditions. rewrite !sql_and_push, sql_and_two.
    unfold scalar_matches_no_rating, eq_bool, like_col.
    destruct (Bool.eqb (Business.is_active b) true),
      (Turso.search_group query b); reflexivity. }
  pose proof (resolve_business_ids_spec 0 db f) as H.
  destruct (Turso.resolve_business_ids 0 db f) as [r|cur]; simpl in H.
  - destruct H as [-> H]. simpl. rewrite filter_none; [reflexivity|].
    intros b _. rewrite H. apply andb_false_r.
  - rewrite (count_where_spec db conditions cur _ H).
    do 2 f_equal. apply filter_ext. intros b. now rewrite Hc.
Qed.

(* ================================================================== *)
(** ** Active listings only *)

Lemma scalar_matches_active (filters : BusinessFilters.t) (b : Business.t) :
  scalar_matches filters b = true -> Business.is_active b = true.
Proof.
  unfold scalar_matches. rewrite !andb_true_iff.
  intros [[[[[H _] _] _] _] _]. now apply eqb_prop in H.
Qed.

Lemma scalar_matches_no_rating_active (filters : BusinessFilters.t)
    (b : Business.t) :
  scalar_matches_no_rating filters b = true -> Business.is_active b = true.
Proof.
  unfold scalar_matches_no_rating. rewrite !andb_true_iff.
  intros [[[[H _] _] _] _]. now apply eqb_prop in H.
Qed.

Lemma page_of_In (pagination : Pagination.t) (p : Business.t -> bool)
    (db : Db.t) (b : Business.t) :
  In b (page_of pagination p db) -> In b (Db.businesses db) /\ p b = true.
Proof.
  unfold page_of. intros H. apply sql_limit_offset_In in H.
  apply orderBy_In in H. now apply filter_In in H.
Qed.

Lemma count_active_only (p : Business.t -> bool) (l : list Business.t) :
  (forall b, p b = true -> Business.is_active b = true) ->
  List.filter p (List.filter (fun b => Business.is_active b) l)
  = List.filter p l.
Proof. intros H. now apply filter_filter_implied. Qed.

(** C2. Every listing returned by getBusinesses, by searchBusinesses or by
    getBusinessBySlug has [is_active = true], and the two counters give the
    same number when the inactive listings are deleted from the table: an
    inactive listing is in no result list, no detail result and no count. *)
Theorem C2_active_only (db : Db.t) (query slug : string)
    (filters : BusinessFilters.t) (pagination : Pagination.t) :
  (forall r, In r (Turso.getBusinesses db filters pagination) ->
             Business.is_active (br_business r) = true)
  /\ (forall r, In r (Turso.searchBusinesses db query filters pagination) ->
                Business.is_active (br_business r) = true)
  /\ (forall d, Turso.getBusinessBySlug db slug = Some d ->
                Business.is_active (bd_business d) = true)
  /\ (forall optional_filters,
        Turso.getBusinessCount db optional_filters
        = Turso.getBusinessCount (active_only db) optional_filters)
  /\ (forall optional_filters,
        Turso.getSearchCount db query optional_filters
        = Turso.getSearchCount (active_only db) query optional_filters).
Proof.
  repeat split.
  - intros r Hr. apply (in_map br_business) in Hr.
    fold (listings (Turso.getBusinesses db filters pagination)) in Hr.
    rewrite Turso_getBusinesses_listings in Hr.
    apply page_of_In in Hr. destruct Hr as [_ Hr].
    apply andb_true_iff in Hr. eapply scalar_matches_active, Hr.
  - intros r Hr. apply (in_map br_business) in Hr.
    fold (listings (Turso.searchBusinesses db query filters pagination)) in Hr.
    rewrite Turso_searchBusinesses_listings in Hr.
    apply page_of_In in Hr. destruct Hr as [_ Hr].
    rewrite !andb_true_iff in Hr.
    eapply scalar_matches_no_rating_active, Hr.
  - intros d. unfold Turso.getBusinessBySlug.
    destruct (sql_limit 1 _) as [|business rest] eqn:E; [discriminate|].
    intros [= <-]. simpl.
    assert (In business (business :: rest)) as Hin by now left.
    rewrite <- E in Hin. apply sql_limit_offset_In in Hin.
    apply filter_In in Hin. destruct Hin as [_ Hin].
    rewrite sql_and_two in Hin. apply andb_true_iff in Hin.
    destruct Hin as [_ Hin]. now apply eqb_prop in Hin.
  - intros o. rewrite !Turso_getBusinessCount_spec.
    unfold active_only, with_businesses; simpl Db.businesses.
    rewrite count_active_only; [reflexivity|].
    intros b Hb. apply andb_true_iff in Hb.
    eapply scalar_matches_no_rating_active, Hb.
  - intros o. rewrite !Turso_getSearchCount_spec.
    unfold active_only, with_businesses; simpl Db.businesses.
    rewrite count_active_only; [reflexivity|].
    intros b Hb. rewrite !andb_true_iff in Hb.
    eapply scalar_matches_no_rating_active, Hb.
Qed.

(* ================================================================== *)
(** ** Ordering of result lists *)

Lemma page_of_sorted (pagination : Pagination.t) (p : Business.t -> bool)
    (db : Db.t) :
  StronglySorted (fun x y => featured_rating_desc x y = true)
    (page_of pagination p db).
Proof.
  unfold page_of. apply sql_limit_offset_sorted.
  apply orderBy_featured_rating_sorted.
Qed.

Lemma Simple_getBusinesses_sorted (db : Db.t) (filters : BusinessFilters.t)
    (pagination : Pagination.t) :
  StronglySorted (fun x y => featured_rating_desc x y = true)
    (listings (Simple.getBusinesses db filters pagination)).
Proof.
  unfold Simple.getBusinesses. cbv zeta. rewrite listings_attach.
  apply js_slice_sorted. unfold Simple.apply_complex_filters. cbv zeta.
  repeat match goal with
  | |- StronglySorted _ (if ?c then _ else _) => destruct c
  | |- StronglySorted _ (Simple.filter_by_facet _ _ _) =>
      apply StronglySorted_filter
  end; apply orderBy_featured_rating_sorted.
Qed.

(** C7. In every result list of getBusinesses or searchBusinesses, for all
    positions i < j, either R[i] is featured and R[j] is not, or both have
    the same featured flag and R[i].rating >= R[j].rating. *)
Theorem C7_featured_then_rating_descending (db : Db.t) (query : string)
    (filters : BusinessFilters.t) (pagination : Pagination.t)
    (i j : nat) (x y : Business.t) (Hij : (i < j)%nat) :
  (nth_error (listings (Turso.getBusinesses db filters pagination)) i = Some x
   -> nth_error (listings (Turso.getBusinesses db filters pagination)) j
      = Some y
   -> ordered_pair x y)
  /\ (nth_error
        (listings (Turso.searchBusinesses db query filters pagination)) i
      = Some x
      -> nth_error
           (listings (Turso.searchBusinesses db query filters pagination)) j
         = Some y
      -> ordered_pair x y)
  /\ (nth_error (listings (Simple.getBusinesses db filters pagination)) i
      = Some x
      -> nth_error (listings (Simple.getBusinesses db filters pagination)) j
         = Some y
      -> ordered_pair x y).
Proof.
  repeat split; intros Hi Hj; apply featured_rating_desc_ordered.
  - rewrite Turso_getBusinesses_listings in Hi, Hj.
    exact (StronglySorted_nth _ _ (page_of_sorted _ _ _) i j x y Hij Hi Hj).
  - rewrite Turso_searchBusinesses_listings in Hi, Hj.
    exact (StronglySorted_nth _ _ (page_of_sorted _ _ _) i j x y Hij Hi Hj).
  - exact (StronglySorted_nth _ _ (Simple_getBusinesses_sorted _ _ _)
             i j x y Hij Hi Hj).
Qed.

(* ================================================================== *)
(** ** Fields tested for truthiness *)

Lemma truthy_number_zero (q : Q) : (q == 0)%Q -> truthy_number (Some q) = false.
Proof.
  intros H. unfold truthy_number. apply Qeq_bool_iff in H. now rewrite H.
Qed.

(** C10. With [rating_min = 0] getBusinesses and getBusinessCount return
    exactly what they return with [rating_min] absent, in the three
    services: the field is tested for truthiness, and zero is falsy. *)
Theorem C10_zero_rating_floor_is_absent (db : Db.t)
    (filters : BusinessFilters.t) (pagination : Pagination.t) (zero : Q)
    (Hzero : (zero == 0)%Q) :
  Turso.getBusinesses db (set_rating_min (Some zero) filters) pagination
  = Turso.getBusinesses db (set_rating_min None filters) pagination
  /\ Simple.getBusinesses db (set_rating_min (Some zero) filters) pagination
     = Simple.getBusinesses db (set_rating_min None filters) pagination
  /\ Real.getBusinesses db (set_rating_min (Some zero) filters) pagination
     = Real.getBusinesses db (set_rating_min None filters) pagination
  /\ Turso.getBusinessCount db (Some (set_rating_min (Some zero) filters))
     = Turso.getBusinessCount db (Some (set_rating_min None filters))
  /\ Simple.getBusinessCount db (Some (set_rating_min (Some zero) filters))
     = Simple.getBusinessCount db (Some (set_rating_min None filters))
  /\ Real.getBusinessCount db (Some (set_rating_min (Some zero) filters))
     = Real.getBusinessCount db (Some (set_rating_min None filters)).
Proof.
  pose proof (truthy_number_zero zero Hzero) as Hz.
  destruct filters as [cats ams regs city state rating featured verified].
  repeat split; try reflexivity;
    [ unfold Turso.getBusinesses
    | unfold Simple.getBusinesses
    | unfold Real.getBusinesses ];
    unfold set_rating_min; cbn [BusinessFilters.rating_min];
    rewrite Hz; reflexivity.
Qed.

(* ================================================================== *)
(** ** Empty facet lists *)

(** C6. A filter whose facet list is explicitly empty gives the same result
    list and the same count as the filter with that facet unset, for each of
    the three facets and in the three services. *)
Theorem C6_empty_facet_is_unconstrained (k : Facet) (db : Db.t)
    (query : string) (filters : BusinessFilters.t) (pagination : Pagination.t) :
  Turso.getBusinesses db (set_facet k (Some []) filters) pagination
  = Turso.getBusinesses db (set_facet k None filters) pagination
  /\ Turso.getBusinessCount db (Some (set_facet k (Some []) filters))
     = Turso.getBusinessCount db (Some (set_facet k None filters))
  /\ Turso.searchBusinesses db query (set_facet k (Some []) filters) pagination
     = Turso.searchBusinesses db query (set_facet k None filters) pagination
  /\ Turso.getSearchCount db query (Some (set_facet k (Some []) filters))
     = Turso.getSearchCount db query (Some (set_facet k None filters))
  /\ Simple.getBusinesses db (set_facet k (Some []) filters) pagination
     = Simple.getBusinesses db (set_facet k None filters) pagination
  /\ Simple.getBusinessCount db (Some (set_facet k (Some []) filters))
     = Simple.getBusinessCount db (Some (set_facet k None filters))
  /\ Real.getBusinesses db (set_facet k (Some []) filters) pagination
     = Real.getBusinesses db (set_facet k None filters) pagination
  /\ Real.getBusinessCount db (Some (set_facet k (Some []) filters))
     = Real.getBusinessCount db (Some (set_facet k None filters)).
Proof.
  destruct filters as [cats ams regs city state rating featured verified].
  destruct k; repeat split; reflexivity.
Qed.

(* ================================================================== *)
(** ** Slug lookup *)

Lemma slug_condition (slug : string) (b : Business.t) :
  sql_and [eq_text Business.slug slug; eq_bool Business.is_active true] b
  = true
  <-> Business.slug b = slug /\ Business.is_active b = true.
Proof.
  rewrite sql_and_two, andb_true_iff. unfold eq_text, eq_bool.
  rewrite String.eqb_eq. split; intros [H1 H2]; split; auto.
  - now apply eqb_prop in H2.
  - rewrite H2. reflexivity.
Qed.

Lemma getBusinessBySlug_first (db : Db.t) (slug : string) :
  Turso.getBusinessBySlug db slug
  = match List.filter
            (sql_and [eq_text Business.slug slug;
                      eq_bool Business.is_active true])
            (Db.businesses db) with
    | [] => None
    | business :: _ =>
        Some (mkBusinessDetail business
                (categories_of db (Business.id business))
                (amenities_of db (Business.id business))
                (regions_of db (Business.id business)))
    end.
Proof.
  unfold Turso.getBusinessBySlug, sql_limit, sql_limit_offset. simpl.
  destruct (List.filter _ _); reflexivity.
Qed.

(** C8. With slugs a key of the active listings, getBusinessBySlug(L.slug)
    returns, for every active listing L, a detail value whose id is L.id;
    and for a slug that no active listing carries it returns null. *)
Theorem C8_slug_round_trip (db : Db.t) (Hkey : slug_is_key db) :
  (forall L, In L (Db.businesses db) -> Business.is_active L = true ->
     exists d, Turso.getBusinessBySlug db (Business.slug L) = Some d
               /\ Business.id (bd_business d) = Business.id L)
  /\ (forall slug,
        (forall L, In L (Db.businesses db) -> Business.is_active L = true ->
                   Business.slug L <> slug) ->
        Turso.getBusinessBySlug db slug = None).
Proof.
  split.
  - intros L HL Hact. rewrite getBusinessBySlug_first.
    destruct (List.filter _ _) as [|b0 rest] eqn:E.
    + assert (In L []) as C; [|destruct C].
      rewrite <- E. apply filter_In. split; [exact HL|].
      now apply slug_condition.
    + eexists. split; [reflexivity|]. simpl.
      assert (In b0 (b0 :: rest)) as H0 by now left.
      rewrite <- E in H0. apply filter_In in H0. destruct H0 as [Hin H0].
      apply slug_condition in H0. destruct H0 as [Hs Ha].
      now apply Hkey.
  - intros slug Hnone. rewrite getBusinessBySlug_first.
    destruct (List.filter _ _) as [|b0 rest] eqn:E; [reflexivity|].
    assert (In b0 (b0 :: rest)) as H0 by now left.
    rewrite <- E in H0. apply filter_In in H0. destruct H0 as [Hin H0].
    apply slug_condition in H0. destruct H0 as [Hs Ha].
    exfalso. exact (Hnone b0 Hin Ha Hs).
Qed.

(* ================================================================== *)
(** ** States with counts *)

Section JsMapFacts.
Context {K V : Type} (eqb : K -> K -> bool).
Hypothesis eqb_spec : forall x y, eqb x y = true <-> x = y.

Lemma eqb_same (k : K) : eqb k k = true.
Proof. now apply eqb_spec. Qed.

Lemma eqb_differ (k k' : K) : k <> k' -> eqb k k' = false.
Proof.
  intros H. destruct (eqb k k') eqn:E; [|reflexivity].
  apply eqb_spec in E. contradiction.
Qed.

Lemma map_get_set_same (m : list (K * V)) (k : K) (v : V) :
  map_get eqb (map_set eqb m k v) k = Some v.
Proof.
  induction m as [|[k' v'] m IH]; simpl.
  - now rewrite eqb_same.
  - destruct (eqb k' k) eqn:E; simpl; rewrite E; [reflexivity | exact IH].
Qed.

Lemma map_get_set_other (m : list (K * V)) (k k' : K) (v : V) :
  k <> k' -> map_get eqb (map_set eqb m k v) k' = map_get eqb m k'.
Proof.
  intros Hne. induction m as [|[k0 v0] m IH]; simpl.
  - now rewrite eqb_differ.
  - destruct (eqb k0 k) eqn:E; simpl.
    + apply eqb_spec in E. subst k0. now rewrite eqb_differ.
    + now rewrite IH.
Qed.

Lemma map_get_None (m : list (K * V)) (k : K) :
  map_get eqb m k = None <-> ~ In k (map fst m).
Proof.
  induction m as [|[k' v'] m IH]; simpl; [tauto|].
  destruct (eqb k' k) eqn:E.
  - apply eqb_spec in E. split; [discriminate | tauto].
  - rewrite IH. split; [|tauto].
    intros H [C|C]; [|tauto]. subst. rewrite eqb_same in E. discriminate.
Qed.

Lemma map_set_keys (m : list (K * V)) (k : K) (v : V) :
  map fst (map_set eqb m k v)
  = if map_has eqb m k then map fst m else map fst m ++ [k].
Proof.
  unfold map_has. induction m as [|[k' v'] m IH]; simpl; [reflexivity|].
  destruct (eqb k' k) eqn:E; simpl; [reflexivity|].
  rewrite IH. now destruct (map_get eqb m k).
Qed.

Lemma map_set_NoDup (m : list (K * V)) (k : K) (v : V) :
  NoDup (map fst m) -> NoDup (map fst (map_set eqb m k v)).
Proof.
  intros H. rewrite map_set_keys. unfold map_has.
  destruct (map_get eqb m k) eqn:E; [exact H|].
  apply map_get_None in E.
  apply (Permutation_NoDup (l := k :: map fst m)); [|now constructor].
  apply Permutation_cons_append.
Qed.

Lemma map_get_filter (m : list (K * V)) (k : K) (v : V) :
  NoDup (map fst m) -> map_get eqb m k = Some v ->
  List.filter (fun e => eqb (fst e) k) m = [(k, v)].
Proof.
  induction m as [|[k' v'] m IH]; simpl; [discriminate|].
  intros Hnd Hget. inversion Hnd as [|? ? Hnotin Hnd']; subst.
  destruct (eqb k' k) eqn:E.
  - apply eqb_spec in E. subst k'. injection Hget as ->.
    f_equal. apply filter_none. intros [k0 v0] H0. simpl.
    apply eqb_differ. intros ->. apply Hnotin.
    now apply (in_map fst) in H0.
  - now apply IH.
Qed.
End JsMapFacts.

Lemma group_keys_In (l : list string) (s : string) :
  In s (group_keys String.eqb l) <-> In s l.
Proof.
  induction l as [|k l IH]; simpl; [tauto|].
  rewrite filter_In, IH, negb_true_iff.
  destruct (String.eqb k s) eqn:E.
  - apply String.eqb_eq in E. subst. split; auto.
  - apply String.eqb_neq in E. tauto.
Qed.

Lemma filter_permutation {R : Type} (p : R -> bool) (l l' : list R) :
  Permutation l l' -> Permutation (List.filter p l) (List.filter p l').
Proof.
  induction 1 as [|x l l' H IH|x y l|l l' l'' H1 IH1 H2 IH2]; simpl.
  - constructor.
  - destruct (p x); [now constructor | exact IH].
  - destruct (p x), (p y); try apply Permutation_refl. apply perm_swap.
  - eapply Permutation_trans; eassumption.
Qed.

Lemma filter_map_commute {A B : Type} (p : B -> bool) (g : A -> B)
    (l : list A) :
  List.filter p (map g l) = map g (List.filter (fun a => p (g a)) l).
Proof.
  induction l as [|a l IH]; simpl; [reflexivity|].
  destruct (p (g a)); simpl; now rewrite IH.
Qed.

Lemma rows_in_state_absent (states : list string) (s : string) :
  ~ In s states -> rows_in_state states s = 0.
Proof.
  intros H. unfold rows_in_state. rewrite filter_none; [reflexivity|].
  intros x Hx. apply String.eqb_neq. intros ->. contradiction.
Qed.

Lemma count_by_state_items (states : list string) (item : string * Z) :
  In item (Turso.count_by_state states) ->
  In (fst item) states /\ snd item = rows_in_state states (fst item).
Proof.
  unfold Turso.count_by_state. rewrite orderBy_In, in_map_iff.
  intros [s [<- Hs]]. simpl. split; [|reflexivity].
  now apply group_keys_In.
Qed.

Lemma count_by_state_keys (states : list string) (s : string) :
  In s (map fst (Turso.count_by_state states)) <-> In s states.
Proof.
  split.
  - rewrite in_map_iff. intros [item [<- H]].
    now apply count_by_state_items in H.
  - intros H. apply in_map_iff. exists (s, rows_in_state states s).
    split; [reflexivity|].
    unfold Turso.count_by_state. rewrite orderBy_In, in_map_iff.
    exists s. split; [reflexivity|]. now apply group_keys_In.
Qed.

(** The first loop of getStatesWithCounts, from any map. *)
Lemma business_loop_get (count : string -> Z) (items : list (string * Z))
    (s : string) :
  (forall item, In item items -> snd item = count (fst item)) ->
  forall m : list (string * (Z * Z)),
    map_get String.eqb
      (fold_left (fun stateMap item =>
                    map_set String.eqb stateMap (fst item) (snd item, 0))
                 items m) s
    = if in_dec string_dec s (map fst items) then Some (count s, 0)
      else map_get String.eqb m s.
Proof.
  induction items as [|it items IH]; intros Hc m; [reflexivity|].
  cbn [fold_left]. rewrite IH by (intros; apply Hc; now right).
  destruct (in_dec string_dec s (map fst items)) as [Hin|Hnin];
    destruct (in_dec string_dec s (map fst (it :: items))) as [Hin'|Hnin'];
    simpl in *; try tauto.
  - destruct Hin' as [<-|]; [|tauto].
    rewrite (map_get_set_same _ String.eqb_eq).
    now rewrite (Hc it (or_introl eq_refl)).
  - apply (map_get_set_other _ String.eqb_eq). tauto.
Qed.

Lemma business_loop_NoDup (items : list (string * Z)) :
  forall m : list (string * (Z * Z)),
    NoDup (map fst m) ->
    NoDup (map fst
             (fold_left (fun stateMap item =>
                           map_set String.eqb stateMap (fst item) (snd item, 0))
                        items m)).
Proof.
  induction items as [|it items IH]; intros m H; [exact H|].
  cbn [fold_left]. apply IH. now apply (map_set_NoDup _ String.eqb_eq).
Qed.

Lemma region_step_get (m : list (string * (Z * Z))) (item : string * Z)
    (s : string) :
  map_get String.eqb
    match map_get String.eqb m (fst item) with
    | Some existing =>
        map_set String.eqb m (fst item) (fst existing, snd item)
    | None => map_set String.eqb m (fst item) (0, snd item)
    end s
  = if string_dec (fst item) s
    then Some (held_business_count m s, snd item)
    else map_get String.eqb m s.
Proof.
  unfold held_business_count.
  destruct (string_dec (fst item) s) as [<-|Hne].
  - destruct (map_get String.eqb m (fst item));
      apply (map_get_set_same _ String.eqb_eq).
  - destruct (map_get String.eqb m (fst item));
      now apply (map_get_set_other _ String.eqb_eq).
Qed.

Lemma region_loop_get (count : string -> Z) (items : list (string * Z))
    (s : string) :
  (forall item, In item items -> snd item = count (fst item)) ->
  forall m : list (string * (Z * Z)),
    map_get String.eqb
      (fold_left (fun stateMap item =>
                    match map_get String.eqb stateMap (fst item) with
                    | Some existing =>
                        map_set String.eqb stateMap (fst item)
                          (fst existing, snd item)
                    | None =>
                        map_set String.eqb stateMap (fst item) (0, snd item)
                    end)
                 items m) s
    = if in_dec string_dec s (map fst items)
      then Some (held_business_count m s, count s)
      else map_get String.eqb m s.
Proof.
  induction items as [|it items IH]; intros Hc m; [reflexivity|].
  cbn [fold_left]. rewrite IH by (intros; apply Hc; now right).
  unfold held_business_count at 1. rewrite region_step_get.
  destruct (in_dec string_dec s (map fst items)) as [Hin|Hnin];
    destruct (in_dec string_dec s (map fst (it :: items))) as [Hin'|Hnin'];
    simpl in *; try tauto.
  - destruct (string_dec (fst it) s); reflexivity.
  - destruct Hin' as [E|]; [|tauto].
    destruct (string_dec (fst it) s); [|contradiction].
    subst s. now rewrite (Hc it (or_introl eq_refl)).
  - destruct (string_dec (fst it) s); [tauto | reflexivity].
Qed.

Lemma region_loop_NoDup (items : list (string * Z)) :
  forall m : list (string * (Z * Z)),
    NoDup (map fst m) ->
    NoDup (map fst
      (fold_left (fun stateMap item =>
                    match map_get String.eqb stateMap (fst item) with
                    | Some existing =>
                        map_set String.eqb stateMap (fst item)
                          (fst existing, snd item)
                    | None =>
                        map_set String.eqb stateMap (fst item) (0, snd item)
                    end)
                 items m)).
Proof.
  induction items as [|it items IH]; intros m H; [exact H|].
  cbn [fold_left]. apply IH.
  destruct (map_get String.eqb m (fst it));
    now apply (map_set_NoDup _ String.eqb_eq).
Qed.

(** C9. Every state name found among the active listings or among the
    regions has exactly one row in the output of getStatesWithCounts, and
    that row carries the number of active listings and the number of
    regions of the state; a count whose grouping lacks the state is zero. *)
Theorem C9_states_merged_once (localeCompare : string -> string -> Z)
    (db : Db.t) (s : string) :
  let listing_states :=
    map Business.state
      (List.filter (fun b => Business.is_active b) (Db.businesses db)) in
  let region_states := map Region.state (Db.regions db) in
  In s listing_states \/ In s region_states ->
  List.filter (fun row => String.eqb (Turso.sc_state row) s)
    (Turso.getStatesWithCounts localeCompare db)
  = [Turso.mkStateCounts s (rows_in_state listing_states s)
       (rows_in_state region_states s)]
  /\ (~ In s listing_states -> rows_in_state listing_states s = 0)
  /\ (~ In s region_states -> rows_in_state region_states s = 0).
Proof.
  intros listing_states region_states Hs.
  split; [|split; apply rows_in_state_absent].
  unfold Turso.getStatesWithCounts. cbv zeta.
  replace (List.filter (eq_bool Business.is_active true) (Db.businesses db))
    with (List.filter (fun b => Business.is_active b) (Db.businesses db)).
  2:{ apply filter_ext. intros b. unfold eq_bool.
      now destruct (Business.is_active b). }
  fold listing_states. fold region_states.
  set (m1 := fold_left _ (Turso.count_by_state listing_states) []).
  set (m2 := fold_left _ (Turso.count_by_state region_states) m1).
  assert (NoDup (map fst m2)) as Hnd.
  { apply region_loop_NoDup, business_loop_NoDup. constructor. }
  assert (map_get String.eqb m2 s
          = Some (rows_in_state listing_states s,
                  rows_in_state region_states s)) as Hget.
  { assert (held_business_count m1 s = rows_in_state listing_states s) as Hb.
    { unfold held_business_count, m1.
      rewrite (business_loop_get (rows_in_state listing_states))
        by (intros; now apply count_by_state_items).
      destruct (in_dec string_dec s _) as [H|H]; [reflexivity|].
      simpl. symmetry. apply rows_in_state_absent.
      now rewrite count_by_state_keys in H. }
    unfold m2.
    rewrite (region_loop_get (rows_in_state region_states))
      by (intros; now apply count_by_state_items).
    destruct (in_dec string_dec s _) as [H|H]; [now rewrite Hb|].
    rewrite count_by_state_keys in H.
    rewrite (rows_in_state_absent region_states s H).
    unfold m1.
    rewrite (business_loop_get (rows_in_state listing_states))
      by (intros; now apply count_by_state_items).
    destruct (in_dec string_dec s _) as [H'|H']; [reflexivity|].
    rewrite count_by_state_keys in H'. tauto. }
  apply Permutation_length_1_inv.
  eapply Permutation_trans;
    [|apply filter_permutation, Permutation_sym, orderBy_perm].
  rewrite filter_map_commute. simpl.
  rewrite (map_get_filter _ String.eqb_eq m2 s _ Hnd Hget).
  apply Permutation_refl.
Qed.

(* ================================================================== *)
(** ** Facets: union within, intersection across *)

Lemma collect_step_get (m : list (Z * list Z)) (row : Z * Z) (k : Z) :
  get_or_empty
    (let m' := if negb (map_has Z.eqb m (fst row))
               then map_set Z.eqb m (fst row) [] else m in
     match map_get Z.eqb m' (fst row) with
     | Some ids => map_set Z.eqb m' (fst row) (ids ++ [snd row])
     | None => m'
     end) k
  = get_or_empty m k ++ (if fst row =? k then [snd row] else []).
Proof.
  cbv zeta. unfold map_has, get_or_empty.
  destruct (Z.eqb_spec (fst row) k) as [<-|Hne].
  - destruct (map_get Z.eqb m (fst row)) as [ids|] eqn:E; simpl.
    + rewrite E. now rewrite (map_get_set_same _ Z.eqb_eq).
    + rewrite (map_get_set_same _ Z.eqb_eq).
      now rewrite (map_get_set_same _ Z.eqb_eq).
  - rewrite app_nil_r.
    destruct (map_get Z.eqb m (fst row)) as [ids|] eqn:E; simpl.
    + rewrite E. now rewrite (map_get_set_other _ Z.eqb_eq).
    + rewrite (map_get_set_same _ Z.eqb_eq).
      now rewrite !(map_get_set_other _ Z.eqb_eq).
Qed.

Lemma collect_get (rows : list (Z * Z)) (k : Z) :
  get_or_empty (Simple.collect rows) k
  = map snd (List.filter (fun row => fst row =? k) rows).
Proof.
  unfold Simple.collect.
  change (map snd (List.filter (fun row => fst row =? k) rows))
    with (get_or_empty [] k
          ++ map snd (List.filter (fun row => fst row =? k) rows)).
  generalize (@nil (Z * list Z)) as m.
  induction rows as [|row rows IH]; intros m.
  - simpl. now rewrite app_nil_r.
  - cbn [fold_left]. rewrite IH.
    pose proof (collect_step_get m row k) as Hstep.
    cbv zeta in Hstep. cbv zeta. rewrite Hstep.
    rewrite <- app_assoc. f_equal.
    simpl. now destruct (fst row =? k).
Qed.

Lemma bool_eq_iff (a b : bool) : (a = true <-> b = true) -> a = b.
Proof. destruct a, b; intuition congruence. Qed.

Lemma collected_facet {R : Type} (key column : R -> Z) (rows : list R)
    (ids facet : list Z) (k : Z) :
  In k ids ->
  existsb
    (fun facetId =>
       includes
         (get_or_empty
            (Simple.collect
               (map (fun r => (key r, column r))
                  (List.filter
                     (sql_or (map (fun id => eq_num key id) ids)) rows))) k)
         facetId)
    facet
  = existsb (fun r => (key r =? k) && includes facet (column r)) rows.
Proof.
  intros Hk. apply bool_eq_iff.
  rewrite !existsb_exists. split.
  - intros [x [Hx H]]. apply includes_In in H.
    rewrite collect_get in H. apply in_map_iff in H.
    destruct H as [[k' c] [E H]]. simpl in E. subst c.
    apply filter_In in H. destruct H as [H Ek]. simpl in Ek.
    apply in_map_iff in H. destruct H as [r [Er H]].
    injection Er as E1 E2. apply filter_In in H. destruct H as [H _].
    exists r. split; [exact H|].
    rewrite E1, Ek. simpl. apply includes_In. now rewrite E2.
  - intros [r [Hr H]]. apply andb_true_iff in H. destruct H as [Ek Hf].
    apply includes_In in Hf. exists (column r). split; [exact Hf|].
    apply includes_In. rewrite collect_get. apply in_map_iff.
    exists (key r, column r). split; [reflexivity|].
    apply filter_In. split; [|exact Ek].
    apply in_map_iff. exists r. split; [reflexivity|].
    apply filter_In. split; [exact Hr|].
    rewrite sql_or_eq_num. apply includes_In.
    apply Z.eqb_eq in Ek. now rewrite Ek.
Qed.

Lemma filter_by_categories (db : Db.t) (facet : list Z)
    (l : list Business.t) :
  Simple.filter_by_facet
    (Simple.getBusinessesWithCategories db (map Business.id l)) facet l
  = List.filter (fun b => in_categories db facet (Business.id b)) l.
Proof.
  unfold Simple.filter_by_facet. apply filter_ext_in. intros b Hb.
  unfold Simple.getBusinessesWithCategories.
  destruct (List.length (map Business.id l) =? 0)%nat eqn:E.
  { apply length_zero_nil in E. destruct l; [destruct Hb | discriminate]. }
  apply (collected_facet BusinessCategory.business_id
           BusinessCategory.category_id).
  now apply in_map.
Qed.

Lemma filter_by_amenities (db : Db.t) (facet : list Z)
    (l : list Business.t) :
  Simple.filter_by_facet
    (Simple.getBusinessesWithAmenities db (map Business.id l)) facet l
  = List.filter (fun b => in_amenities db facet (Business.id b)) l.
Proof.
  unfold Simple.filter_by_facet. apply filter_ext_in. intros b Hb.
  unfold Simple.getBusinessesWithAmenities.
  destruct (List.length (map Business.id l) =? 0)%nat eqn:E.
  { apply length_zero_nil in E. destruct l; [destruct Hb | discriminate]. }
  apply (collected_facet BusinessAmenity.business_id
           BusinessAmenity.amenity_id).
  now apply in_map.
Qed.

Lemma filter_by_regions (db : Db.t) (facet : list Z)
    (l : list Business.t) :
  Simple.filter_by_facet
    (Simple.getBusinessesWithRegions db (map Business.id l)) facet l
  = List.filter (fun b => in_regions db facet (Business.id b)) l.
Proof.
  unfold Simple.filter_by_facet. apply filter_ext_in. intros b Hb.
  unfold Simple.getBusinessesWithRegions.
  destruct (List.length (map Business.id l) =? 0)%nat eqn:E.
  { apply length_zero_nil in E. destruct l; [destruct Hb | discriminate]. }
  apply (collected_facet BusinessRegion.business_id
           BusinessRegion.region_id).
  now apply in_map.
Qed.

Lemma filter_filter {R : Type} (p q : R -> bool) (l : list R) :
  List.filter q (List.filter p l) = List.filter (fun x => p x && q x) l.
Proof.
  induction l as [|a l IH]; simpl; [reflexivity|].
  destruct (p a); simpl; [destruct (q a)|]; now rewrite IH.
Qed.

Lemma filter_if {R : Type} (c : bool) (p : R -> bool) (l : list R) :
  (if c then List.filter p l else l)
  = List.filter (fun x => if c then p x else true) l.
Proof.
  destruct c; [reflexivity|].
  induction l as [|a l IH]; simpl; [reflexivity | now rewrite <- IH].
Qed.

Lemma Simple_apply_complex_filters (db : Db.t) (filters : BusinessFilters.t)
    (l : list Business.t) :
  Simple.apply_complex_filters db filters l
  = List.filter (fun b => facets_match db filters (Business.id b)) l.
Proof.
  unfold Simple.apply_complex_filters. cbv zeta.
  rewrite filter_by_categories, filter_if.
  rewrite filter_by_amenities, filter_if.
  rewrite filter_by_regions, filter_if.
  rewrite !filter_filter. apply filter_ext. intros b.
  unfold facets_match. now rewrite andb_assoc.
Qed.

Lemma Simple_getBusinesses_listings (db : Db.t) (filters : BusinessFilters.t)
    (pagination : Pagination.t) :
  listings (Simple.getBusinesses db filters pagination)
  = js_slice (Pagination.offset pagination)
      (Pagination.offset pagination + Pagination.limit pagination)
      (List.filter (fun b => facets_match db filters (Business.id b))
         (orderBy featured_rating_desc
            (List.filter (scalar_matches filters) (Db.businesses db)))).
Proof.
  unfold Simple.getBusinesses. cbv zeta.
  rewrite listings_attach, Simple_apply_complex_filters.
  do 3 f_equal. apply filter_ext. intros b.
  rewrite !sql_and_push, sql_and_single. reflexivity.
Qed.

Lemma Simple_getBusinessCount_spec (db : Db.t)
    (filters : option BusinessFilters.t) :
  Simple.getBusinessCount db filters
  = Z.of_nat
      (List.length
         (List.filter
            (fun b =>
               facets_match db (BusinessFilters.optional filters)
                 (Business.id b))
            (List.filter
               (scalar_matches_no_rating (BusinessFilters.optional filters))
               (Db.businesses db)))).
Proof.
  unfold Simple.getBusinessCount. cbv zeta.
  rewrite Simple_apply_complex_filters.
  do 3 f_equal. apply filter_ext. intros b.
  rewrite !sql_and_push, sql_and_single. reflexivity.
Qed.

Lemma in_categories_iff (db : Db.t) (facet : list Z) (id : Z) :
  in_categories db facet id = true
  <-> exists x, In x facet /\ holds_category db id x.
Proof.
  unfold in_categories, holds_category. rewrite existsb_exists. split.
  - intros [[i c] [H E]]. simpl in E. apply andb_true_iff in E.
    destruct E as [E1 E2]. apply Z.eqb_eq in E1. subst i.
    exists c. split; [now apply includes_In | exact H].
  - intros [x [Hx H]]. eexists. split; [exact H|]. simpl.
    rewrite Z.eqb_refl. now apply includes_In.
Qed.

Lemma in_amenities_iff (db : Db.t) (facet : list Z) (id : Z) :
  in_amenities db facet id = true
  <-> exists x, In x facet /\ holds_amenity db id x.
Proof.
  unfold in_amenities, holds_amenity. rewrite existsb_exists. split.
  - intros [[i c] [H E]]. simpl in E. apply andb_true_iff in E.
    destruct E as [E1 E2]. apply Z.eqb_eq in E1. subst i.
    exists c. split; [now apply includes_In | exact H].
  - intros [x [Hx H]]. eexists. split; [exact H|]. simpl.
    rewrite Z.eqb_refl. now apply includes_In.
Qed.

Lemma in_regions_iff (db : Db.t) (facet : list Z) (id : Z) :
  in_regions db facet id = true
  <-> exists x, In x facet /\ holds_region db id x.
Proof.
  unfold in_regions, holds_region. rewrite existsb_exists. split.
  - intros [[i c] [H E]]. simpl in E. apply andb_true_iff in E.
    destruct E as [E1 E2]. apply Z.eqb_eq in E1. subst i.
    exists c. split; [now apply includes_In | exact H].
  - intros [x [Hx H]]. eexists. split; [exact H|]. simpl.
    rewrite Z.eqb_refl. now apply includes_In.
Qed.

Lemma facets_match_iff (db : Db.t) (filters : BusinessFilters.t) (id : Z) :
  facets_match db filters id = true
  <-> facet_admits (BusinessFilters.categories filters) (holds_category db id)
      /\ facet_admits (BusinessFilters.amenities filters) (holds_amenity db id)
      /\ facet_admits (BusinessFilters.regions filters) (holds_region db id).
Proof.
  unfold facets_match, facet_admits. rewrite !andb_true_iff.
  rewrite <- in_categories_iff, <- in_amenities_iff, <- in_regions_iff.
  destruct (facet_supplied (BusinessFilters.categories filters)),
    (facet_supplied (BusinessFilters.amenities filters)),
    (facet_supplied (BusinessFilters.regions filters));
    intuition congruence.
Qed.

Lemma filter_length_le {R : Type} (p : R -> bool) (l : list R) :
  (List.length (List.filter p l) <= List.length l)%nat.
Proof.
  induction l as [|a l IH]; simpl; [lia|]. destruct (p a); simpl; lia.
Qed.

(** C5. With a page that holds every listing, a listing is in the result
    of getBusinesses exactly when it passes the scalar tests and, for each
    facet the filter supplies, holds at least one of the supplied values:
    union within a facet, intersection across facets. *)
Theorem C5_facet_union_intersection (db : Db.t) (filters : BusinessFilters.t)
    (pagination : Pagination.t) (b : Business.t)
    (Hoffset : Pagination.offset pagination = 0)
    (Hlimit : Z.of_nat (List.length (Db.businesses db))
              <= Pagination.limit pagination) :
  let admitted :=
    In b (Db.businesses db)
    /\ scalar_matches filters b = true
    /\ facet_admits (BusinessFilters.categories filters)
         (holds_category db (Business.id b))
    /\ facet_admits (BusinessFilters.amenities filters)
         (holds_amenity db (Business.id b))
    /\ facet_admits (BusinessFilters.regions filters)
         (holds_region db (Business.id b)) in
  (In b (listings (Turso.getBusinesses db filters pagination)) <-> admitted)
  /\ (In b (listings (Simple.getBusinesses db filters pagination))
      <-> admitted).
Proof.
  intros admitted. subst admitted. split.
  - rewrite Turso_getBusinesses_listings. unfold page_of.
    rewrite Hoffset, sql_limit_offset_all.
    + rewrite orderBy_In, filter_In, andb_true_iff, facets_match_iff.
      tauto.
    + rewrite orderBy_length.
      pose proof (filter_length_le
        (fun b => scalar_matches filters b
                  && facets_match db filters (Business.id b))
        (Db.businesses db)). lia.
  - rewrite Simple_getBusinesses_listings.
    rewrite Hoffset, js_slice_all.
    + rewrite filter_In, orderBy_In, filter_In, facets_match_iff. tauto.
    + pose proof (filter_length_le
        (fun b => facets_match db filters (Business.id b))
        (orderBy featured_rating_desc
           (List.filter (scalar_matches filters) (Db.businesses db)))).
      rewrite orderBy_length in H.
      pose proof (filter_length_le (scalar_matches filters)
                    (Db.businesses db)). lia.
Qed.

(** Only L1 is in category 1 or 2 and has amenity 10. *)
Example facet_example :
  listings (Turso.getBusinesses facet_db facet_filter (page 100 0)) = [L1]
  /\ listings (Simple.getBusinesses facet_db facet_filter (page 100 0)) = [L1]
  /\ listings (Real.getBusinesses facet_db facet_filter (page 100 0)) = [L1].
Proof. repeat split; vm_compute; reflexivity. Qed.

Lemma C5_facet_union_intersection_witness :
  let admitted :=
    In L1 (Db.businesses facet_db)
    /\ scalar_matches facet_filter L1 = true
    /\ facet_admits (BusinessFilters.categories facet_filter)
         (holds_category facet_db (Business.id L1))
    /\ facet_admits (BusinessFilters.amenities facet_filter)
         (holds_amenity facet_db (Business.id L1))
    /\ facet_admits (BusinessFilters.regions facet_filter)
         (holds_region facet_db (Business.id L1)) in
  (In L1 (listings (Turso.getBusinesses facet_db facet_filter (page 100 0)))
   <-> admitted)
  /\ (In L1 (listings (Simple.getBusinesses facet_db facet_filter (page 100 0)))
      <-> admitted).
Proof.
  apply (C5_facet_union_intersection facet_db facet_filter (page 100 0) L1).
  - reflexivity.
  - simpl. lia.
Defined.

Lemma C7_featured_then_rating_descending_witness :
  (nth_error
     (listings (Turso.getBusinesses facet_db BusinessFilters.empty
                  (page 100 0))) 0 = Some L2
   -> nth_error
        (listings (Turso.getBusinesses facet_db BusinessFilters.empty
                     (page 100 0))) 1 = Some L1
   -> ordered_pair L2 L1)
  /\ (nth_error
        (listings (Turso.searchBusinesses facet_db "r"
                     BusinessFilters.empty (page 100 0))) 0 = Some L2
      -> nth_error
           (listings (Turso.searchBusinesses facet_db "r"
                        BusinessFilters.empty (page 100 0))) 1 = Some L1
      -> ordered_pair L2 L1)
  /\ (nth_error
        (listings (Simple.getBusinesses facet_db BusinessFilters.empty
                     (page 100 0))) 0 = Some L2
      -> nth_error
           (listings (Simple.getBusinesses facet_db BusinessFilters.empty
                        (page 100 0))) 1 = Some L1
      -> ordered_pair L2 L1).
Proof.
  apply (C7_featured_then_rating_descending facet_db "r"
           BusinessFilters.empty (page 100 0) 0 1 L2 L1).
  lia.
Defined.

(** The order the lister gives the three sample listings: the featured
    one, then by rating. *)
Example ordering_example :
  listings (Turso.getBusinesses facet_db BusinessFilters.empty (page 100 0))
  = [L2; L1; L3]
  /\ listings (Turso.searchBusinesses facet_db "r" BusinessFilters.empty
                 (page 100 0))
     = [L2; L1]
  /\ listings (Simple.getBusinesses facet_db BusinessFilters.empty
                 (page 100 0))
     = [L2; L1; L3].
Proof. repeat split; vm_compute; reflexivity. Qed.

Lemma C10_zero_rating_floor_is_absent_witness :
  Turso.getBusinesses facet_db
    (set_rating_min (Some (0 # 5)) facet_filter) (page 100 0)
  = Turso.getBusinesses facet_db (set_rating_min None facet_filter)
      (page 100 0)
  /\ Simple.getBusinesses facet_db
       (set_rating_min (Some (0 # 5)) facet_filter) (page 100 0)
     = Simple.getBusinesses facet_db (set_rating_min None facet_filter)
         (page 100 0)
  /\ Real.getBusinesses facet_db
       (set_rating_min (Some (0 # 5)) facet_filter) (page 100 0)
     = Real.getBusinesses facet_db (set_rating_min None facet_filter)
         (page 100 0)
  /\ Turso.getBusinessCount facet_db
       (Some (set_rating_min (Some (0 # 5)) facet_filter))
     = Turso.getBusinessCount facet_db
         (Some (set_rating_min None facet_filter))
  /\ Simple.getBusinessCount facet_db
       (Some (set_rating_min (Some (0 # 5)) facet_filter))
     = Simple.getBusinessCount facet_db
         (Some (set_rating_min None facet_filter))
  /\ Real.getBusinessCount facet_db
       (Some (set_rating_min (Some (0 # 5)) facet_filter))
     = Real.getBusinessCount facet_db
         (Some (set_rating_min None facet_filter)).
Proof.
  apply (C10_zero_rating_floor_is_absent facet_db facet_filter (page 100 0)
           (0 # 5)).
  reflexivity.
Defined.

Lemma facet_db_slug_is_key : slug_is_key facet_db.
Proof.
  intros x y Hx Hy _ _ E. simpl in Hx, Hy.
  destruct Hx as [<-|[<-|[<-|[]]]]; destruct Hy as [<-|[<-|[<-|[]]]];
    first [reflexivity | discriminate E].
Defined.

Lemma C8_slug_round_trip_witness :
  (forall L, In L (Db.businesses facet_db) -> Business.is_active L = true ->
     exists d, Turso.getBusinessBySlug facet_db (Business.slug L) = Some d
               /\ Business.id (bd_business d) = Business.id L)
  /\ (forall slug,
        (forall L, In L (Db.businesses facet_db) ->
                   Business.is_active L = true -> Business.slug L <> slug) ->
        Turso.getBusinessBySlug facet_db slug = None).
Proof.
  apply (C8_slug_round_trip facet_db). exact facet_db_slug_is_key.
Defined.

Example slug_example :
  option_map (fun d => Business.id (bd_business d))
    (Turso.getBusinessBySlug facet_db "star") = Some 2
  /\ Turso.getBusinessBySlug facet_db "nonexistent-xyz" = None.
Proof. split; vm_compute; reflexivity. Qed.

Lemma C9_states_merged_once_witness :
  List.filter (fun row => String.eqb (Turso.sc_state row) "NT")
    (Turso.getStatesWithCounts code_order facet_db)
  = [Turso.mkStateCounts "NT"
       (rows_in_state
          (map Business.state
             (List.filter (fun b => Business.is_active b)
                (Db.businesses facet_db))) "NT")
       (rows_in_state (map Region.state (Db.regions facet_db)) "NT")]
  /\ (~ In "NT"%string
        (map Business.state
           (List.filter (fun b => Business.is_active b)
              (Db.businesses facet_db))) ->
      rows_in_state
        (map Business.state
           (List.filter (fun b => Business.is_active b)
              (Db.businesses facet_db))) "NT" = 0)
  /\ (~ In "NT"%string (map Region.state (Db.regions facet_db)) ->
      rows_in_state (map Region.state (Db.regions facet_db)) "NT" = 0).
Proof.
  apply (C9_states_merged_once code_order facet_db "NT").
  right. simpl. auto.
Defined.

Example states_example :
  Turso.getStatesWithCounts code_order facet_db
  = [Turso.mkStateCounts "NSW" 1 0; Turso.mkStateCounts "NT" 0 1;
     Turso.mkStateCounts "SA" 1 0; Turso.mkStateCounts "WA" 1 1].
Proof. vm_compute. reflexivity. Qed.

(* ================================================================== *)
(** ** Counting against listing *)

Lemma scalar_matches_split (filters : BusinessFilters.t) (b : Business.t) :
  scalar_matches filters b
  = scalar_matches_no_rating filters b
    && (if truthy_number (BusinessFilters.rating_min filters)
        then Qle_bool (number_value (BusinessFilters.rating_min filters))
               (Business.rating b)
        else true).
Proof. unfold scalar_matches, scalar_matches_no_rating. btauto. Qed.

Lemma length_listings (results : list BusinessResult) :
  List.length (listings results) = List.length results.
Proof. apply length_map. Qed.

(** The count is never below the length of a page of the same filter. *)
Lemma Turso_count_at_least_page (db : Db.t) (filters : BusinessFilters.t)
    (pagination : Pagination.t) :
  Z.of_nat (List.length (Turso.getBusinesses db filters pagination))
  <= Turso.getBusinessCount db (Some filters).
Proof.
  rewrite <- length_listings, Turso_getBusinesses_listings.
  rewrite Turso_getBusinessCount_spec. simpl BusinessFilters.optional.
  unfold page_of. apply Nat2Z.inj_le.
  eapply Nat.le_trans; [apply sql_limit_offset_length|].
  rewrite orderBy_length. apply filter_length_mono.
  intros b. rewrite scalar_matches_split, !andb_true_iff. tauto.
Qed.

(** Without a rating floor, a page that holds every listing has exactly as
    many rows as the count reports. *)
Lemma Turso_count_equals_page_without_floor (db : Db.t)
    (filters : BusinessFilters.t) (pagination : Pagination.t) :
  truthy_number (BusinessFilters.rating_min filters) = false ->
  Pagination.offset pagination = 0 ->
  Z.of_nat (List.length (Db.businesses db)) <= Pagination.limit pagination ->
  Z.of_nat (List.length (Turso.getBusinesses db filters pagination))
  = Turso.getBusinessCount db (Some filters).
Proof.
  intros Hr Ho Hl.
  rewrite <- length_listings, Turso_getBusinesses_listings.
  rewrite Turso_getBusinessCount_spec. simpl BusinessFilters.optional.
  unfold page_of. rewrite Ho, sql_limit_offset_all.
  - rewrite orderBy_length. do 2 f_equal. apply filter_ext. intros b.
    now rewrite scalar_matches_split, Hr, andb_true_r.
  - rewrite orderBy_length.
    pose proof (filter_length_le
      (fun b => scalar_matches filters b
                && facets_match db filters (Business.id b))
      (Db.businesses db)). lia.
Qed.

(** C1, at the filter [{rating_min: 4}] over one active listing rated 3:
    getBusinesses returns no listing on a page of 1000 while
    getBusinessCount reports 1, in the three services; the counters build
    no rating condition. *)
Theorem C1_count_ignores_rating_floor :
  Turso.getBusinesses low_rated_db rating_filter (page 1000 0) = []
  /\ Turso.getBusinessCount low_rated_db (Some rating_filter) = 1
  /\ Simple.getBusinesses low_rated_db rating_filter (page 1000 0) = []
  /\ Simple.getBusinessCount low_rated_db (Some rating_filter) = 1
  /\ Real.getBusinesses low_rated_db rating_filter (page 1000 0) = []
  /\ Real.getBusinessCount low_rated_db (Some rating_filter) = 1.
Proof. repeat split; vm_compute; reflexivity. Qed.

(** C3, at the query "sky" with the filter [{rating_min: 4}] over one active
    listing named Sky and rated 3: searchBusinesses returns that listing and
    getSearchCount counts it, although its rating is below the floor. *)
Theorem C3_search_ignores_rating_floor :
  listings (Turso.searchBusinesses low_rated_db "sky" rating_filter
              (page 1000 0)) = [L3]
  /\ Turso.getSearchCount low_rated_db "sky" (Some rating_filter) = 1
  /\ Qle_bool (4 # 1) (Business.rating L3) = false
  /\ listings (Turso.getBusinesses low_rated_db rating_filter (page 1000 0))
     = [].
Proof. repeat split; vm_compute; reflexivity. Qed.

(** C4, over a catalog where category 1 is held only by an inactive listing
    and category 2 by one active listing through two identical membership
    rows: getCategoriesWithCounts reports 1 for category 1 (no active listing
    holds it) and 2 for category 2 (one distinct listing holds it). *)
Theorem C4_category_counts_membership_rows :
  map (fun c => (Category.id (Turso.cwc_category c),
                 Turso.cwc_business_count c))
      (Turso.getCategoriesWithCounts catalog_db)
  = [(1, 1); (2, 2)]
  /\ distinct_active_holders catalog_db 1 = 0
  /\ distinct_active_holders catalog_db 2 = 1.
Proof. repeat split; vm_compute; reflexivity. Qed.

(* ================================================================== *)
(** ** Results as attached pages *)

Lemma Turso_getBusinesses_attach (db : Db.t) (filters : BusinessFilters.t)
    (pagination : Pagination.t) :
  Turso.getBusinesses db filters pagination
  = attach_categories db
      (page_of pagination
         (fun b => scalar_matches filters b
                   && facets_match db filters (Business.id b)) db).
Proof.
  rewrite <- Turso_getBusinesses_listings.
  unfold Turso.getBusinesses. cbv zeta.
  destruct (Turso.resolve_business_ids [] db filters) as [r|[ids|]] eqn:E.
  - pose proof (resolve_business_ids_spec (@nil BusinessResult) db filters)
      as H.
    rewrite E in H. destruct H as [-> _]. reflexivity.
  - destruct (0 <? List.length ids)%nat; [|reflexivity].
    destruct (List.length ids =? 1)%nat;
      [simpl; now rewrite listings_attach|].
    destruct (List.length _ =? 1)%nat;
      [simpl; now rewrite listings_attach|].
    destruct (1 <? List.length _)%nat; simpl; now rewrite listings_attach.
  - simpl. now rewrite listings_attach.
Qed.

Lemma Turso_searchBusinesses_attach (db : Db.t) (query : string)
    (filters : BusinessFilters.t) (pagination : Pagination.t) :
  Turso.searchBusinesses db query filters pagination
  = attach_categories db
      (page_of pagination
         (fun b => Turso.search_group query b
                   && scalar_matches_no_rating filters b
                   && facets_match db filters (Business.id b)) db).
Proof.
  rewrite <- Turso_searchBusinesses_listings.
  unfold Turso.searchBusinesses. cbv zeta.
  destruct (Turso.resolve_business_ids [] db filters) as [r|[ids|]] eqn:E.
  - pose proof (resolve_business_ids_spec (@nil BusinessResult) db filters)
      as H.
    rewrite E in H. destruct H as [-> _]. reflexivity.
  - destruct (0 <? List.length ids)%nat; [|reflexivity].
    destruct (List.length ids =? 1)%nat; simpl; now rewrite listings_attach.
  - simpl. now rewrite listings_attach.
Qed.

Lemma Simple_getBusinesses_attach (db : Db.t) (filters : BusinessFilters.t)
    (pagination : Pagination.t) :
  Simple.getBusinesses db filters pagination
  = attach_categories db
      (listings (Simple.getBusinesses db filters pagination)).
Proof.
  unfold Simple.getBusinesses. cbv zeta. now rewrite listings_attach.
Qed.

Lemma Simple_searchBusinesses_listings (db : Db.t) (query : string)
    (filters : BusinessFilters.t) (pagination : Pagination.t) :
  listings (Simple.searchBusinesses db query filters pagination)
  = js_slice (Pagination.offset pagination)
      (Pagination.offset pagination + Pagination.limit pagination)
      (List.filter (fun b => facets_match db filters (Business.id b))
         (orderBy featured_rating_desc
            (List.filter
               (fun b => Turso.search_group query b
                         && scalar_matches_no_rating filters b)
               (Db.businesses db)))).
Proof.
  unfold Simple.searchBusinesses. cbv zeta.
  rewrite listings_attach, Simple_apply_complex_filters.
  do 3 f_equal. apply filter_ext. intros b.
  rewrite !sql_and_push, sql_and_two.
  unfold scalar_matches_no_rating, eq_bool, like_col.
  destruct (Bool.eqb (Business.is_active b) true),
    (Turso.search_group query b); reflexivity.
Qed.

Lemma Simple_searchBusinesses_attach (db : Db.t) (query : string)
    (filters : BusinessFilters.t) (pagination : Pagination.t) :
  Simple.searchBusinesses db query filters pagination
  = attach_categories db
      (listings (Simple.searchBusinesses db query filters pagination)).
Proof.
  unfold Simple.searchBusinesses. cbv zeta. now rewrite listings_attach.
Qed.

Lemma Simple_getSearchCount_spec (db : Db.t) (query : string)
    (filters : option BusinessFilters.t) :
  Simple.getSearchCount db query filters
  = Z.of_nat
      (List.length
         (List.filter
            (fun b =>
               facets_match db (BusinessFilters.optional filters)
                 (Business.id b))
            (List.filter
               (fun b =>
                  Turso.search_group query b
                  && scalar_matches_no_rating
                       (BusinessFilters.optional filters) b)
               (Db.businesses db)))).
Proof.
  unfold Simple.getSearchCount. cbv zeta.
  rewrite Simple_apply_complex_filters.
  do 3 f_equal. apply filter_ext. intros b.
  rewrite !sql_and_push, sql_and_two.
  unfold scalar_matches_no_rating, eq_bool, like_col.
  destruct (Bool.eqb (Business.is_active b) true),
    (Turso.search_group query b); reflexivity.
Qed.

(* ================================================================== *)
(** ** Sorting commutes with filtering; the two paginations *)

Section StableSort.
Context {R : Type} (before : R -> R -> bool).
Hypothesis before_total : forall x y, before x y = true \/ before y x = true.
Hypothesis before_trans :
  forall x y z, before x y = true -> before y z = true -> before x z = true.

Lemma insert_row_head (x : R) (l : list R) :
  (forall z, In z l -> before x z = true) -> insert_row before x l = x :: l.
Proof.
  destruct l as [|y l]; intros H; simpl; [reflexivity|].
  now rewrite (H y (or_introl eq_refl)).
Qed.

Lemma filter_insert_row (p : R -> bool) (x : R) (l : list R) :
  StronglySorted (fun a b => before a b = true) l ->
  List.filter p (insert_row before x l)
  = if p x then insert_row before x (List.filter p l) else List.filter p l.
Proof.
  induction 1 as [|y l Hs IH Hy]; simpl.
  - now destruct (p x).
  - rewrite Forall_forall in Hy.
    destruct (before x y) eqn:E.
    + cbn [List.filter]. destruct (p x); [|reflexivity].
      symmetry. apply insert_row_head. intros z Hz.
      assert (In z (y :: l)) as Hz'.
      { destruct (p y); [|right; now apply filter_In in Hz].
        destruct Hz as [<-|Hz]; [now left|right; now apply filter_In in Hz]. }
      destruct Hz' as [<-|Hz']; [exact E|].
      eapply before_trans; [exact E | now apply Hy].
    + cbn [List.filter]. rewrite IH.
      destruct (p y), (p x); simpl; try reflexivity. now rewrite E.
Qed.

Lemma filter_orderBy (p : R -> bool) (l : list R) :
  List.filter p (orderBy before l) = orderBy before (List.filter p l).
Proof.
  induction l as [|x l IH]; simpl; [reflexivity|].
  rewrite filter_insert_row
    by (apply orderBy_sorted; [exact before_total | exact before_trans]).
  rewrite IH. now destruct (p x).
Qed.
End StableSort.

Section Pages.
Context {R : Type}.

Lemma sql_limit_offset_is_slice (limit offset : Z) (l : list R) :
  0 <= limit -> 0 <= offset ->
  sql_limit_offset limit offset l = js_slice offset (offset + limit) l.
Proof.
  intros Hl Ho. unfold sql_limit_offset, js_slice.
  destruct (limit <? 0) eqn:E1; [lia|].
  destruct (offset <? 0) eqn:E2; [lia|].
  destruct (offset + limit <? 0) eqn:E3; [lia|].
  set (len := Z.of_nat (List.length l)).
  destruct (Z_le_gt_dec len offset) as [Hge|Hlt].
  - rewrite !Z.min_r by lia. rewrite Z.sub_diag. simpl.
    rewrite skipn_all2 by (subst len; lia). now rewrite firstn_nil.
  - rewrite (Z.min_l offset len) by lia.
    destruct (Z_le_gt_dec (offset + limit) len) as [H|H].
    + rewrite Z.min_l by lia. f_equal. lia.
    + rewrite Z.min_r by lia.
      rewrite !firstn_all2; [reflexivity| |];
        rewrite length_skipn; subst len; lia.
Qed.

Lemma sql_limit_offset_bounded (limit offset : Z) (l : list R) :
  0 <= limit ->
  Z.of_nat (List.length (sql_limit_offset limit offset l)) <= limit.
Proof.
  intros H. unfold sql_limit_offset.
  destruct (limit <? 0) eqn:E; [lia|].
  rewrite length_firstn. lia.
Qed.

Lemma js_slice_bounded (limit offset : Z) (l : list R) :
  0 <= limit -> 0 <= offset ->
  Z.of_nat (List.length (js_slice offset (offset + limit) l)) <= limit.
Proof.
  intros Hl Ho. rewrite <- sql_limit_offset_is_slice by assumption.
  now apply sql_limit_offset_bounded.
Qed.

Lemma firstn_then_next (k k' : nat) (l : list R) :
  firstn k l ++ firstn k' (skipn k l) = firstn (k + k') l.
Proof.
  revert l. induction k as [|k IH]; intros l; [reflexivity|].
  destruct l as [|a l]; simpl.
  - now rewrite firstn_nil.
  - now rewrite IH.
Qed.

Lemma skipn_skipn_add (a b : nat) (l : list R) :
  skipn b (skipn a l) = skipn (a + b) l.
Proof.
  revert l. induction a as [|a IH]; intros l; [reflexivity|].
  destruct l as [|x l]; simpl; [apply skipn_nil | apply IH].
Qed.

Lemma sql_pages_concatenate (k k' offset : Z) (l : list R) :
  0 <= k -> 0 <= k' -> 0 <= offset ->
  sql_limit_offset k offset l ++ sql_limit_offset k' (offset + k) l
  = sql_limit_offset (k + k') offset l.
Proof.
  intros Hk Hk' Ho. unfold sql_limit_offset.
  destruct (k <? 0) eqn:E1; [lia|].
  destruct (k' <? 0) eqn:E2; [lia|].
  destruct (k + k' <? 0) eqn:E3; [lia|].
  rewrite !Z2Nat.inj_add by lia.
  rewrite <- skipn_skipn_add. apply firstn_then_next.
Qed.

Lemma NoDup_map_filter {K : Type} (f : R -> K) (p : R -> bool) (l : list R) :
  NoDup (map f l) -> NoDup (map f (List.filter p l)).
Proof.
  induction l as [|a l IH]; simpl; intros H; [constructor|].
  inversion H as [|? ? Hn Hd]; subst.
  destruct (p a); simpl; [|now apply IH].
  constructor; [|now apply IH].
  intros C. apply Hn. apply in_map_iff in C. destruct C as [x [E Hx]].
  apply filter_In in Hx. rewrite <- E. apply in_map. tauto.
Qed.

Lemma NoDup_map_skipn {K : Type} (f : R -> K) (n : nat) (l : list R) :
  NoDup (map f l) -> NoDup (map f (skipn n l)).
Proof.
  revert l. induction n as [|n IH]; intros l H; [exact H|].
  destruct l as [|a l]; [constructor|]. simpl. apply IH.
  now inversion H.
Qed.

Lemma NoDup_map_firstn {K : Type} (f : R -> K) (n : nat) (l : list R) :
  NoDup (map f l) -> NoDup (map f (firstn n l)).
Proof.
  revert l. induction n as [|n IH]; intros l H; [constructor|].
  destruct l as [|a l]; [constructor|]. simpl.
  inversion H as [|? ? Hn Hd]; subst. constructor; [|now apply IH].
  intros C. apply Hn. apply in_map_iff in C. destruct C as [x [E Hx]].
  rewrite <- E. apply in_map.
  rewrite <- (firstn_skipn n l). apply in_or_app. now left.
Qed.

Lemma NoDup_map_sql_limit_offset {K : Type} (f : R -> K) (limit offset : Z)
    (l : list R) :
  NoDup (map f l) -> NoDup (map f (sql_limit_offset limit offset l)).
Proof.
  intros H. unfold sql_limit_offset.
  destruct (limit <? 0); [|apply NoDup_map_firstn];
    now apply NoDup_map_skipn.
Qed.

Lemma NoDup_map_orderBy {K : Type} (f : R -> K) (before : R -> R -> bool)
    (l : list R) :
  NoDup (map f l) -> NoDup (map f (orderBy before l)).
Proof.
  apply Permutation_NoDup, Permutation_map, Permutation_sym, orderBy_perm.
Qed.
End Pages.

Lemma page_of_NoDup (pagination : Pagination.t) (p : Business.t -> bool)
    (db : Db.t) :
  NoDup (map Business.id (Db.businesses db)) ->
  NoDup (map Business.id (page_of pagination p db)).
Proof.
  intros H. unfold page_of.
  now apply NoDup_map_sql_limit_offset, NoDup_map_orderBy, NoDup_map_filter.
Qed.

(* ================================================================== *)
(** ** Further properties: pages and counts *)

Lemma js_slice_length {R : Type} (start stop : Z) (l : list R) :
  (List.length (js_slice start stop l) <= List.length l)%nat.
Proof.
  unfold js_slice. rewrite length_firstn, length_skipn. lia.
Qed.

Lemma length_attach (db : Db.t) (l : list Business.t) :
  List.length (attach_categories db l) = List.length l.
Proof. unfold attach_categories. apply length_map. Qed.

Lemma Simple_sorted_filtered (db : Db.t) (filters : BusinessFilters.t)
    (p : Business.t -> bool) :
  List.filter (fun b => facets_match db filters (Business.id b))
    (orderBy featured_rating_desc (List.filter p (Db.businesses db)))
  = orderBy featured_rating_desc
      (List.filter
         (fun b => p b && facets_match db filters (Business.id b))
         (Db.businesses db)).
Proof.
  rewrite (filter_orderBy _ featured_rating_desc_total
             featured_rating_desc_trans).
  now rewrite filter_filter.
Qed.

(** X1. A page never has more rows than the matching counter reports:
    getBusinesses against getBusinessCount and searchBusinesses against
    getSearchCount, for every filter, query and pagination, in the ORM
    service and in the in-memory service. *)
Theorem counts_bound_every_page (db : Db.t) (query : string)
    (filters : BusinessFilters.t) (pagination : Pagination.t) :
  Z.of_nat (List.length (Turso.getBusinesses db filters pagination))
  <= Turso.getBusinessCount db (Some filters)
  /\ Z.of_nat
       (List.length (Turso.searchBusinesses db query filters pagination))
     <= Turso.getSearchCount db query (Some filters)
  /\ Z.of_nat (List.length (Simple.getBusinesses db filters pagination))
     <= Simple.getBusinessCount db (Some filters)
  /\ Z.of_nat
       (List.length (Simple.searchBusinesses db query filters pagination))
     <= Simple.getSearchCount db query (Some filters).
Proof.
  repeat split.
  - apply Turso_count_at_least_page.
  - rewrite <- length_listings, Turso_searchBusinesses_listings.
    rewrite Turso_getSearchCount_spec. simpl BusinessFilters.optional.
    unfold page_of. apply Nat2Z.inj_le.
    eapply Nat.le_trans; [apply sql_limit_offset_length|].
    now rewrite orderBy_length.
  - rewrite <- length_listings, Simple_getBusinesses_listings.
    rewrite Simple_getBusinessCount_spec. simpl BusinessFilters.optional.
    apply Nat2Z.inj_le.
    eapply Nat.le_trans; [apply js_slice_length|].
    rewrite Simple_sorted_filtered, orderBy_length, filter_filter.
    apply filter_length_mono. intros b.
    rewrite scalar_matches_split, !andb_true_iff. tauto.
  - rewrite <- length_listings, Simple_searchBusinesses_listings.
    rewrite Simple_getSearchCount_spec. simpl BusinessFilters.optional.
    apply Nat2Z.inj_le.
    eapply Nat.le_trans; [apply js_slice_length|].
    rewrite Simple_sorted_filtered, orderBy_length, filter_filter.
    apply Nat.le_refl.
Qed.

(** X2. On a page from offset 0 whose limit is at least the size of the
    listings table, searchBusinesses returns exactly as many rows as
    getSearchCount reports for the same query and filter. *)
Theorem search_count_is_full_page_length (db : Db.t) (query : string)
    (filters : BusinessFilters.t) (pagination : Pagination.t)
    (Hoffset : Pagination.offset pagination = 0)
    (Hlimit : Z.of_nat (List.length (Db.businesses db))
              <= Pagination.limit pagination) :
  Z.of_nat (List.length (Turso.searchBusinesses db query filters pagination))
  = Turso.getSearchCount db query (Some filters).
Proof.
  rewrite <- length_listings, Turso_searchBusinesses_listings.
  rewrite Turso_getSearchCount_spec. simpl BusinessFilters.optional.
  unfold page_of. rewrite Hoffset, sql_limit_offset_all.
  - now rewrite orderBy_length.
  - rewrite orderBy_length.
    pose proof (filter_length_le
      (fun b => Turso.search_group query b
                && scalar_matches_no_rating filters b
                && facets_match db filters (Business.id b))
      (Db.businesses db)). lia.
Qed.

Lemma search_count_is_full_page_length_witness :
  Z.of_nat
    (List.length
       (Turso.searchBusinesses facet_db "r" facet_filter (page 100 0)))
  = Turso.getSearchCount facet_db "r" (Some facet_filter).
Proof.
  apply (search_count_is_full_page_length facet_db "r" facet_filter
           (page 100 0)).
  - reflexivity.
  - simpl. lia.
Defined.

(** X3. When the filter's rating floor is absent or zero, a page from
    offset 0 whose limit is at least the size of the listings table has
    exactly as many rows as getBusinessCount reports. *)
Theorem count_is_full_page_length_without_floor (db : Db.t)
    (filters : BusinessFilters.t) (pagination : Pagination.t)
    (Hfloor : truthy_number (BusinessFilters.rating_min filters) = false)
    (Hoffset : Pagination.offset pagination = 0)
    (Hlimit : Z.of_nat (List.length (Db.businesses db))
              <= Pagination.limit pagination) :
  Z.of_nat (List.length (Turso.getBusinesses db filters pagination))
  = Turso.getBusinessCount db (Some filters).
Proof. now apply Turso_count_equals_page_without_floor. Qed.

Lemma count_is_full_page_length_without_floor_witness :
  Z.of_nat (List.length (Turso.getBusinesses facet_db facet_filter
                           (page 100 0)))
  = Turso.getBusinessCount facet_db (Some facet_filter).
Proof.
  apply (count_is_full_page_length_without_floor facet_db facet_filter
           (page 100 0)).
  - reflexivity.
  - reflexivity.
  - simpl. lia.
Defined.

(** X4. With a limit and an offset that are not negative, no page of
    getBusinesses or searchBusinesses has more rows than the limit. *)
Theorem page_length_at_most_limit (db : Db.t) (query : string)
    (filters : BusinessFilters.t) (pagination : Pagination.t)
    (Hlimit : 0 <= Pagination.limit pagination)
    (Hoffset : 0 <= Pagination.offset pagination) :
  Z.of_nat (List.length (Turso.getBusinesses db filters pagination))
  <= Pagination.limit pagination
  /\ Z.of_nat
       (List.length (Turso.searchBusinesses db query filters pagination))
     <= Pagination.limit pagination
  /\ Z.of_nat (List.length (Simple.getBusinesses db filters pagination))
     <= Pagination.limit pagination
  /\ Z.of_nat
       (List.length (Simple.searchBusinesses db query filters pagination))
     <= Pagination.limit pagination.
Proof.
  repeat split.
  - rewrite <- length_listings, Turso_getBusinesses_listings.
    now apply sql_limit_offset_bounded.
  - rewrite <- length_listings, Turso_searchBusinesses_listings.
    now apply sql_limit_offset_bounded.
  - rewrite <- length_listings, Simple_getBusinesses_listings.
    now apply js_slice_bounded.
  - rewrite <- length_listings, Simple_searchBusinesses_listings.
    now apply js_slice_bounded.
Qed.

Lemma page_length_at_most_limit_witness :
  Z.of_nat (List.length (Turso.getBusinesses facet_db BusinessFilters.empty
                           (page 2 0))) <= 2
  /\ Z.of_nat
       (List.length (Turso.searchBusinesses facet_db "r"
                       BusinessFilters.empty (page 2 0))) <= 2
  /\ Z.of_nat (List.length (Simple.getBusinesses facet_db
                              BusinessFilters.empty (page 2 0))) <= 2
  /\ Z.of_nat
       (List.length (Simple.searchBusinesses facet_db "r"
                       BusinessFilters.empty (page 2 0))) <= 2.
Proof.
  apply (page_length_at_most_limit facet_db "r" BusinessFilters.empty
           (page 2 0)); simpl; lia.
Defined.

Lemma Turso_pages_join (db : Db.t) (filters : BusinessFilters.t)
    (o k k' : Z) :
  0 <= o -> 0 <= k -> 0 <= k' ->
  listings (Turso.getBusinesses db filters (page k o))
  ++ listings (Turso.getBusinesses db filters (page k' (o + k)))
  = listings (Turso.getBusinesses db filters (page (k + k') o)).
Proof.
  intros Ho Hk Hk'.
  rewrite !Turso_getBusinesses_listings. unfold page_of, page. simpl.
  now apply sql_pages_concatenate.
Qed.

(** X5. Consecutive pages join up: the page at offset o with limit k
    followed by the page at offset o + k with limit k' is the page at
    offset o with limit k + k', for getBusinesses and for
    searchBusinesses (no row is skipped or repeated between them). *)
Theorem consecutive_pages_concatenate (db : Db.t) (query : string)
    (filters : BusinessFilters.t) (o k k' : Z)
    (Ho : 0 <= o) (Hk : 0 <= k) (Hk' : 0 <= k') :
  listings (Turso.getBusinesses db filters (page k o))
  ++ listings (Turso.getBusinesses db filters (page k' (o + k)))
  = listings (Turso.getBusinesses db filters (page (k + k') o))
  /\ listings (Turso.searchBusinesses db query filters (page k o))
     ++ listings (Turso.searchBusinesses db query filters (page k' (o + k)))
     = listings (Turso.searchBusinesses db query filters (page (k + k') o)).
Proof.
  split.
  - now apply Turso_pages_join.
  - rewrite !Turso_searchBusinesses_listings. unfold page_of, page. simpl.
    now apply sql_pages_concatenate.
Qed.

Lemma consecutive_pages_concatenate_witness :
  listings (Turso.getBusinesses facet_db BusinessFilters.empty (page 1 0))
  ++ listings (Turso.getBusinesses facet_db BusinessFilters.empty
                 (page 2 (0 + 1)))
  = listings (Turso.getBusinesses facet_db BusinessFilters.empty
                (page (1 + 2) 0))
  /\ listings (Turso.searchBusinesses facet_db "r" BusinessFilters.empty
                 (page 1 0))
     ++ listings (Turso.searchBusinesses facet_db "r" BusinessFilters.empty
                    (page 2 (0 + 1)))
     = listings (Turso.searchBusinesses facet_db "r" BusinessFilters.empty
                   (page (1 + 2) 0)).
Proof.
  apply (consecutive_pages_concatenate facet_db "r" BusinessFilters.empty
           0 1 2); lia.
Defined.

(** X6. When listing ids are unique in the table, two consecutive pages of
    getBusinesses share no listing id, and no page repeats an id. *)
Theorem consecutive_pages_share_no_id (db : Db.t)
    (filters : BusinessFilters.t) (o k k' : Z) (id : Z)
    (Hids : NoDup (map Business.id (Db.businesses db)))
    (Ho : 0 <= o) (Hk : 0 <= k) (Hk' : 0 <= k') :
  NoDup (map Business.id
           (listings (Turso.getBusinesses db filters (page k o))))
  /\ ~ (In id (map Business.id
                 (listings (Turso.getBusinesses db filters (page k o))))
        /\ In id (map Business.id
                    (listings (Turso.getBusinesses db filters
                                 (page k' (o + k)))))).
Proof.
  split.
  - rewrite Turso_getBusinesses_listings. now apply page_of_NoDup.
  - pose proof (Turso_pages_join db filters o k k' Ho Hk Hk') as Hcat.
    assert (NoDup (map Business.id
      (listings (Turso.getBusinesses db filters (page (k + k') o))))) as Hnd.
    { rewrite Turso_getBusinesses_listings. now apply page_of_NoDup. }
    rewrite <- Hcat, map_app in Hnd. intros [H1 H2].
    revert H1 H2 Hnd.
    generalize (map Business.id
                  (listings (Turso.getBusinesses db filters (page k o)))).
    generalize (map Business.id
                  (listings (Turso.getBusinesses db filters
                               (page k' (o + k))))).
    intros l2 l1 H1 H2 Hnd.
    induction l1 as [|a l1 IH]; [destruct H1|].
    simpl in Hnd. inversion Hnd as [|? ? Hn Hd]; subst.
    destruct H1 as [->|H1]; [|now apply IH].
    apply Hn. apply in_or_app. now right.
Qed.

Lemma facet_db_ids_unique : NoDup (map Business.id (Db.businesses facet_db)).
Proof.
  simpl. repeat constructor; simpl; intros H;
    decompose [or] H; try discriminate; assumption.
Defined.

Lemma consecutive_pages_share_no_id_witness :
  NoDup (map Business.id
           (listings (Turso.getBusinesses facet_db BusinessFilters.empty
                        (page 1 0))))
  /\ ~ (In 2 (map Business.id
                (listings (Turso.getBusinesses facet_db BusinessFilters.empty
                             (page 1 0))))
        /\ In 2 (map Business.id
                   (listings (Turso.getBusinesses facet_db
                                BusinessFilters.empty (page 2 (0 + 1)))))).
Proof.
  apply (consecutive_pages_share_no_id facet_db BusinessFilters.empty 0 1 2 2).
  - exact facet_db_ids_unique.
  - lia.
  - lia.
  - lia.
Defined.

(* ================================================================== *)
(** ** Further properties: the services against each other *)



(* ================================================================== *)
(** ** Further properties: facets *)

Lemma existsb_pointwise {R : Type} (f g : R -> bool) (l : list R) :
  (forall x, f x = g x) -> existsb f l = existsb g l.
Proof.
  intros H. induction l as [|a l IH]; simpl; [reflexivity|].
  now rewrite H, IH.
Qed.

Lemma includes_same_members (l l' : list Z) :
  (forall x, In x l <-> In x l') -> forall x, includes l x = includes l' x.
Proof.
  intros H x. apply bool_eq_iff. rewrite !includes_In. apply H.
Qed.

Lemma facet_supplied_same_members (l l' : list Z) :
  (forall x, In x l <-> In x l') ->
  facet_supplied (Some l) = facet_supplied (Some l').
Proof.
  intros H. destruct l as [|a l], l' as [|a' l']; try reflexivity.
  - destruct (proj2 (H a') (or_introl eq_refl)).
  - destruct (proj1 (H a) (or_introl eq_refl)).
Qed.

Lemma facets_match_same_members (k : Facet) (db : Db.t)
    (filters : BusinessFilters.t) (l l' : list Z) (id : Z) :
  (forall x, In x l <-> In x l') ->
  facets_match db (set_facet k (Some l) filters) id
  = facets_match db (set_facet k (Some l') filters) id.
Proof.
  intros H. pose proof (includes_same_members l l' H) as Hi.
  pose proof (facet_supplied_same_members l l' H) as Hs.
  assert (in_categories db l id = in_categories db l' id) as Hc
    by (apply existsb_pointwise; intros r; now rewrite Hi).
  assert (in_amenities db l id = in_amenities db l' id) as Ha
    by (apply existsb_pointwise; intros r; now rewrite Hi).
  assert (in_regions db l id = in_regions db l' id) as Hr
    by (apply existsb_pointwise; intros r; now rewrite Hi).
  unfold facets_match.
  destruct k; cbn [set_facet BusinessFilters.categories
                   BusinessFilters.amenities BusinessFilters.regions
                   facet_values];
    rewrite Hs, ?Hc, ?Ha, ?Hr; reflexivity.
Qed.

Lemma scalar_matches_set_facet (k : Facet) (o : option (list Z))
    (filters : BusinessFilters.t) (b : Business.t) :
  scalar_matches (set_facet k o filters) b = scalar_matches filters b.
Proof. destruct k; reflexivity. Qed.

Lemma scalar_matches_no_rating_set_facet (k : Facet) (o : option (list Z))
    (filters : BusinessFilters.t) (b : Business.t) :
  scalar_matches_no_rating (set_facet k o filters) b
  = scalar_matches_no_rating filters b.
Proof. destruct k; reflexivity. Qed.

(** X8. A facet list acts as a set: two lists with the same members, in
    any order and with any repetitions, give the same result list and the
    same count. *)
Theorem facet_list_is_a_set (k : Facet) (db : Db.t)
    (filters : BusinessFilters.t) (pagination : Pagination.t)
    (l l' : list Z) (Hsame : forall x, In x l <-> In x l') :
  Turso.getBusinesses db (set_facet k (Some l) filters) pagination
  = Turso.getBusinesses db (set_facet k (Some l') filters) pagination
  /\ Turso.getBusinessCount db (Some (set_facet k (Some l) filters))
     = Turso.getBusinessCount db (Some (set_facet k (Some l') filters)).
Proof.
  split.
  - rewrite !Turso_getBusinesses_attach. unfold page_of.
    do 3 f_equal. apply filter_ext. intros b.
    now rewrite !scalar_matches_set_facet,
      (facets_match_same_members k db filters l l' _ Hsame).
  - rewrite !Turso_getBusinessCount_spec. simpl BusinessFilters.optional.
    do 2 f_equal. apply filter_ext. intros b.
    now rewrite !scalar_matches_no_rating_set_facet,
      (facets_match_same_members k db filters l l' _ Hsame).
Qed.

Lemma facet_list_is_a_set_witness :
  Turso.getBusinesses facet_db
    (set_facet CategoryFacet (Some [1; 2]) facet_filter) (page 100 0)
  = Turso.getBusinesses facet_db
      (set_facet CategoryFacet (Some [2; 1; 2]) facet_filter) (page 100 0)
  /\ Turso.getBusinessCount facet_db
       (Some (set_facet CategoryFacet (Some [1; 2]) facet_filter))
     = Turso.getBusinessCount facet_db
         (Some (set_facet CategoryFacet (Some [2; 1; 2]) facet_filter)).
Proof.
  apply (facet_list_is_a_set CategoryFacet facet_db facet_filter
           (page 100 0) [1; 2] [2; 1; 2]).
  intros x. simpl. tauto.
Defined.

Lemma facets_match_unknown (k : Facet) (db : Db.t)
    (filters : BusinessFilters.t) (l : list Z) (id : Z) :
  l <> [] ->
  (forall x, In x l -> forall i, ~ holds k db i x) ->
  facets_match db (set_facet k (Some l) filters) id = false.
Proof.
  intros Hne Hno.
  assert (facet_supplied (Some l) = true) as Hs
    by (destruct l; [congruence | reflexivity]).
  destruct (facets_match db (set_facet k (Some l) filters) id) eqn:E;
    [|reflexivity].
  apply facets_match_iff in E. destruct E as [Hc [Ha Hr]].
  destruct k; cbn [set_facet BusinessFilters.categories
                   BusinessFilters.amenities BusinessFilters.regions] in *.
  - destruct (Hc Hs) as [x [Hx H]]. exfalso. exact (Hno x Hx id H).
  - destruct (Ha Hs) as [x [Hx H]]. exfalso. exact (Hno x Hx id H).
  - destruct (Hr Hs) as [x [Hx H]]. exfalso. exact (Hno x Hx id H).
Qed.

(** X9. When a facet list is not empty and no membership row carries any
    of its ids (ids that do not exist, for instance), getBusinesses returns
    the empty list and getBusinessCount returns 0, whatever the rest of the
    filter and the pagination. *)
Theorem unknown_facet_ids_match_nothing (k : Facet) (db : Db.t)
    (filters : BusinessFilters.t) (pagination : Pagination.t) (l : list Z)
    (Hne : l <> [])
    (Hunknown : forall x, In x l -> forall id, ~ holds k db id x) :
  Turso.getBusinesses db (set_facet k (Some l) filters) pagination = []
  /\ Turso.getBusinessCount db (Some (set_facet k (Some l) filters)) = 0.
Proof.
  split.
  - rewrite Turso_getBusinesses_attach, page_of_none; [reflexivity|].
    intros b. rewrite (facets_match_unknown k db filters l _ Hne Hunknown).
    apply andb_false_r.
  - rewrite Turso_getBusinessCount_spec. simpl BusinessFilters.optional.
    rewrite filter_none; [reflexivity|].
    intros b _. rewrite (facets_match_unknown k db filters l _ Hne Hunknown).
    apply andb_false_r.
Qed.

Lemma unknown_facet_ids_match_nothing_witness :
  Turso.getBusinesses facet_db
    (set_facet CategoryFacet (Some [99999]) BusinessFilters.empty)
    (page 10 0) = []
  /\ Turso.getBusinessCount facet_db
       (Some (set_facet CategoryFacet (Some [99999]) BusinessFilters.empty))
     = 0.
Proof.
  apply (unknown_facet_ids_match_nothing CategoryFacet facet_db
           BusinessFilters.empty (page 10 0) [99999]).
  - discriminate.
  - intros x Hx id H. simpl in Hx. destruct Hx as [<-|[]].
    simpl in H. unfold holds_category in H. simpl in H.
    decompose [or] H; try discriminate; assumption.
Defined.

(* ================================================================== *)
(** ** Further properties: attached relations *)

Lemma inner_join_In {A B : Type} (on : A -> B -> bool) (l : list A)
    (r : list B) (a : A) (b : B) :
  In (a, b) (inner_join on l r) <-> In a l /\ In b r /\ on a b = true.
Proof.
  unfold inner_join. rewrite in_flat_map. split.
  - intros [a' [Ha H]]. apply in_map_iff in H.
    destruct H as [b' [E H]]. injection E as -> ->.
    apply filter_In in H. tauto.
  - intros [Ha [Hb Hon]]. exists a. split; [exact Ha|].
    apply in_map_iff. exists b. split; [reflexivity|].
    now apply filter_In.
Qed.

Lemma categories_of_In (db : Db.t) (id : Z) (c : Category.t) :
  In c (categories_of db id)
  <-> In c (Db.categories db) /\ Category.is_active c = true
      /\ holds_category db id (Category.id c).
Proof.
  unfold categories_of, holds_category. rewrite in_map_iff. split.
  - intros [[c' bc] [E H]]. simpl in E. subst c'.
    apply filter_In in H. destruct H as [H Hc]. simpl in Hc.
    apply inner_join_In in H. destruct H as [Hin [Hbc Hon]].
    apply andb_true_iff in Hc. destruct Hc as [Hid Hact].
    apply Z.eqb_eq in Hid, Hon. apply eqb_prop in Hact.
    destruct bc as [i k]. simpl in *. subst. tauto.
  - intros [Hin [Hact H]]. eexists (c, _). split; [reflexivity|].
    apply filter_In. split.
    + apply inner_join_In. split; [exact Hin|]. split; [exact H|].
      simpl. apply Z.eqb_refl.
    + simpl. rewrite Z.eqb_refl, Hact. reflexivity.
Qed.

Lemma amenities_of_In (db : Db.t) (id : Z) (a : Amenity.t) :
  In a (amenities_of db id)
  <-> In a (Db.amenities db) /\ Amenity.is_active a = true
      /\ holds_amenity db id (Amenity.id a).
Proof.
  unfold amenities_of, holds_amenity. rewrite in_map_iff. split.
  - intros [[a' ba] [E H]]. simpl in E. subst a'.
    apply filter_In in H. destruct H as [H Hc]. simpl in Hc.
    apply inner_join_In in H. destruct H as [Hin [Hba Hon]].
    apply andb_true_iff in Hc. destruct Hc as [Hid Hact].
    apply Z.eqb_eq in Hid, Hon. apply eqb_prop in Hact.
    destruct ba as [i k]. simpl in *. subst. tauto.
  - intros [Hin [Hact H]]. eexists (a, _). split; [reflexivity|].
    apply filter_In. split.
    + apply inner_join_In. split; [exact Hin|]. split; [exact H|].
      simpl. apply Z.eqb_refl.
    + simpl. rewrite Z.eqb_refl, Hact. reflexivity.
Qed.

Lemma regions_of_In (db : Db.t) (id : Z) (r : Region.t) :
  In r (regions_of db id)
  <-> In r (Db.regions db) /\ holds_region db id (Region.id r).
Proof.
  unfold regions_of, holds_region. rewrite in_map_iff. split.
  - intros [[r' br] [E H]]. simpl in E. subst r'.
    apply filter_In in H. destruct H as [H Hid]. simpl in Hid.
    apply inner_join_In in H. destruct H as [Hin [Hbr Hon]].
    apply Z.eqb_eq in Hid, Hon.
    destruct br as [i k]. simpl in *. subst. tauto.
  - intros [Hin H]. eexists (r, _). split; [reflexivity|].
    apply filter_In. split.
    + apply inner_join_In. split; [exact Hin|]. split; [exact H|].
      simpl. apply Z.eqb_refl.
    + simpl. apply Z.eqb_refl.
Qed.

Lemma attach_categories_In (db : Db.t) (l : list Business.t)
    (r : BusinessResult) :
  In r (attach_categories db l) ->
  br_categories r = categories_of db (Business.id (br_business r)).
Proof.
  unfold attach_categories. rewrite in_map_iff.
  intros [b [<- _]]. reflexivity.
Qed.

(** X10. The categories attached to a row returned by getBusinesses or by
    searchBusinesses are exactly the active categories for which the
    listing has a membership row: no inactive category, no category of
    another listing, none missing. *)
Theorem attached_categories_are_the_active_memberships (db : Db.t)
    (query : string) (filters : BusinessFilters.t)
    (pagination : Pagination.t) (r : BusinessResult) (c : Category.t) :
  (In r (Turso.getBusinesses db filters pagination)
   \/ In r (Turso.searchBusinesses db query filters pagination)
   \/ In r (Simple.getBusinesses db filters pagination)
   \/ In r (Simple.searchBusinesses db query filters pagination)) ->
  (In c (br_categories r)
   <-> In c (Db.categories db) /\ Category.is_active c = true
       /\ is_member_category db (br_business r) c).
Proof.
  intros H.
  assert (br_categories r = categories_of db (Business.id (br_business r)))
    as ->.
  { destruct H as [H|[H|[H|H]]].
    - rewrite Turso_getBusinesses_attach in H.
      now apply attach_categories_In in H.
    - rewrite Turso_searchBusinesses_attach in H.
      now apply attach_categories_In in H.
    - rewrite Simple_getBusinesses_attach in H.
      now apply attach_categories_In in H.
    - rewrite Simple_searchBusinesses_attach in H.
      now apply attach_categories_In in H. }
  apply categories_of_In.
Qed.

Lemma attached_categories_are_the_active_memberships_witness :
  In (Category.mk 1 "Casino" "casino" true)
     (br_categories (mkBusinessResult L1 (categories_of facet_db 1)))
  <-> In (Category.mk 1 "Casino" "casino" true) (Db.categories facet_db)
      /\ Category.is_active (Category.mk 1 "Casino" "casino" true) = true
      /\ is_member_category facet_db
           (br_business (mkBusinessResult L1 (categories_of facet_db 1)))
           (Category.mk 1 "Casino" "casino" true).
Proof.
  apply (attached_categories_are_the_active_memberships facet_db "r"
           facet_filter (page 100 0)
           (mkBusinessResult L1 (categories_of facet_db 1))
           (Category.mk 1 "Casino" "casino" true)).
  left. vm_compute. left. reflexivity.
Defined.

(** X11. The detail value of getBusinessBySlug carries exactly the active
    categories and the active amenities the listing has a membership row
    for, and every region it has a membership row for (regions have no
    active flag). *)
Theorem detail_relations_are_the_memberships (db : Db.t) (slug : string)
    (d : BusinessDetail) (c : Category.t) (a : Amenity.t) (r : Region.t)
    (Hfound : Turso.getBusinessBySlug db slug = Some d) :
  (In c (bd_categories d)
   <-> In c (Db.categories db) /\ Category.is_active c = true
       /\ is_member_category db (bd_business d) c)
  /\ (In a (bd_amenities d)
      <-> In a (Db.amenities db) /\ Amenity.is_active a = true
          /\ is_member_amenity db (bd_business d) a)
  /\ (In r (bd_regions d)
      <-> In r (Db.regions db) /\ is_member_region db (bd_business d) r).
Proof.
  rewrite getBusinessBySlug_first in Hfound.
  destruct (List.filter _ _) as [|b0 rest]; [discriminate|].
  injection Hfound as <-. simpl.
  split; [apply categories_of_In|].
  split; [apply amenities_of_In | apply regions_of_In].
Qed.

Lemma detail_relations_are_the_memberships_witness :
  let d := mkBusinessDetail L1 (categories_of facet_db 1)
             (amenities_of facet_db 1) (regions_of facet_db 1) in
  let c := Category.mk 1 "Casino" "casino" true in
  let a := Amenity.mk 10 "Parking" "parking" "access" true in
  let r := Region.mk 1 "Perth Metro" "perth-metro" "WA" "Australia" in
  (In c (bd_categories d)
   <-> In c (Db.categories facet_db) /\ Category.is_active c = true
       /\ is_member_category facet_db (bd_business d) c)
  /\ (In a (bd_amenities d)
      <-> In a (Db.amenities facet_db) /\ Amenity.is_active a = true
          /\ is_member_amenity facet_db (bd_business d) a)
  /\ (In r (bd_regions d)
      <-> In r (Db.regions facet_db)
          /\ is_member_region facet_db (bd_business d) r).
Proof.
  apply (detail_relations_are_the_memberships facet_db "crown").
  vm_compute. reflexivity.
Defined.

(* ================================================================== *)
(** ** Further properties: counters *)

Lemma facets_match_empty (db : Db.t) (id : Z) :
  facets_match db BusinessFilters.empty id = true.
Proof. reflexivity. Qed.

Lemma scalar_matches_no_rating_empty (b : Business.t) :
  scalar_matches_no_rating BusinessFilters.empty b = Business.is_active b.
Proof.
  unfold scalar_matches_no_rating. simpl.
  now destruct (Business.is_active b).
Qed.

(** X12. getBusinessCount without a filter argument, or with the empty
    filter, is the number of active listings, and no filter makes the
    count larger than that. *)
Theorem count_without_filter_is_the_active_total (db : Db.t)
    (filters : BusinessFilters.t) :
  Turso.getBusinessCount db None
  = Z.of_nat
      (List.length
         (List.filter (fun b => Business.is_active b) (Db.businesses db)))
  /\ Turso.getBusinessCount db (Some BusinessFilters.empty)
     = Turso.getBusinessCount db None
  /\ Turso.getBusinessCount db (Some filters)
     <= Turso.getBusinessCount db None.
Proof.
  assert (Turso.getBusinessCount db None
          = Z.of_nat
              (List.length
                 (List.filter (fun b => Business.is_active b)
                    (Db.businesses db)))) as H0.
  { rewrite Turso_getBusinessCount_spec. simpl BusinessFilters.optional.
    do 2 f_equal. apply filter_ext. intros b.
    now rewrite scalar_matches_no_rating_empty, facets_match_empty,
      andb_true_r. }
  split; [exact H0|]. split; [reflexivity|].
  rewrite H0, Turso_getBusinessCount_spec. simpl BusinessFilters.optional.
  apply Nat2Z.inj_le, filter_length_mono.
  intros b Hb. apply andb_true_iff in Hb.
  eapply scalar_matches_no_rating_active, Hb.
Qed.

(* ================================================================== *)
(** ** Further properties: text search *)

Lemma like_chars_percent (p s : list ascii) :
  like_chars ("%"%char :: p) s
  = like_chars p s
    || match s with
       | [] => false
       | _ :: s' => like_chars ("%"%char :: p) s'
       end.
Proof. destruct s; reflexivity. Qed.

Lemma like_chars_plain (c : ascii) (p s : list ascii) :
  Ascii.eqb c "%"%char = false ->
  like_chars (c :: p) s
  = match s with
    | [] => false
    | d :: s' =>
        (Ascii.eqb c "_"%char || Ascii.eqb (lower c) (lower d))
        && like_chars p s'
    end.
Proof. intros H. simpl. now rewrite H. Qed.

Lemma like_chars_only_percent (p : list ascii) :
  Forall (fun c => c = "%"%char) p -> p <> [] ->
  forall s, like_chars p s = true.
Proof.
  induction 1 as [|c p -> Hp IH]; intros Hne; [congruence|].
  destruct p as [|c' p'].
  - intros s. induction s as [|a s IHs]; [reflexivity|].
    rewrite like_chars_percent, IHs. apply orb_true_r.
  - intros s. rewrite like_chars_percent, IH by discriminate. reflexivity.
Qed.

Lemma like_chars_skip (p pre s : list ascii) :
  like_chars p s = true -> like_chars ("%"%char :: p) (pre ++ s) = true.
Proof.
  intros H. induction pre as [|a pre IH]; simpl app.
  - rewrite like_chars_percent, H. reflexivity.
  - rewrite like_chars_percent, IH. apply orb_true_r.
Qed.

Lemma lower_same (c : ascii) : Ascii.eqb (lower c) (lower c) = true.
Proof. apply Ascii.eqb_refl. Qed.

Lemma like_chars_prefix (x post : list ascii) :
  like_chars (x ++ ["%"%char]) (x ++ post) = true.
Proof.
  induction x as [|c x IH]; simpl app.
  - apply like_chars_only_percent; [repeat constructor | discriminate].
  - destruct (Ascii.eqb c "%"%char) eqn:E.
    + apply Ascii.eqb_eq in E. subst c.
      rewrite like_chars_percent. apply orb_true_iff. right.
      rewrite like_chars_percent, IH. reflexivity.
    + rewrite (like_chars_plain c _ _ E), lower_same, IH.
      now rewrite orb_true_r.
Qed.

Lemma list_ascii_of_string_app (a b : string) :
  list_ascii_of_string (String.append a b)
  = list_ascii_of_string a ++ list_ascii_of_string b.
Proof. induction a as [|c a IH]; simpl; [reflexivity | now rewrite IH]. Qed.

Lemma contains_pattern_chars (x : string) :
  list_ascii_of_string (contains_pattern x)
  = "%"%char :: list_ascii_of_string x ++ ["%"%char].
Proof.
  unfold contains_pattern. now rewrite !list_ascii_of_string_app.
Qed.

Lemma like_contains (value part : string) :
  contains value part -> like value (contains_pattern part) = true.
Proof.
  intros [pre [post ->]]. unfold like.
  rewrite contains_pattern_chars, !list_ascii_of_string_app.
  apply like_chars_skip, like_chars_prefix.
Qed.

Lemma like_only_percent (value query : string) :
  only_percent_signs query -> like value (contains_pattern query) = true.
Proof.
  intros H. unfold like. rewrite contains_pattern_chars.
  apply like_chars_only_percent; [|discriminate].
  constructor; [reflexivity|].
  apply Forall_app. split; [exact H | repeat constructor].
Qed.

Lemma lower_percent (c : ascii) :
  Ascii.eqb (lower c) "%"%char = Ascii.eqb c "%"%char.
Proof. destruct c as [[] [] [] [] [] [] [] []]; reflexivity. Qed.

Lemma lower_underscore (c : ascii) :
  Ascii.eqb (lower c) "_"%char = Ascii.eqb c "_"%char.
Proof. destruct c as [[] [] [] [] [] [] [] []]; reflexivity. Qed.

Lemma lower_idempotent (c : ascii) : lower (lower c) = lower c.
Proof. destruct c as [[] [] [] [] [] [] [] []]; reflexivity. Qed.

Lemma like_chars_lower_pattern (p : list ascii) :
  forall s, like_chars (map lower p) s = like_chars p s.
Proof.
  induction p as [|c p IH]; intros s; [reflexivity|].
  cbn [map]. destruct (Ascii.eqb c "%"%char) eqn:E.
  - apply Ascii.eqb_eq in E. subst c.
    change (lower "%"%char) with "%"%char.
    induction s as [|a s IHs].
    + rewrite !like_chars_percent, IH. reflexivity.
    + rewrite (like_chars_percent (map lower p)), (like_chars_percent p).
      now rewrite IH, IHs.
  - rewrite (like_chars_plain c _ _ E).
    rewrite like_chars_plain by (now rewrite lower_percent).
    destruct s as [|d s]; [reflexivity|].
    now rewrite lower_underscore, lower_idempotent, IH.
Qed.

Lemma like_lowercase (value query : string) :
  like value (contains_pattern (lowercase query))
  = like value (contains_pattern query).
Proof.
  unfold like. rewrite !contains_pattern_chars. unfold lowercase.
  rewrite list_ascii_of_string_of_list_ascii.
  rewrite <- (like_chars_lower_pattern
                ("%"%char :: list_ascii_of_string query ++ ["%"%char])).
  cbn [map]. rewrite map_app. reflexivity.
Qed.

Lemma search_group_lowercase (query : string) (b : Business.t) :
  Turso.search_group (lowercase query) b = Turso.search_group query b.
Proof.
  unfold Turso.search_group, sql_or, like_col. cbv zeta. simpl.
  now rewrite !like_lowercase.
Qed.

Lemma search_group_only_percent (query : string) (b : Business.t) :
  only_percent_signs query -> Turso.search_group query b = true.
Proof.
  intros H. unfold Turso.search_group, sql_or, like_col. cbv zeta. simpl.
  now rewrite (like_only_percent _ _ H).
Qed.

Lemma search_group_contains (query : string) (b : Business.t) :
  (exists column, In column (searched_columns b) /\ contains column query) ->
  Turso.search_group query b = true.
Proof.
  intros [column [Hin Hc]]. apply like_contains in Hc.
  unfold Turso.search_group, sql_or, like_col. cbv zeta. simpl.
  simpl in Hin. decompose [or] Hin; subst; rewrite ?Hc;
    rewrite ?orb_true_r; try reflexivity; contradiction.
Qed.

(** X13. A query made of [%] signs only, the empty query included, puts
    no text constraint: searchBusinesses returns what getBusinesses
    returns for the same filter without its rating floor, and
    getSearchCount returns getBusinessCount. *)
Theorem percent_query_is_list_mode (db : Db.t) (query : string)
    (filters : BusinessFilters.t) (pagination : Pagination.t)
    (Hquery : only_percent_signs query) :
  Turso.searchBusinesses db query filters pagination
  = Turso.getBusinesses db (set_rating_min None filters) pagination
  /\ Turso.getSearchCount db query (Some filters)
     = Turso.getBusinessCount db (Some filters).
Proof.
  split.
  - rewrite Turso_searchBusinesses_attach, Turso_getBusinesses_attach.
    unfold page_of. do 3 f_equal. apply filter_ext. intros b.
    rewrite (search_group_only_percent query b Hquery).
    rewrite scalar_matches_split. simpl. now rewrite andb_true_r.
  - rewrite Turso_getSearchCount_spec, Turso_getBusinessCount_spec.
    do 2 f_equal. apply filter_ext. intros b.
    now rewrite (search_group_only_percent query b Hquery).
Qed.

Lemma percent_query_is_list_mode_witness :
  Turso.searchBusinesses facet_db "%%" facet_filter (page 100 0)
  = Turso.getBusinesses facet_db (set_rating_min None facet_filter)
      (page 100 0)
  /\ Turso.getSearchCount facet_db "%%" (Some facet_filter)
     = Turso.getBusinessCount facet_db (Some facet_filter).
Proof.
  apply (percent_query_is_list_mode facet_db "%%" facet_filter (page 100 0)).
  repeat constructor.
Defined.

(** X14. On a page from offset 0 that holds every listing and with the
    empty filter, searchBusinesses returns every active listing one of
    whose name, description, full address, city or business type holds
    the query text. *)
Theorem search_finds_listings_holding_the_query (db : Db.t)
    (query : string) (pagination : Pagination.t) (b : Business.t)
    (Hoffset : Pagination.offset pagination = 0)
    (Hlimit : Z.of_nat (List.length (Db.businesses db))
              <= Pagination.limit pagination)
    (Hin : In b (Db.businesses db))
    (Hactive : Business.is_active b = true)
    (Hholds : exists column,
                In column (searched_columns b) /\ contains column query) :
  In b (listings (Turso.searchBusinesses db query BusinessFilters.empty
                    pagination)).
Proof.
  rewrite Turso_searchBusinesses_listings. unfold page_of.
  rewrite Hoffset, sql_limit_offset_all.
  - apply orderBy_In, filter_In. split; [exact Hin|].
    rewrite (search_group_contains query b Hholds).
    now rewrite scalar_matches_no_rating_empty, Hactive, facets_match_empty.
  - rewrite orderBy_length.
    pose proof (filter_length_le
      (fun b => Turso.search_group query b
                && scalar_matches_no_rating BusinessFilters.empty b
                && facets_match db BusinessFilters.empty (Business.id b))
      (Db.businesses db)). lia.
Qed.

Lemma search_finds_listings_holding_the_query_witness :
  In L1 (listings (Turso.searchBusinesses facet_db "row"
                     BusinessFilters.empty (page 100 0))).
Proof.
  apply (search_finds_listings_holding_the_query facet_db "row"
           (page 100 0) L1).
  - reflexivity.
  - simpl. lia.
  - left. reflexivity.
  - reflexivity.
  - exists "Crown"%string. split; [left; reflexivity|].
    exists "C"%string, "n"%string. reflexivity.
Defined.

(** X15. The search does not tell upper-case from lower-case letters in
    the query: the query with its letters A-Z turned to a-z gives the same
    result list and the same count. *)
Theorem search_ignores_query_case (db : Db.t) (query : string)
    (filters : BusinessFilters.t) (pagination : Pagination.t) :
  Turso.searchBusinesses db (lowercase query) filters pagination
  = Turso.searchBusinesses db query filters pagination
  /\ Turso.getSearchCount db (lowercase query) (Some filters)
     = Turso.getSearchCount db query (Some filters).
Proof.
  split.
  - rewrite !Turso_searchBusinesses_attach. unfold page_of.
    do 3 f_equal. apply filter_ext. intros b.
    now rewrite search_group_lowercase.
  - rewrite !Turso_getSearchCount_spec.
    do 2 f_equal. apply filter_ext. intros b.
    now rewrite search_group_lowercase.
Qed.

Example search_case_example :
  lowercase "CrOwN" = "crown"%string
  /\ listings (Turso.searchBusinesses facet_db "CrOwN" BusinessFilters.empty
                 (page 100 0)) = [L1].
Proof. split; vm_compute; reflexivity. Qed.

(* ================================================================== *)
(** ** Further properties: the facet catalog *)

Lemma string_leb_trans (a b c : string) :
  String.leb a b = true -> String.leb b c = true -> String.leb a c = true.
Proof.
  unfold String.leb. revert b c.
  induction a as [|x a IH]; intros [|y b] [|z c]; simpl;
    try congruence; try reflexivity.
  unfold Ascii.compare.
  destruct (N.compare_spec (N_of_ascii x) (N_of_ascii y)) as [E1|L1|G1];
    destruct (N.compare_spec (N_of_ascii y) (N_of_ascii z)) as [E2|L2|G2];
    destruct (N.compare_spec (N_of_ascii x) (N_of_ascii z)) as [E3|L3|G3];
    try congruence; try reflexivity; try lia.
  apply IH.
Qed.

Lemma string_leb_refl (a : string) : String.leb a a = true.
Proof. destruct (String.leb_total a a); assumption. Qed.

Lemma asc_then_asc_total {R : Type} (first second : R -> string) (x y : R) :
  Turso.asc_then_asc first second x y = true
  \/ Turso.asc_then_asc first second y x = true.
Proof.
  unfold Turso.asc_then_asc. rewrite (String.eqb_sym (first y)).
  destruct (String.eqb (first x) (first y)); apply String.leb_total.
Qed.

Lemma asc_then_asc_trans {R : Type} (first second : R -> string)
    (x y z : R) :
  Turso.asc_then_asc first second x y = true ->
  Turso.asc_then_asc first second y z = true ->
  Turso.asc_then_asc first second x z = true.
Proof.
  unfold Turso.asc_then_asc.
  destruct (String.eqb_spec (first x) (first y)) as [Exy|Nxy];
    destruct (String.eqb_spec (first y) (first z)) as [Eyz|Nyz];
    destruct (String.eqb_spec (first x) (first z)) as [Exz|Nxz];
    intros H1 H2; try congruence.
  - eapply string_leb_trans; eassumption.
  - exfalso. apply Nxy. apply String.leb_antisym; [exact H1|].
    rewrite Exz. exact H2.
  - eapply string_leb_trans; eassumption.
Qed.

(** X16. The catalog lists are the table rows in order: getCategories and
    getAmenities return the active rows only, each as often as the table
    holds it, sorted by name (amenities by category, then name);
    getRegions returns every region, sorted by state, then name. *)
Theorem catalog_lists_are_sorted_active_rows (db : Db.t) :
  Permutation (Turso.getCategories db)
    (List.filter (fun c => Category.is_active c) (Db.categories db))
  /\ StronglySorted
       (fun x y => String.leb (Category.name x) (Category.name y) = true)
       (Turso.getCategories db)
  /\ Permutation (Turso.getAmenities db)
       (List.filter (fun a => Amenity.is_active a) (Db.amenities db))
  /\ StronglySorted
       (fun x y =>
          Turso.asc_then_asc Amenity.category Amenity.name x y = true)
       (Turso.getAmenities db)
  /\ Permutation (Turso.getRegions db) (Db.regions db)
  /\ StronglySorted
       (fun x y => Turso.asc_then_asc Region.state Region.name x y = true)
       (Turso.getRegions db).
Proof.
  unfold Turso.getCategories, Turso.getAmenities, Turso.getRegions.
  repeat split.
  - rewrite orderBy_perm. erewrite filter_ext; [reflexivity|].
    intros c. unfold eq_bool. now destruct (Category.is_active c).
  - apply orderBy_sorted.
    + intros x y. apply String.leb_total.
    + intros x y z. apply string_leb_trans.
  - rewrite orderBy_perm. erewrite filter_ext; [reflexivity|].
    intros a. unfold eq_bool. now destruct (Amenity.is_active a).
  - apply orderBy_sorted.
    + apply asc_then_asc_total.
    + apply asc_then_asc_trans.
  - apply orderBy_perm.
  - apply orderBy_sorted.
    + apply asc_then_asc_total.
    + apply asc_then_asc_trans.
Qed.

Lemma first_or_null_filter {R : Type} (p : R -> bool) (l : list R) :
  match Turso.first_or_null (sql_limit 1 (List.filter p l)) with
  | Some x => In x l /\ p x = true
  | None => forall x, In x l -> p x = false
  end.
Proof.
  unfold sql_limit, sql_limit_offset. simpl.
  destruct (List.filter p l) as [|x rest] eqn:E; simpl.
  - intros x Hx. destruct (p x) eqn:Ep; [|reflexivity].
    assert (In x []) as C; [|destruct C].
    rewrite <- E. now apply filter_In.
  - apply filter_In. rewrite E. now left.
Qed.

(** X17. The slug lookups agree with the catalog lists: a category (or
    amenity, or region) found by its slug carries that slug and is in the
    list getCategories (getAmenities, getRegions) returns, and the lookup
    returns null exactly when no row of that list carries the slug; so an
    inactive category or amenity is never found. *)
Theorem slug_lookups_agree_with_catalog (db : Db.t) (slug : string) :
  match Turso.getCategoryBySlug db slug with
  | Some c => In c (Turso.getCategories db) /\ Category.slug c = slug
  | None => forall c, In c (Turso.getCategories db) -> Category.slug c <> slug
  end
  /\ match Turso.getAmenityBySlug db slug with
     | Some a => In a (Turso.getAmenities db) /\ Amenity.slug a = slug
     | None =>
         forall a, In a (Turso.getAmenities db) -> Amenity.slug a <> slug
     end
  /\ match Turso.getRegionBySlug db slug with
     | Some r => In r (Turso.getRegions db) /\ Region.slug r = slug
     | None => forall r, In r (Turso.getRegions db) -> Region.slug r <> slug
     end.
Proof.
  unfold Turso.getCategoryBySlug, Turso.getAmenityBySlug,
    Turso.getRegionBySlug, Turso.getCategories, Turso.getAmenities,
    Turso.getRegions.
  repeat split.
  - match goal with
    | |- context [Turso.first_or_null (sql_limit 1 (List.filter ?p ?l))] =>
        pose proof (first_or_null_filter p l) as H
    end.
    destruct (Turso.first_or_null _) as [c|].
    + destruct H as [Hin Hp]. rewrite sql_and_two in Hp.
      apply andb_true_iff in Hp. destruct Hp as [Hs Ha].
      apply String.eqb_eq in Hs. split; [|exact Hs].
      apply orderBy_In, filter_In. tauto.
    + intros c Hc. apply orderBy_In, filter_In in Hc.
      destruct Hc as [Hin Ha]. specialize (H c Hin).
      rewrite sql_and_two, Ha, andb_true_r in H.
      now apply String.eqb_neq in H.
  - match goal with
    | |- context [Turso.first_or_null (sql_limit 1 (List.filter ?p ?l))] =>
        pose proof (first_or_null_filter p l) as H
    end.
    destruct (Turso.first_or_null _) as [a|].
    + destruct H as [Hin Hp]. rewrite sql_and_two in Hp.
      apply andb_true_iff in Hp. destruct Hp as [Hs Ha].
      apply String.eqb_eq in Hs. split; [|exact Hs].
      apply orderBy_In, filter_In. tauto.
    + intros a Ha'. apply orderBy_In, filter_In in Ha'.
      destruct Ha' as [Hin Ha]. specialize (H a Hin).
      rewrite sql_and_two, Ha, andb_true_r in H.
      now apply String.eqb_neq in H.
  - match goal with
    | |- context [Turso.first_or_null (sql_limit 1 (List.filter ?p ?l))] =>
        pose proof (first_or_null_filter p l) as H
    end.
    destruct (Turso.first_or_null _) as [r|].
    + destruct H as [Hin Hs]. apply String.eqb_eq in Hs.
      split; [|exact Hs]. now apply orderBy_In.
    + intros r Hr. apply orderBy_In in Hr. specialize (H r Hr).
      now apply String.eqb_neq in H.
Qed.

(** *** Grouping the rows of a LEFT JOIN *)

Section Grouping.
Context {A : Type} (eqb : A -> A -> bool).
Hypothesis eqb_spec : forall x y, eqb x y = true <-> x = y.

Lemma group_keys_subset (l : list A) (x : A) :
  In x (group_keys eqb l) -> In x l.
Proof.
  revert x. induction l as [|a l IH]; intros x; simpl; [tauto|].
  intros [->|H]; [now left|]. right. apply IH.
  now apply filter_In in H.
Qed.

Lemma group_keys_NoDup (l : list A) : NoDup l -> group_keys eqb l = l.
Proof.
  induction 1 as [|a l Hn Hd IH]; simpl; [reflexivity|].
  rewrite IH. f_equal.
  rewrite (filter_ext_in (fun k' => negb (eqb a k')) (fun _ => true)).
  - clear. induction l as [|x l IH]; simpl; [reflexivity|now rewrite IH].
  - intros x Hx. destruct (eqb a x) eqn:E; [|reflexivity].
    apply eqb_spec in E. subst. contradiction.
Qed.

Lemma filter_twice (p : A -> bool) (l : list A) :
  List.filter p (List.filter p l) = List.filter p l.
Proof.
  rewrite filter_filter. apply filter_ext. intros x. now destruct (p x).
Qed.

Lemma group_keys_repeat (a : A) (n : nat) (m : list A) :
  group_keys eqb (repeat a (S n) ++ m)
  = a :: List.filter (fun k' => negb (eqb a k')) (group_keys eqb m).
Proof.
  induction n as [|n IH]; [reflexivity|].
  change (repeat a (S (S n)) ++ m) with (a :: (repeat a (S n) ++ m)).
  cbn [group_keys]. rewrite IH. cbn [List.filter].
  rewrite (proj2 (eqb_spec a a) eq_refl). simpl.
  now rewrite filter_twice.
Qed.

Lemma group_keys_stutter (l m : list A) :
  stutter l m -> group_keys eqb m = group_keys eqb l.
Proof.
  induction 1 as [|a n l m H IH]; [reflexivity|].
  rewrite group_keys_repeat, IH. reflexivity.
Qed.
End Grouping.

Lemma stutter_map {A B : Type} (g : A -> B) (l m : list A) :
  stutter l m -> stutter (map g l) (map g m).
Proof.
  induction 1 as [|a n l m H IH]; [constructor|].
  rewrite map_app, map_repeat. cbn [map]. now constructor.
Qed.

Lemma filter_all {R : Type} (p : R -> bool) (l : list R) :
  (forall x, In x l -> p x = true) -> List.filter p l = l.
Proof.
  induction l as [|a l IH]; simpl; intros H; [reflexivity|].
  rewrite (H a (or_introl eq_refl)). f_equal. apply IH.
  intros x Hx. apply H. now right.
Qed.

Section LeftJoin.
Context {A B : Type} (on : A -> B -> bool).

(** The rows one left row contributes. *)
Let block (a : A) (r : list B) : list (A * option B) :=
  match List.filter (on a) r with
  | [] => [(a, None)]
  | ms => map (fun b => (a, Some b)) ms
  end.

Lemma left_join_cons (a : A) (l : list A) (r : list B) :
  left_join on (a :: l) r = block a r ++ left_join on l r.
Proof. reflexivity. Qed.

Lemma block_fst (a : A) (r : list B) (x : A * option B) :
  In x (block a r) -> fst x = a.
Proof.
  unfold block. destruct (List.filter (on a) r) as [|b ms].
  - intros [<-|[]]. reflexivity.
  - rewrite in_map_iff. intros [b' [<- _]]. reflexivity.
Qed.

Lemma block_not_empty (a : A) (r : list B) :
  exists n, List.length (block a r) = S n.
Proof.
  unfold block. destruct (List.filter (on a) r) as [|b ms].
  - exists 0%nat. reflexivity.
  - exists (List.length ms). simpl. now rewrite length_map.
Qed.

Lemma same_fst_repeat (a : A) (rows : list (A * option B)) :
  (forall x, In x rows -> fst x = a) ->
  map fst rows = repeat a (List.length rows).
Proof.
  induction rows as [|x rows IH]; intros H; [reflexivity|].
  simpl. rewrite (H x (or_introl eq_refl)). f_equal. apply IH.
  intros y Hy. apply H. now right.
Qed.

Lemma left_join_stutter (l : list A) (r : list B) :
  stutter l (map fst (left_join on l r)).
Proof.
  induction l as [|a l IH]; [constructor|].
  rewrite left_join_cons, map_app.
  rewrite (same_fst_repeat a (block a r) (block_fst a r)).
  destruct (block_not_empty a r) as [n ->].
  now constructor.
Qed.

Lemma left_join_filter_left (p : A -> bool) (l : list A) (r : list B) :
  List.filter (fun x => p (fst x)) (left_join on l r)
  = left_join on (List.filter p l) r.
Proof.
  induction l as [|a l IH]; [reflexivity|].
  rewrite left_join_cons, filter_app, IH. cbn [List.filter].
  destruct (p a) eqn:E.
  - rewrite left_join_cons. f_equal. apply filter_all.
    intros x Hx. now rewrite (block_fst a r x Hx).
  - rewrite filter_none; [reflexivity|].
    intros x Hx. now rewrite (block_fst a r x Hx).
Qed.

Lemma left_join_single (a : A) (r : list B) :
  left_join on [a] r = block a r.
Proof. unfold left_join. simpl. apply app_nil_r. Qed.
End LeftJoin.

Lemma unique_id_match (k : Z) (q : Business.t -> bool)
    (bs : list Business.t) :
  NoDup (map Business.id bs) ->
  (List.length
     (List.filter (fun b => Z.eqb k (Business.id b) && q b) bs) <= 1)%nat.
Proof.
  induction bs as [|b bs IH]; simpl; intros H; [lia|].
  inversion H as [|? ? Hn Hd]; subst. specialize (IH Hd).
  destruct (Z.eqb_spec k (Business.id b)) as [->|Hne]; simpl; [|exact IH].
  rewrite filter_none.
  - destruct (q b); simpl; lia.
  - intros x Hx. destruct (Z.eqb_spec (Business.id b) (Business.id x));
      [|reflexivity].
    exfalso. apply Hn. rewrite e. now apply in_map.
Qed.

Lemma count_non_null_app {R A : Type} (column : R -> option A)
    (l l' : list R) :
  Turso.count_non_null column (l ++ l')
  = Turso.count_non_null column l + Turso.count_non_null column l'.
Proof.
  unfold Turso.count_non_null. rewrite filter_app, length_app. lia.
Qed.

Section WithCounts.
Context {E J : Type} (eqbE : E -> E -> bool).
Hypothesis eqbE_spec : forall x y, eqbE x y = true <-> x = y.
Context (on1 : E -> J -> bool) (jb : J -> Z).

(** The second join of the three count queries:
    [LEFT JOIN businesses ON j.business_id = businesses.id
                          AND businesses.is_active]. *)
Let on2 (ej : E * option J) (b : Business.t) : bool :=
  match snd ej with
  | Some j => (jb j =? Business.id b) && Bool.eqb (Business.is_active b) true
  | None => false
  end.

Let joined (es : list E) (js : list J) (bs : list Business.t)
  : list ((E * option J) * option Business.t) :=
  left_join on2 (left_join on1 es js) bs.

Lemma joined_filter (P : E -> bool) (es : list E) (js : list J)
    (bs : list Business.t) :
  List.filter (fun r => P (fst (fst r))) (joined es js bs)
  = joined (List.filter P es) js bs.
Proof.
  unfold joined.
  etransitivity;
    [exact (left_join_filter_left on2 (fun x => P (fst x)) _ bs)|].
  f_equal. exact (left_join_filter_left on1 P es js).
Qed.

Lemma joined_groups (es : list E) (js : list J) (bs : list Business.t) :
  NoDup es ->
  group_keys eqbE (map (fun r => fst (fst r)) (joined es js bs)) = es.
Proof.
  intros Hnd. unfold joined.
  rewrite <- (map_map fst fst).
  rewrite (group_keys_stutter eqbE eqbE_spec
             (map fst (left_join on1 es js))).
  - rewrite (group_keys_stutter eqbE eqbE_spec es).
    + now apply group_keys_NoDup.
    + apply left_join_stutter.
  - apply stutter_map, left_join_stutter.
Qed.

Lemma joined_count_rows (bs : list Business.t)
    (X : list (E * option J)) :
  NoDup (map Business.id bs) ->
  Turso.count_non_null (fun r => option_map jb (snd (fst r)))
    (left_join on2 X bs)
  = Z.of_nat
      (List.length
         (List.filter
            (fun x => match snd x with Some _ => true | None => false end)
            X)).
Proof.
  intros Hnd. induction X as [|x X IH]; [reflexivity|].
  rewrite left_join_cons, count_non_null_app, IH. cbn [List.filter].
  destruct x as [e [j|]]; cbn [snd].
  - cbn [List.length]. rewrite Nat2Z.inj_succ.
    assert (Turso.count_non_null
              (fun r : (E * option J) * option Business.t =>
                 option_map jb (snd (fst r)))
              match List.filter (on2 (e, Some j)) bs with
              | [] => [((e, Some j), None)]
              | ms => map (fun b => ((e, Some j), Some b)) ms
              end = 1) as ->; [|lia].
    pose proof (unique_id_match (jb j)
                  (fun b => Bool.eqb (Business.is_active b) true) bs Hnd)
      as Hu.
    unfold on2. cbn [snd].
    destruct (List.filter _ bs) as [|b [|b' ms]]; try reflexivity.
    simpl in Hu. lia.
  - assert (List.filter (on2 (e, None)) bs = []) as ->
      by (apply filter_none; reflexivity).
    reflexivity.
Qed.

Lemma joined_count (es : list E) (js : list J) (bs : list Business.t)
    (e : E) :
  NoDup es -> In e es -> NoDup (map Business.id bs) ->
  Turso.count_non_null (fun r => option_map jb (snd (fst r)))
    (List.filter (fun r => eqbE e (fst (fst r))) (joined es js bs))
  = Z.of_nat (List.length (List.filter (on1 e) js)).
Proof.
  intros Hnd Hin Hids.
  rewrite (joined_filter (eqbE e)).
  assert (List.filter (eqbE e) es = [e]) as ->.
  { clear - eqbE_spec Hnd Hin.
    induction es as [|a es IH]; [destruct Hin|].
    inversion Hnd as [|? ? Hn Hd]; subst. simpl.
    destruct (eqbE e a) eqn:E0.
    - apply eqbE_spec in E0. subst a. f_equal.
      apply filter_none. intros x Hx.
      destruct (eqbE e x) eqn:E1; [|reflexivity].
      apply eqbE_spec in E1. subst. contradiction.
    - destruct Hin as [->|Hin].
      + rewrite (proj2 (eqbE_spec e e) eq_refl) in E0. discriminate.
      + now apply IH. }
  unfold joined. rewrite joined_count_rows by exact Hids.
  rewrite left_join_single.
  destruct (List.filter (on1 e) js) as [|j ms]; [reflexivity|].
  do 2 f_equal. rewrite filter_all.
  - apply length_map.
  - intros x Hx. apply in_map_iff in Hx. destruct Hx as [j' [<- _]].
    reflexivity.
Qed.
End WithCounts.

Lemma Category_eqb_spec (x y : Category.t) :
  Category.eqb x y = true <-> x = y.
Proof.
  destruct x as [i n s a], y as [i' n' s' a']. unfold Category.eqb. simpl.
  rewrite !andb_true_iff, Z.eqb_eq, !String.eqb_eq, eqb_true_iff.
  split; [intros [[[-> ->] ->] ->]; reflexivity|].
  intros [= -> -> -> ->]. tauto.
Qed.

Lemma Amenity_eqb_spec (x y : Amenity.t) :
  Amenity.eqb x y = true <-> x = y.
Proof.
  destruct x as [i n s c a], y as [i' n' s' c' a']. unfold Amenity.eqb.
  simpl.
  rewrite !andb_true_iff, Z.eqb_eq, !String.eqb_eq, eqb_true_iff.
  split; [intros [[[[-> ->] ->] ->] ->]; reflexivity|].
  intros [= -> -> -> -> ->]. tauto.
Qed.

Lemma Region_eqb_spec (x y : Region.t) :
  Region.eqb x y = true <-> x = y.
Proof.
  destruct x as [i n s t c], y as [i' n' s' t' c']. unfold Region.eqb.
  simpl.
  rewrite !andb_true_iff, Z.eqb_eq, !String.eqb_eq.
  split; [intros [[[[-> ->] ->] ->] ->]; reflexivity|].
  intros [= -> -> -> -> ->]. tauto.
Qed.

Lemma orderBy_map {A B : Type} (g : A -> B) (before : B -> B -> bool)
    (l : list A) :
  map g (orderBy (fun x y => before (g x) (g y)) l)
  = orderBy before (map g l).
Proof.
  induction l as [|a l IH]; [reflexivity|]. simpl. rewrite <- IH.
  generalize (orderBy (fun x y => before (g x) (g y)) l). intros s.
  induction s as [|b s IHs]; [reflexivity|]. simpl.
  destruct (before (g a) (g b)); simpl; [reflexivity | now rewrite IHs].
Qed.

Lemma filter_active_categories (l : list Category.t) :
  List.filter (eq_bool Category.is_active true) l
  = List.filter (fun c => Bool.eqb (Category.is_active c) true) l.
Proof. reflexivity. Qed.

Lemma category_groups (db : Db.t) :
  NoDup (Db.categories db) ->
  group_keys Category.eqb
    (map (fun r => fst (fst r)) (Turso.category_join db))
  = List.filter (eq_bool Category.is_active true) (Db.categories db).
Proof.
  intros Hnd. unfold Turso.category_join.
  rewrite (joined_filter
             (fun c bc => Category.id c =? BusinessCategory.category_id bc)
             BusinessCategory.business_id
             (fun c => Bool.eqb (Category.is_active c) true)).
  apply (joined_groups Category.eqb Category_eqb_spec).
  now apply NoDup_filter.
Qed.

(** X18. When the categories table holds no row twice,
    getCategoriesWithCounts lists exactly the categories getCategories
    lists, in the same order: one row per active category, whether or not
    any listing holds it. *)
Theorem counted_categories_are_the_catalog (db : Db.t)
    (Hrows : NoDup (Db.categories db)) :
  map Turso.cwc_category (Turso.getCategoriesWithCounts db)
  = Turso.getCategories db.
Proof.
  unfold Turso.getCategoriesWithCounts, Turso.getCategories. cbv zeta.
  rewrite (orderBy_map Turso.cwc_category
             (fun x y => String.leb (Category.name x) (Category.name y))).
  rewrite map_map. cbn [Turso.cwc_category]. rewrite map_id.
  now rewrite category_groups.
Qed.

Lemma facet_db_categories_distinct : NoDup (Db.categories facet_db).
Proof.
  simpl. repeat constructor; simpl; intros H;
    decompose [or] H; try discriminate; assumption.
Defined.

Lemma counted_categories_are_the_catalog_witness :
  map Turso.cwc_category (Turso.getCategoriesWithCounts facet_db)
  = Turso.getCategories facet_db.
Proof.
  apply (counted_categories_are_the_catalog facet_db).
  exact facet_db_categories_distinct.
Defined.

Lemma category_count_is_its_membership_rows_aux (db : Db.t)
    (cw : Turso.CategoryWithCount) :
  NoDup (map Business.id (Db.businesses db)) ->
  NoDup (Db.categories db) ->
  In cw (Turso.getCategoriesWithCounts db) ->
  Turso.cwc_business_count cw
  = Z.of_nat (List.length (membership_rows db (Turso.cwc_category cw))).
Proof.
  intros Hids Hrows Hin.
  unfold Turso.getCategoriesWithCounts in Hin. cbv zeta in Hin.
  apply orderBy_In, in_map_iff in Hin. destruct Hin as [c [<- Hc]].
  rewrite category_groups in Hc by exact Hrows.
  cbn [Turso.cwc_business_count Turso.cwc_category].
  unfold Turso.category_join.
  rewrite (joined_filter
             (fun c bc => Category.id c =? BusinessCategory.category_id bc)
             BusinessCategory.business_id
             (fun c => Bool.eqb (Category.is_active c) true)).
  apply (joined_count Category.eqb Category_eqb_spec).
  - now apply NoDup_filter.
  - exact Hc.
  - exact Hids.
Qed.

(** X19. With listing ids unique and no category row repeated, the
    business_count of every row of getCategoriesWithCounts is the number
    of membership rows that name the category: each row counts once,
    whatever the is_active flag of its listing and even when the same
    row is stored twice. *)
Theorem category_count_is_its_membership_rows (db : Db.t)
    (cw : Turso.CategoryWithCount)
    (Hids : NoDup (map Business.id (Db.businesses db)))
    (Hrows : NoDup (Db.categories db))
    (Hin : In cw (Turso.getCategoriesWithCounts db)) :
  Turso.cwc_business_count cw
  = Z.of_nat (List.length (membership_rows db (Turso.cwc_category cw))).
Proof. now apply category_count_is_its_membership_rows_aux. Qed.

Lemma catalog_db_ids_unique :
  NoDup (map Business.id (Db.businesses catalog_db)).
Proof.
  simpl. repeat constructor; simpl; intros H;
    decompose [or] H; try discriminate; assumption.
Defined.

Lemma catalog_db_categories_distinct : NoDup (Db.categories catalog_db).
Proof.
  simpl. repeat constructor; simpl; intros H;
    decompose [or] H; try discriminate; assumption.
Defined.

Lemma category_count_is_its_membership_rows_witness :
  Turso.cwc_business_count
    (Turso.mkCategoryWithCount (Category.mk 2 "Pub" "pub" true) 2)
  = Z.of_nat
      (List.length
         (membership_rows catalog_db
            (Turso.cwc_category
               (Turso.mkCategoryWithCount
                  (Category.mk 2 "Pub" "pub" true) 2)))).
Proof.
  apply (category_count_is_its_membership_rows catalog_db
           (Turso.mkCategoryWithCount (Category.mk 2 "Pub" "pub" true) 2)).
  - exact catalog_db_ids_unique.
  - exact catalog_db_categories_distinct.
  - vm_compute. right. left. reflexivity.
Defined.

(** X20. Under the conditions of X19, and when in addition every
    membership row of the category names an active listing and no such
    row is stored twice, business_count is the number of distinct active
    listings that hold the category. *)
Theorem category_count_is_right_for_clean_rows (db : Db.t)
    (cw : Turso.CategoryWithCount)
    (Hids : NoDup (map Business.id (Db.businesses db)))
    (Hrows : NoDup (Db.categories db))
    (Hin : In cw (Turso.getCategoriesWithCounts db))
    (Hactive : forall bc,
       In bc (membership_rows db (Turso.cwc_category cw)) ->
       exists b, In b (Db.businesses db)
                 /\ Business.id b = BusinessCategory.business_id bc
                 /\ Business.is_active b = true)
    (Hdistinct : NoDup (membership_rows db (Turso.cwc_category cw))) :
  Turso.cwc_business_count cw
  = distinct_active_holders db (Category.id (Turso.cwc_category cw)).
Proof.
  rewrite (category_count_is_its_membership_rows_aux db cw Hids Hrows Hin).
  unfold distinct_active_holders. do 2 f_equal.
  set (c := Turso.cwc_category cw) in *.
  assert (List.filter
            (fun bc =>
               (BusinessCategory.category_id bc =? Category.id c)
               && existsb
                    (fun b =>
                       (Business.id b =? BusinessCategory.business_id bc)
                       && Business.is_active b)
                    (Db.businesses db))
            (Db.business_categories db)
          = membership_rows db c) as ->.
  { unfold membership_rows. apply filter_ext_in. intros bc Hbc.
    rewrite (Z.eqb_sym (BusinessCategory.category_id bc)).
    destruct (Category.id c =? BusinessCategory.category_id bc) eqn:E;
      [|reflexivity].
    simpl. apply existsb_exists.
    destruct (Hactive bc) as [b [Hb [Hid Ha]]].
    { apply filter_In. split; assumption. }
    exists b. split; [exact Hb|]. rewrite Hid, Z.eqb_refl, Ha. reflexivity. }
  rewrite (group_keys_NoDup Z.eqb Z.eqb_eq); [now rewrite length_map|].
  assert (forall x y, In x (membership_rows db c) ->
            In y (membership_rows db c) ->
            BusinessCategory.business_id x = BusinessCategory.business_id y ->
            x = y) as Hinj.
  { intros [i k] [i' k'] Hx Hy E. simpl in E. subst i'.
    apply filter_In in Hx, Hy. destruct Hx as [_ Hx], Hy as [_ Hy].
    simpl in Hx, Hy. apply Z.eqb_eq in Hx, Hy. congruence. }
  revert Hdistinct Hinj. generalize (membership_rows db c). intros l.
  induction 1 as [|x l Hn Hd IH]; intros Hinj; simpl; constructor.
  - intros C. apply in_map_iff in C. destruct C as [y [E Hy]].
    apply Hn. rewrite (Hinj x y); auto; [now left | now right].
  - apply IH. intros a b Ha Hb. apply Hinj; now right.
Qed.

Lemma category_count_is_right_for_clean_rows_witness :
  Turso.cwc_business_count
    (Turso.mkCategoryWithCount (Category.mk 1 "Casino" "casino" true) 2)
  = distinct_active_holders facet_db
      (Category.id
         (Turso.cwc_category
            (Turso.mkCategoryWithCount
               (Category.mk 1 "Casino" "casino" true) 2))).
Proof.
  apply (category_count_is_right_for_clean_rows facet_db
           (Turso.mkCategoryWithCount
              (Category.mk 1 "Casino" "casino" true) 2)).
  - exact facet_db_ids_unique.
  - exact facet_db_categories_distinct.
  - vm_compute. left. reflexivity.
  - intros bc H. vm_compute in H. destruct H as [<-|[<-|[]]].
    + exists L1. split; [left; reflexivity | split; reflexivity].
    + exists L2. split; [right; left; reflexivity | split; reflexivity].
  - vm_compute. repeat constructor; simpl; intros H;
      decompose [or] H; try discriminate; assumption.
Defined.

(** *** Regions of one state *)

Lemma orderBy_agree {R : Type} (before before' : R -> R -> bool)
    (l : list R) :
  (forall x y, In x l -> In y l -> before x y = before' x y) ->
  orderBy before l = orderBy before' l.
Proof.
  induction l as [|a l IH]; intros H; [reflexivity|].
  simpl. rewrite <- IH by (intros; apply H; now right).
  assert (forall y, In y (orderBy before l) -> before a y = before' a y)
    as Ha.
  { intros y Hy. apply H; [now left|]. right. now apply orderBy_In in Hy. }
  revert Ha. generalize (orderBy before l). intros s.
  induction s as [|b s IHs]; intros Ha; [reflexivity|]. simpl.
  rewrite <- (Ha b (or_introl eq_refl)).
  destruct (before a b); [reflexivity|]. f_equal. apply IHs.
  intros y Hy. apply Ha. now right.
Qed.

Lemma region_groups (db : Db.t) (p : Region.t -> bool) :
  NoDup (Db.regions db) ->
  group_keys Region.eqb
    (map (fun r => fst (fst r))
       (List.filter (fun r => p (fst (fst r))) (Turso.region_join db)))
  = List.filter p (Db.regions db).
Proof.
  intros Hnd. unfold Turso.region_join.
  rewrite (joined_filter
             (fun r br => Region.id r =? BusinessRegion.region_id br)
             BusinessRegion.business_id p).
  apply (joined_groups Region.eqb Region_eqb_spec).
  now apply NoDup_filter.
Qed.

Lemma region_rows_of_state (db : Db.t) (p : Region.t -> bool)
    (g : Region.t) :
  p g = true ->
  List.filter (fun r => Region.eqb g (fst (fst r)))
    (List.filter (fun r => p (fst (fst r))) (Turso.region_join db))
  = List.filter (fun r => Region.eqb g (fst (fst r)))
      (Turso.region_join db).
Proof.
  intros Hp. rewrite filter_filter. apply filter_ext. intros r.
  destruct (Region.eqb g (fst (fst r))) eqn:E;
    [|now rewrite andb_false_r].
  apply Region_eqb_spec in E. rewrite <- E, Hp. reflexivity.
Qed.

Lemma region_groups_all (db : Db.t) :
  NoDup (Db.regions db) ->
  group_keys Region.eqb (map (fun r => fst (fst r)) (Turso.region_join db))
  = Db.regions db.
Proof.
  intros Hnd. unfold Turso.region_join.
  now apply (joined_groups Region.eqb Region_eqb_spec).
Qed.

(** X21. When the regions table holds no row twice, getRegionsByState(s)
    returns exactly the rows of getRegionsWithCounts() whose state is s
    (compared exactly, case and all), in the same order and with the same
    counts. *)
Theorem regions_by_state_is_the_state_slice (db : Db.t) (state : string)
    (Hrows : NoDup (Db.regions db)) :
  Turso.getRegionsByState db state
  = List.filter
      (fun rw => String.eqb (Region.state (Turso.rwc_region rw)) state)
      (Turso.getRegionsWithCounts db).
Proof.
  unfold Turso.getRegionsByState, Turso.getRegionsWithCounts.
  rewrite (filter_orderBy
             (fun x y => Turso.asc_then_asc Region.state Region.name
                           (Turso.rwc_region x) (Turso.rwc_region y))).
  2:{ intros x y. apply asc_then_asc_total. }
  2:{ intros x y z. apply asc_then_asc_trans. }
  unfold Turso.count_regions.
  rewrite (region_groups db (eq_text Region.state state) Hrows).
  rewrite (region_groups_all db Hrows).
  rewrite filter_map_commute. cbn [Turso.rwc_region].
  fold (eq_text Region.state state).
  set (counted := fun g : Region.t =>
         Turso.mkRegionWithCount g
           (Turso.count_non_null
              (fun r : (Region.t * option BusinessRegion.t)
                       * option Business.t =>
                 option_map BusinessRegion.business_id (snd (fst r)))
              (List.filter (fun r => Region.eqb g (fst (fst r)))
                 (Turso.region_join db)))).
  transitivity
    (orderBy (fun x y => String.leb (Region.name (Turso.rwc_region x))
                                    (Region.name (Turso.rwc_region y)))
       (map counted
          (List.filter (eq_text Region.state state) (Db.regions db)))).
  - f_equal. apply map_ext_in. intros g Hg.
    apply filter_In in Hg. destruct Hg as [_ Hg]. unfold counted.
    now rewrite (region_rows_of_state db (eq_text Region.state state) g Hg).
  - apply orderBy_agree. intros x y Hx Hy.
    apply in_map_iff in Hx, Hy.
    destruct Hx as [gx [<- Hx]], Hy as [gy [<- Hy]].
    apply filter_In in Hx, Hy. destruct Hx as [_ Hx], Hy as [_ Hy].
    unfold eq_text in Hx, Hy. apply String.eqb_eq in Hx, Hy.
    cbn [Turso.rwc_region counted]. unfold Turso.asc_then_asc.
    now rewrite Hx, Hy, String.eqb_refl.
Qed.

Lemma facet_db_regions_distinct : NoDup (Db.regions facet_db).
Proof.
  simpl. repeat constructor; simpl; intros H;
    decompose [or] H; try discriminate; assumption.
Defined.

Lemma regions_by_state_is_the_state_slice_witness :
  Turso.getRegionsByState facet_db "WA"
  = List.filter
      (fun rw => String.eqb (Region.state (Turso.rwc_region rw)) "WA")
      (Turso.getRegionsWithCounts facet_db).
Proof.
  apply (regions_by_state_is_the_state_slice facet_db "WA").
  exact facet_db_regions_distinct.
Defined.

(* ================================================================== *)
(** ** Further properties: states with counts *)

Lemma map_get_In {K V : Type} (eqb : K -> K -> bool)
    (eqb_spec : forall x y, eqb x y = true <-> x = y)
    (m : list (K * V)) (k : K) (v : V) :
  NoDup (map fst m) -> In (k, v) m -> map_get eqb m k = Some v.
Proof.
  induction m as [|[k' v'] m IH]; simpl; intros Hnd Hin; [destruct Hin|].
  inversion Hnd as [|? ? Hn Hd]; subst.
  destruct Hin as [E|Hin].
  - injection E as -> ->. now rewrite (proj2 (eqb_spec k k) eq_refl).
  - destruct (eqb k' k) eqn:E; [|now apply IH].
    apply eqb_spec in E. subst k'. exfalso. apply Hn.
    now apply (in_map fst) in Hin.
Qed.

(** The merged map behind getStatesWithCounts. *)
Lemma states_map_spec (localeCompare : string -> string -> Z) (db : Db.t) :
  exists m : list (string * (Z * Z)),
    Turso.getStatesWithCounts localeCompare db
    = orderBy (fun a b => localeCompare (Turso.sc_state a) (Turso.sc_state b)
                          <=? 0)
        (map (fun entry =>
                Turso.mkStateCounts (fst entry) (fst (snd entry))
                  (snd (snd entry))) m)
    /\ NoDup (map fst m)
    /\ forall s,
         map_get String.eqb m s
         = if in_dec string_dec s (listing_states db ++ region_states db)
           then Some (rows_in_state (listing_states db) s,
                      rows_in_state (region_states db) s)
           else None.
Proof.
  unfold Turso.getStatesWithCounts. cbv zeta.
  replace (List.filter (eq_bool Business.is_active true) (Db.businesses db))
    with (List.filter (fun b => Business.is_active b) (Db.businesses db)).
  2:{ apply filter_ext. intros b. unfold eq_bool.
      now destruct (Business.is_active b). }
  fold (listing_states db). fold (region_states db).
  set (m1 := fold_left _ (Turso.count_by_state (listing_states db)) []).
  set (m2 := fold_left _ (Turso.count_by_state (region_states db)) m1).
  exists m2. split; [reflexivity|]. split.
  { apply region_loop_NoDup, business_loop_NoDup. constructor. }
  intros s.
  assert (map_get String.eqb m1 s
          = if in_dec string_dec s (listing_states db)
            then Some (rows_in_state (listing_states db) s, 0)
            else None) as H1.
  { unfold m1.
    rewrite (business_loop_get (rows_in_state (listing_states db)))
      by (intros; now apply count_by_state_items).
    destruct (in_dec string_dec s (map fst _)) as [H|H];
      rewrite count_by_state_keys in H;
      destruct (in_dec string_dec s (listing_states db)); tauto. }
  assert (held_business_count m1 s = rows_in_state (listing_states db) s)
    as Hb.
  { unfold held_business_count. rewrite H1.
    destruct (in_dec string_dec s (listing_states db)); [reflexivity|].
    symmetry. now apply rows_in_state_absent. }
  unfold m2.
  rewrite (region_loop_get (rows_in_state (region_states db)))
    by (intros; now apply count_by_state_items).
  destruct (in_dec string_dec s (map fst _)) as [H|H];
    rewrite count_by_state_keys in H.
  - rewrite Hb.
    destruct (in_dec string_dec s (listing_states db ++ region_states db))
      as [|C]; [reflexivity|].
    exfalso. apply C, in_or_app. now right.
  - rewrite H1, (rows_in_state_absent (region_states db) s H).
    destruct (in_dec string_dec s (listing_states db ++ region_states db))
      as [Hu|Hu];
      destruct (in_dec string_dec s (listing_states db)) as [Hl|Hl];
      try reflexivity.
    + apply in_app_or in Hu. tauto.
    + exfalso. apply Hu, in_or_app. now left.
Qed.

Lemma rows_in_state_present (states : list string) (s : string) :
  In s states -> 0 < rows_in_state states s.
Proof.
  intros H. unfold rows_in_state.
  assert (In s (List.filter (String.eqb s) states)) as Hin
    by (apply filter_In; split; [exact H | apply String.eqb_refl]).
  destruct (List.filter (String.eqb s) states); [destruct Hin|].
  simpl List.length. lia.
Qed.

(** X22. getStatesWithCounts invents nothing: every row of its output
    names a state that an active listing or a region has, carries the
    number of active listings and the number of regions of exactly that
    state, has at least one of the two counts positive, and no state is
    named by two rows. *)
Theorem state_rows_come_from_the_tables
    (localeCompare : string -> string -> Z) (db : Db.t) :
  NoDup (map Turso.sc_state (Turso.getStatesWithCounts localeCompare db))
  /\ forall row, In row (Turso.getStatesWithCounts localeCompare db) ->
       (In (Turso.sc_state row) (listing_states db)
        \/ In (Turso.sc_state row) (region_states db))
       /\ Turso.sc_business_count row
          = rows_in_state (listing_states db) (Turso.sc_state row)
       /\ Turso.sc_region_count row
          = rows_in_state (region_states db) (Turso.sc_state row)
       /\ (0 < Turso.sc_business_count row
           \/ 0 < Turso.sc_region_count row).
Proof.
  destruct (states_map_spec localeCompare db) as [m [-> [Hnd Hget]]].
  split.
  - apply NoDup_map_orderBy. rewrite map_map. exact Hnd.
  - intros row Hrow. apply orderBy_In, in_map_iff in Hrow.
    destruct Hrow as [[s [b r]] [<- Hin]]. simpl.
    pose proof (map_get_In String.eqb String.eqb_eq m s (b, r) Hnd Hin)
      as Hs.
    rewrite Hget in Hs.
    destruct (in_dec string_dec s _) as [Hu|]; [|discriminate].
    injection Hs as <- <-. apply in_app_or in Hu.
    split; [exact Hu|]. split; [reflexivity|]. split; [reflexivity|].
    destruct Hu as [Hu|Hu]; [left|right]; now apply rows_in_state_present.
Qed.

Lemma total_permutation (l l' : list Z) :
  Permutation l l' -> total l = total l'.
Proof.
  unfold total.
  induction 1 as [|x l l' H IH|x y l|l l' l'' H1 IH1 H2 IH2]; simpl; lia.
Qed.

Lemma total_rows_in_state (keys states : list string) :
  NoDup keys -> (forall s, In s states -> In s keys) ->
  total (map (rows_in_state states) keys) = Z.of_nat (List.length states).
Proof.
  intros Hnd. induction states as [|b states IH]; intros Hall.
  - unfold rows_in_state. simpl. clear.
    induction keys as [|k keys IH]; [reflexivity|].
    unfold total in *. simpl. now rewrite IH.
  - specialize (IH (fun s Hs => Hall s (or_intror Hs))).
    assert (In b keys) as Hb by (apply Hall; now left).
    cbn [List.length]. rewrite Nat2Z.inj_succ, <- IH. clear IH Hall.
    induction keys as [|k keys IHk]; [destruct Hb|].
    inversion Hnd as [|? ? Hn Hd]; subst.
    unfold total in *. cbn [map fold_right].
    unfold rows_in_state at 1 3. cbn [List.filter].
    destruct (String.eqb_spec k b) as [->|Hne].
    + cbn [List.length]. rewrite Nat2Z.inj_succ.
      assert (map (rows_in_state (b :: states)) keys
              = map (rows_in_state states) keys) as ->; [|lia].
      apply map_ext_in. intros s Hs. unfold rows_in_state. cbn [List.filter].
      destruct (String.eqb_spec s b) as [->|]; [contradiction|reflexivity].
    + destruct Hb as [C|Hb]; [congruence|].
      rewrite (IHk Hd Hb). unfold rows_in_state. lia.
Qed.

(** X23. The merge loses and repeats nothing: the business counts of the
    rows of getStatesWithCounts add up to the number of active listings,
    and their region counts add up to the number of regions. *)
Theorem state_counts_add_up (localeCompare : string -> string -> Z)
    (db : Db.t) :
  total (map Turso.sc_business_count
           (Turso.getStatesWithCounts localeCompare db))
  = Z.of_nat
      (List.length
         (List.filter (fun b => Business.is_active b) (Db.businesses db)))
  /\ total (map Turso.sc_region_count
              (Turso.getStatesWithCounts localeCompare db))
     = Z.of_nat (List.length (Db.regions db)).
Proof.
  destruct (states_map_spec localeCompare db) as [m [-> [Hnd Hget]]].
  assert (forall e, In e m ->
            snd e = (rows_in_state (listing_states db) (fst e),
                     rows_in_state (region_states db) (fst e))) as Hval.
  { intros [s v] Hin. simpl.
    pose proof (map_get_In String.eqb String.eqb_eq m s v Hnd Hin) as Hs.
    rewrite Hget in Hs. destruct (in_dec string_dec s _); congruence. }
  assert (forall s, In s (listing_states db ++ region_states db) ->
            In s (map fst m)) as Hkeys.
  { intros s Hs. specialize (Hget s).
    destruct (in_dec string_dec s _) as [|C]; [|contradiction].
    destruct (in_dec string_dec s (map fst m)) as [|Hn]; [assumption|].
    apply (map_get_None String.eqb String.eqb_eq) in Hn. congruence. }
  split.
  - rewrite (total_permutation _
               (map Turso.sc_business_count
                  (map (fun entry =>
                          Turso.mkStateCounts (fst entry) (fst (snd entry))
                            (snd (snd entry))) m)))
      by apply Permutation_map, orderBy_perm.
    rewrite map_map. cbn [Turso.sc_business_count].
    rewrite (map_ext_in _
               (fun e => rows_in_state (listing_states db) (fst e)))
      by (intros e He; now rewrite (Hval e He)).
    rewrite <- (map_map fst (rows_in_state (listing_states db))).
    rewrite total_rows_in_state; [unfold listing_states;
                                  now rewrite length_map|exact Hnd|].
    intros s Hs. apply Hkeys, in_or_app. now left.
  - rewrite (total_permutation _
               (map Turso.sc_region_count
                  (map (fun entry =>
                          Turso.mkStateCounts (fst entry) (fst (snd entry))
                            (snd (snd entry))) m)))
      by apply Permutation_map, orderBy_perm.
    rewrite map_map. cbn [Turso.sc_region_count].
    rewrite (map_ext_in _
               (fun e => rows_in_state (region_states db) (fst e)))
      by (intros e He; now rewrite (Hval e He)).
    rewrite <- (map_map fst (rows_in_state (region_states db))).
    rewrite total_rows_in_state; [unfold region_states;
                                  now rewrite length_map|exact Hnd|].
    intros s Hs. apply Hkeys, in_or_app. now right.
Qed.

(** *** The private helpers of the simple service *)

Lemma collected_lookup {R : Type} (key column : R -> Z) (rows : list R)
    (ids : list Z) (k : Z) :
  get_or_empty
    (Simple.collect
       (map (fun r => (key r, column r))
          (List.filter (sql_or (map (fun id => eq_num key id) ids)) rows)))
    k
  = if includes ids k
    then map column (List.filter (fun r => key r =? k) rows)
    else [].
Proof.
  rewrite collect_get.
  induction rows as [|r rows IH]; simpl.
  - now destruct (includes ids k).
  - rewrite sql_or_eq_num.
    destruct (key r =? k) eqn:E.
    + apply Z.eqb_eq in E. rewrite E.
      destruct (includes ids k) eqn:Hk.
      * simpl. rewrite E, Z.eqb_refl. simpl. f_equal. exact IH.
      * exact IH.
    + destruct (includes ids (key r)); [|exact IH].
      simpl. rewrite E. exact IH.
Qed.

Lemma helper_of_no_ids (ids : list Z) (k : Z) :
  (List.length ids =? 0)%nat = true -> includes ids k = false.
Proof. destruct ids; [reflexivity|discriminate]. Qed.

(** X24.  The [Map] a private helper of the simple service returns holds,
    for every listing id it was asked about, the facet ids of that listing's
    membership rows in table order, and nothing for any other id; this is
    so for categories, amenities and regions alike. *)
Theorem helper_map_holds_the_membership_rows (db : Db.t)
    (businessIds : list Z) (k : Z) :
  get_or_empty (Simple.getBusinessesWithCategories db businessIds) k
  = (if includes businessIds k
     then map BusinessCategory.category_id
            (List.filter (fun bc => BusinessCategory.business_id bc =? k)
               (Db.business_categories db))
     else [])
  /\ get_or_empty (Simple.getBusinessesWithAmenities db businessIds) k
     = (if includes businessIds k
        then map BusinessAmenity.amenity_id
               (List.filter (fun ba => BusinessAmenity.business_id ba =? k)
                  (Db.business_amenities db))
        else [])
  /\ get_or_empty (Simple.getBusinessesWithRegions db businessIds) k
     = (if includes businessIds k
        then map BusinessRegion.region_id
               (List.filter (fun br => BusinessRegion.business_id br =? k)
                  (Db.business_regions db))
        else []).
Proof.
  unfold Simple.getBusinessesWithCategories,
    Simple.getBusinessesWithAmenities, Simple.getBusinessesWithRegions.
  cbv zeta.
  destruct (List.length businessIds =? 0)%nat eqn:E.
  - rewrite (helper_of_no_ids _ k E). now repeat split.
  - repeat split; apply collected_lookup.
Qed.

(** *** The raw-SQL service against the query-builder service *)



Section Blocks.
Context {A B K : Type} (eqb : B -> B -> bool) (key : B -> K).
Context (h : A -> B) (n : A -> nat).
Hypothesis eqb_refl : forall x, eqb x x = true.
Hypothesis eqb_key : forall x y, eqb x y = true -> key x = key y.


End Blocks.

Lemma existsb_flat_map {A B : Type} (p : B -> bool) (g : A -> list B)
    (l : list A) :
  existsb p (flat_map g l) = existsb (fun x => existsb p (g x)) l.
Proof.
  induction l as [|a l IH]; simpl; [reflexivity|].
  now rewrite existsb_app, IH.
Qed.







(** A condition that factors over the three joined tables holds on some
    row of the product exactly when each factor holds somewhere. *)
Section Product.
Context {X Y Z T : Type} (mk : X -> Y -> Z -> T) (W : T -> bool).
Context (s : bool) (cx : X -> bool) (cy : Y -> bool) (cz : Z -> bool).
Hypothesis W_factors :
  forall x y z, W (mk x y z) = s && cx x && cy y && cz z.



End Product.










(** *** Amenity and region counts *)

Lemma amenity_groups (db : Db.t) :
  NoDup (Db.amenities db) ->
  group_keys Amenity.eqb
    (map (fun r => fst (fst r)) (Turso.amenity_join db))
  = List.filter (fun a => Bool.eqb (Amenity.is_active a) true)
      (Db.amenities db).
Proof.
  intros Hnd. unfold Turso.amenity_join.
  rewrite (joined_filter
             (fun a ba => Amenity.id a =? BusinessAmenity.amenity_id ba)
             BusinessAmenity.business_id
             (fun a => Bool.eqb (Amenity.is_active a) true)).
  apply (joined_groups Amenity.eqb Amenity_eqb_spec).
  now apply NoDup_filter.
Qed.

Lemma facet_db_amenities_distinct : NoDup (Db.amenities facet_db).
Proof.
  simpl. repeat constructor; simpl; intros H;
    decompose [or] H; try discriminate; assumption.
Defined.

(** X26. With listing ids unique and no amenity or region row repeated,
    getAmenitiesWithCounts returns active amenities only, each with the
    number of membership rows that name it, and getRegionsWithCounts
    returns every region with the number of membership rows that name it:
    as for categories, the is_active flag of the listing does not enter
    the count. *)
Theorem amenity_and_region_counts_are_membership_rows (db : Db.t)
    (Hids : NoDup (map Business.id (Db.businesses db)))
    (Hamenities : NoDup (Db.amenities db))
    (Hregions : NoDup (Db.regions db)) :
  (forall aw, In aw (Turso.getAmenitiesWithCounts db) ->
     Amenity.is_active (Turso.awc_amenity aw) = true
     /\ Turso.awc_business_count aw
        = Z.of_nat (List.length (amenity_rows db (Turso.awc_amenity aw))))
  /\ (forall rw, In rw (Turso.getRegionsWithCounts db) ->
        Turso.rwc_business_count rw
        = Z.of_nat (List.length (region_rows db (Turso.rwc_region rw))))
  /\ map Turso.rwc_region (Turso.getRegionsWithCounts db)
     = orderBy (Turso.asc_then_asc Region.state Region.name) (Db.regions db).
Proof.
  split; [|split].
  - intros aw Hin.
    unfold Turso.getAmenitiesWithCounts in Hin. cbv zeta in Hin.
    apply orderBy_In, in_map_iff in Hin. destruct Hin as [a [<- Ha]].
    rewrite amenity_groups in Ha by exact Hamenities.
    cbn [Turso.awc_business_count Turso.awc_amenity]. split.
    + apply filter_In in Ha. destruct Ha as [_ Ha].
      now apply eqb_prop in Ha.
    + unfold Turso.amenity_join.
      rewrite (joined_filter
                 (fun a ba => Amenity.id a =? BusinessAmenity.amenity_id ba)
                 BusinessAmenity.business_id
                 (fun a => Bool.eqb (Amenity.is_active a) true)).
      apply (joined_count Amenity.eqb Amenity_eqb_spec).
      * now apply NoDup_filter.
      * exact Ha.
      * exact Hids.
  - intros rw Hin.
    unfold Turso.getRegionsWithCounts, Turso.count_regions in Hin.
    apply orderBy_In, in_map_iff in Hin. destruct Hin as [g [<- Hg]].
    rewrite region_groups_all in Hg by exact Hregions.
    cbn [Turso.rwc_business_count Turso.rwc_region].
    unfold Turso.region_join.
    now apply (joined_count Region.eqb Region_eqb_spec).
  - unfold Turso.getRegionsWithCounts, Turso.count_regions.
    rewrite (orderBy_map Turso.rwc_region
               (Turso.asc_then_asc Region.state Region.name)).
    rewrite map_map. cbn [Turso.rwc_region]. rewrite map_id.
    now rewrite region_groups_all.
Qed.

Lemma amenity_and_region_counts_are_membership_rows_witness :
  (forall aw, In aw (Turso.getAmenitiesWithCounts facet_db) ->
     Amenity.is_active (Turso.awc_amenity aw) = true
     /\ Turso.awc_business_count aw
        = Z.of_nat
            (List.length (amenity_rows facet_db (Turso.awc_amenity aw))))
  /\ (forall rw, In rw (Turso.getRegionsWithCounts facet_db) ->
        Turso.rwc_business_count rw
        = Z.of_nat
            (List.length (region_rows facet_db (Turso.rwc_region rw))))
  /\ map Turso.rwc_region (Turso.getRegionsWithCounts facet_db)
     = orderBy (Turso.asc_then_asc Region.state Region.name)
         (Db.regions facet_db).
Proof.
  apply (amenity_and_region_counts_are_membership_rows facet_db).
  - exact facet_db_ids_unique.
  - exact facet_db_amenities_distinct.
  - exact facet_db_regions_distinct.
Defined.
